(** * BranitzMultiAgent: the agent tool layer of [simple_enhanced_tools.py]

    A shallow embedding of the tool functions of [src/simple_enhanced_tools.py]
    and the properties of its street index, street filter, result aggregator,
    report renderer and results lister.

    Conventions of the embedding.
    - A Python [str] is a [string], the bytes of its UTF-8 form; the order of
      [sorted] on such strings is the byte order, which is the code point
      order.  [str.lower] and [str.strip] read it character by character, as
      CPython does: lower-casing by the Unicode Character Database (the
      final sigma included), trimming of the Unicode white space.
    - A value produced by [json.load] / [json.loads] is a [json] tree; Python's
      dynamically typed operations on such values ([v.get(k, d)], [v[k]],
      iteration, truth value, formatting) are the [py_*] functions, which
      raise the exception CPython raises on a value of the wrong type.
    - A Python [float] is a binary64 [float]; [nan] is pandas' missing-value
      marker.
    - A call that may raise returns a [res]; [try]/[except] is a [match] on it.
    - The collaborator package, the file system and the clock are not part of
      the repository: what they answer to an invocation is a record of
      outcomes ([hp_world], [dh_world], [kpi_world]) the tool is applied to.
    - Of what a tool prints on standard output, the line before its [try]
      block is part of the model (section "The tools as they are called"):
      an exception of that [print] is outside every handler.  The lines
      printed inside a [try] block, and the flag [STREET_FINAL_AVAILABLE],
      which is written and never read, are not. *)

From Stdlib Require Import ZArith List String Ascii Floats.
From stdpp Require Import base option list strings gmap sorting pretty.

#[local] Set Warnings "-inexact-float,-register-all,-clear-no-such-hyp".

Local Open Scope Z_scope.

(** ** Exceptions *)

Inductive exn_kind :=
  | FileNotFoundError | JSONDecodeError | KeyError | TypeError
  | AttributeError | ValueError | OverflowError | ZeroDivisionError
  | ImportError | OSError | RuntimeError.

Global Instance exn_kind_eq_dec : EqDecision exn_kind.
Proof. solve_decision. Defined.

(** An exception: its class and the text [str(e)] gives. *)
Record exn := Exn { exn_class : exn_kind; exn_str : string }.

Inductive res (A : Type) :=
  | Ret (a : A)
  | Raise (e : exn).
Global Arguments Ret {A} a.
Global Arguments Raise {A} e.

Global Instance res_ret : MRet res := λ A a, Ret a.
Global Instance res_bind : MBind res := λ A B f m,
  match m with Ret a => f a | Raise e => Raise e end.

(** [for x in l: s = body(x, s)], stopping at the first exception. *)
Fixpoint for_each {A S : Type} (body : A → S → res S) (l : list A) (s : S) : res S :=
  match l with
  | [] => Ret s
  | x :: l' => s' ← body x s; for_each body l' s'
  end.

Definition returned {A : Type} (r : res A) : bool :=
  match r with Ret _ => true | Raise _ => false end.

(** ** Python strings *)

Module Str.

(** A [str] is kept as its UTF-8 form: a character (a code point) is one
    to four bytes. *)
Definition code (b : ascii) : Z := Z.of_N (N_of_ascii b).
Definition byte (n : Z) : ascii := ascii_of_N (Z.to_N n).

Fixpoint bytes (l : list Z) : string :=
  match l with
  | [] => EmptyString
  | n :: l' => String (byte n) (bytes l')
  end.

Definition encode_point (c : Z) : string :=
  if c <? 0x80 then bytes [c]
  else if c <? 0x800 then bytes [0xC0 + c / 64; 0x80 + c mod 64]
  else if c <? 0x10000
  then bytes [0xE0 + c / 4096; 0x80 + (c / 64) mod 64; 0x80 + c mod 64]
  else bytes [0xF0 + c / 262144; 0x80 + (c / 4096) mod 64;
              0x80 + (c / 64) mod 64; 0x80 + c mod 64].

(** A character of a string: a code point, or a byte that belongs to no
    well-formed sequence (none in the form of a [str]). *)
Inductive char := Point (c : Z) | Stray (b : ascii).

Definition continuation (b : ascii) : bool := (0x80 <=? code b) && (code b <? 0xC0).

(** The code point at the head of [s] and the number of its bytes. *)
Definition head_point (s : string) : option (Z * nat) :=
  match s with
  | EmptyString => None
  | String b1 r1 =>
      if code b1 <? 0x80 then Some (code b1, 1%nat) else
      match r1 with
      | EmptyString => None
      | String b2 r2 =>
          let c2 := (code b1 - 0xC0) * 64 + (code b2 - 0x80) in
          if (0xC0 <=? code b1) && (code b1 <? 0xE0) && continuation b2 && (0x80 <=? c2)
          then Some (c2, 2%nat) else
          match r2 with
          | EmptyString => None
          | String b3 r3 =>
              let c3 := (code b1 - 0xE0) * 4096 + (code b2 - 0x80) * 64 + (code b3 - 0x80) in
              if (0xE0 <=? code b1) && (code b1 <? 0xF0) && continuation b2 &&
                 continuation b3 && (0x800 <=? c3)
              then Some (c3, 3%nat) else
              match r3 with
              | EmptyString => None
              | String b4 _ =>
                  let c4 := (code b1 - 0xF0) * 262144 + (code b2 - 0x80) * 4096 +
                            (code b3 - 0x80) * 64 + (code b4 - 0x80) in
                  if (0xF0 <=? code b1) && (code b1 <? 0xF8) && continuation b2 &&
                     continuation b3 && continuation b4 &&
                     (0x10000 <=? c4) && (c4 <? 0x110000)
                  then Some (c4, 4%nat) else None
              end
          end
      end
  end.

(** The characters of [s]; [skip] bytes belong to the character before. *)
Fixpoint decode_from (skip : nat) (s : string) : list char :=
  match s with
  | EmptyString => []
  | String b r =>
      match skip with
      | S k => decode_from k r
      | O =>
          match head_point s with
          | Some (c, n) => Point c :: decode_from (Nat.pred n) r
          | None => Stray b :: decode_from 0 r
          end
      end
  end.

Definition decode (s : string) : list char := decode_from 0 s.

Fixpoint encode (l : list char) : string :=
  match l with
  | [] => EmptyString
  | Point c :: l' => encode_point c +:+ encode l'
  | Stray b :: l' => String b (encode l')
  end.

(** The simple lower-case mappings of the Unicode Character Database
    (version 14.0.0, the one of CPython 3.11): a code point [c] with
    [first <= c <= last] and [(c - first) mod step = 0] maps to
    [c + delta].  The ranges are in ascending order. *)
Definition lower_ranges : list (Z * Z * Z * Z) :=
  [ (0x41, 0x5A, 1, 32); (0xC0, 0xD6, 1, 32); (0xD8, 0xDE, 1, 32); (0x100, 0x12E, 2, 1);
    (0x132, 0x136, 2, 1); (0x139, 0x147, 2, 1); (0x14A, 0x176, 2, 1); (0x178, 0x178, 1, (-121));
    (0x179, 0x17D, 2, 1); (0x181, 0x181, 1, 210); (0x182, 0x184, 2, 1); (0x186, 0x186, 1, 206);
    (0x187, 0x187, 1, 1); (0x189, 0x18A, 1, 205); (0x18B, 0x18B, 1, 1); (0x18E, 0x18E, 1, 79);
    (0x18F, 0x18F, 1, 202); (0x190, 0x190, 1, 203); (0x191, 0x191, 1, 1); (0x193, 0x193, 1, 205);
    (0x194, 0x194, 1, 207); (0x196, 0x196, 1, 211); (0x197, 0x197, 1, 209); (0x198, 0x198, 1, 1);
    (0x19C, 0x19C, 1, 211); (0x19D, 0x19D, 1, 213); (0x19F, 0x19F, 1, 214); (0x1A0, 0x1A4, 2, 1);
    (0x1A6, 0x1A6, 1, 218); (0x1A7, 0x1A7, 1, 1); (0x1A9, 0x1A9, 1, 218); (0x1AC, 0x1AC, 1, 1);
    (0x1AE, 0x1AE, 1, 218); (0x1AF, 0x1AF, 1, 1); (0x1B1, 0x1B2, 1, 217); (0x1B3, 0x1B5, 2, 1);
    (0x1B7, 0x1B7, 1, 219); (0x1B8, 0x1B8, 1, 1); (0x1BC, 0x1BC, 1, 1); (0x1C4, 0x1C4, 1, 2);
    (0x1C5, 0x1C5, 1, 1); (0x1C7, 0x1C7, 1, 2); (0x1C8, 0x1C8, 1, 1); (0x1CA, 0x1CA, 1, 2);
    (0x1CB, 0x1DB, 2, 1); (0x1DE, 0x1EE, 2, 1); (0x1F1, 0x1F1, 1, 2); (0x1F2, 0x1F4, 2, 1);
    (0x1F6, 0x1F6, 1, (-97)); (0x1F7, 0x1F7, 1, (-56)); (0x1F8, 0x21E, 2, 1); (0x220, 0x220, 1, (-130));
    (0x222, 0x232, 2, 1); (0x23A, 0x23A, 1, 10795); (0x23B, 0x23B, 1, 1); (0x23D, 0x23D, 1, (-163));
    (0x23E, 0x23E, 1, 10792); (0x241, 0x241, 1, 1); (0x243, 0x243, 1, (-195)); (0x244, 0x244, 1, 69);
    (0x245, 0x245, 1, 71); (0x246, 0x24E, 2, 1); (0x370, 0x372, 2, 1); (0x376, 0x376, 1, 1);
    (0x37F, 0x37F, 1, 116); (0x386, 0x386, 1, 38); (0x388, 0x38A, 1, 37); (0x38C, 0x38C, 1, 64);
    (0x38E, 0x38F, 1, 63); (0x391, 0x3A1, 1, 32); (0x3A3, 0x3AB, 1, 32); (0x3CF, 0x3CF, 1, 8);
    (0x3D8, 0x3EE, 2, 1); (0x3F4, 0x3F4, 1, (-60)); (0x3F7, 0x3F7, 1, 1); (0x3F9, 0x3F9, 1, (-7));
    (0x3FA, 0x3FA, 1, 1); (0x3FD, 0x3FF, 1, (-130)); (0x400, 0x40F, 1, 80); (0x410, 0x42F, 1, 32);
    (0x460, 0x480, 2, 1); (0x48A, 0x4BE, 2, 1); (0x4C0, 0x4C0, 1, 15); (0x4C1, 0x4CD, 2, 1);
    (0x4D0, 0x52E, 2, 1); (0x531, 0x556, 1, 48); (0x10A0, 0x10C5, 1, 7264); (0x10C7, 0x10C7, 1, 7264);
    (0x10CD, 0x10CD, 1, 7264); (0x13A0, 0x13EF, 1, 38864); (0x13F0, 0x13F5, 1, 8); (0x1C90, 0x1CBA, 1, (-3008));
    (0x1CBD, 0x1CBF, 1, (-3008)); (0x1E00, 0x1E94, 2, 1); (0x1E9E, 0x1E9E, 1, (-7615)); (0x1EA0, 0x1EFE, 2, 1);
    (0x1F08, 0x1F0F, 1, (-8)); (0x1F18, 0x1F1D, 1, (-8)); (0x1F28, 0x1F2F, 1, (-8)); (0x1F38, 0x1F3F, 1, (-8));
    (0x1F48, 0x1F4D, 1, (-8)); (0x1F59, 0x1F5F, 2, (-8)); (0x1F68, 0x1F6F, 1, (-8)); (0x1F88, 0x1F8F, 1, (-8));
    (0x1F98, 0x1F9F, 1, (-8)); (0x1FA8, 0x1FAF, 1, (-8)); (0x1FB8, 0x1FB9, 1, (-8)); (0x1FBA, 0x1FBB, 1, (-74));
    (0x1FBC, 0x1FBC, 1, (-9)); (0x1FC8, 0x1FCB, 1, (-86)); (0x1FCC, 0x1FCC, 1, (-9)); (0x1FD8, 0x1FD9, 1, (-8));
    (0x1FDA, 0x1FDB, 1, (-100)); (0x1FE8, 0x1FE9, 1, (-8)); (0x1FEA, 0x1FEB, 1, (-112)); (0x1FEC, 0x1FEC, 1, (-7));
    (0x1FF8, 0x1FF9, 1, (-128)); (0x1FFA, 0x1FFB, 1, (-126)); (0x1FFC, 0x1FFC, 1, (-9)); (0x2126, 0x2126, 1, (-7517));
    (0x212A, 0x212A, 1, (-8383)); (0x212B, 0x212B, 1, (-8262)); (0x2132, 0x2132, 1, 28); (0x2160, 0x216F, 1, 16);
    (0x2183, 0x2183, 1, 1); (0x24B6, 0x24CF, 1, 26); (0x2C00, 0x2C2F, 1, 48); (0x2C60, 0x2C60, 1, 1);
    (0x2C62, 0x2C62, 1, (-10743)); (0x2C63, 0x2C63, 1, (-3814)); (0x2C64, 0x2C64, 1, (-10727)); (0x2C67, 0x2C6B, 2, 1);
    (0x2C6D, 0x2C6D, 1, (-10780)); (0x2C6E, 0x2C6E, 1, (-10749)); (0x2C6F, 0x2C6F, 1, (-10783)); (0x2C70, 0x2C70, 1, (-10782));
    (0x2C72, 0x2C72, 1, 1); (0x2C75, 0x2C75, 1, 1); (0x2C7E, 0x2C7F, 1, (-10815)); (0x2C80, 0x2CE2, 2, 1);
    (0x2CEB, 0x2CED, 2, 1); (0x2CF2, 0x2CF2, 1, 1); (0xA640, 0xA66C, 2, 1); (0xA680, 0xA69A, 2, 1);
    (0xA722, 0xA72E, 2, 1); (0xA732, 0xA76E, 2, 1); (0xA779, 0xA77B, 2, 1); (0xA77D, 0xA77D, 1, (-35332));
    (0xA77E, 0xA786, 2, 1); (0xA78B, 0xA78B, 1, 1); (0xA78D, 0xA78D, 1, (-42280)); (0xA790, 0xA792, 2, 1);
    (0xA796, 0xA7A8, 2, 1); (0xA7AA, 0xA7AA, 1, (-42308)); (0xA7AB, 0xA7AB, 1, (-42319)); (0xA7AC, 0xA7AC, 1, (-42315));
    (0xA7AD, 0xA7AD, 1, (-42305)); (0xA7AE, 0xA7AE, 1, (-42308)); (0xA7B0, 0xA7B0, 1, (-42258)); (0xA7B1, 0xA7B1, 1, (-42282));
    (0xA7B2, 0xA7B2, 1, (-42261)); (0xA7B3, 0xA7B3, 1, 928); (0xA7B4, 0xA7C2, 2, 1); (0xA7C4, 0xA7C4, 1, (-48));
    (0xA7C5, 0xA7C5, 1, (-42307)); (0xA7C6, 0xA7C6, 1, (-35384)); (0xA7C7, 0xA7C9, 2, 1); (0xA7D0, 0xA7D0, 1, 1);
    (0xA7D6, 0xA7D8, 2, 1); (0xA7F5, 0xA7F5, 1, 1); (0xFF21, 0xFF3A, 1, 32); (0x10400, 0x10427, 1, 40);
    (0x104B0, 0x104D3, 1, 40); (0x10570, 0x1057A, 1, 39); (0x1057C, 0x1058A, 1, 39); (0x1058C, 0x10592, 1, 39);
    (0x10594, 0x10595, 1, 39); (0x10C80, 0x10CB2, 1, 64); (0x118A0, 0x118BF, 1, 32); (0x16E40, 0x16E5F, 1, 32);
    (0x1E900, 0x1E921, 1, 34) ].

(** The code points with the property Case_Ignorable, and the code points
    with the property Cased that are not Case_Ignorable (the only ones
    whose Cased property [str.lower] looks at), as ascending ranges. *)
Definition case_ignorable_ranges : list (Z * Z) :=
  [ (0x27, 0x27); (0x2E, 0x2E); (0x3A, 0x3A); (0x5E, 0x5E); (0x60, 0x60); (0xA8, 0xA8);
    (0xAD, 0xAD); (0xAF, 0xAF); (0xB4, 0xB4); (0xB7, 0xB8); (0x2B0, 0x36F); (0x374, 0x375);
    (0x37A, 0x37A); (0x384, 0x385); (0x387, 0x387); (0x483, 0x489); (0x559, 0x559); (0x55F, 0x55F);
    (0x591, 0x5BD); (0x5BF, 0x5BF); (0x5C1, 0x5C2); (0x5C4, 0x5C5); (0x5C7, 0x5C7); (0x5F4, 0x5F4);
    (0x600, 0x605); (0x610, 0x61A); (0x61C, 0x61C); (0x640, 0x640); (0x64B, 0x65F); (0x670, 0x670);
    (0x6D6, 0x6DD); (0x6DF, 0x6E8); (0x6EA, 0x6ED); (0x70F, 0x70F); (0x711, 0x711); (0x730, 0x74A);
    (0x7A6, 0x7B0); (0x7EB, 0x7F5); (0x7FA, 0x7FA); (0x7FD, 0x7FD); (0x816, 0x82D); (0x859, 0x85B);
    (0x888, 0x888); (0x890, 0x891); (0x898, 0x89F); (0x8C9, 0x902); (0x93A, 0x93A); (0x93C, 0x93C);
    (0x941, 0x948); (0x94D, 0x94D); (0x951, 0x957); (0x962, 0x963); (0x971, 0x971); (0x981, 0x981);
    (0x9BC, 0x9BC); (0x9C1, 0x9C4); (0x9CD, 0x9CD); (0x9E2, 0x9E3); (0x9FE, 0x9FE); (0xA01, 0xA02);
    (0xA3C, 0xA3C); (0xA41, 0xA42); (0xA47, 0xA48); (0xA4B, 0xA4D); (0xA51, 0xA51); (0xA70, 0xA71);
    (0xA75, 0xA75); (0xA81, 0xA82); (0xABC, 0xABC); (0xAC1, 0xAC5); (0xAC7, 0xAC8); (0xACD, 0xACD);
    (0xAE2, 0xAE3); (0xAFA, 0xAFF); (0xB01, 0xB01); (0xB3C, 0xB3C); (0xB3F, 0xB3F); (0xB41, 0xB44);
    (0xB4D, 0xB4D); (0xB55, 0xB56); (0xB62, 0xB63); (0xB82, 0xB82); (0xBC0, 0xBC0); (0xBCD, 0xBCD);
    (0xC00, 0xC00); (0xC04, 0xC04); (0xC3C, 0xC3C); (0xC3E, 0xC40); (0xC46, 0xC48); (0xC4A, 0xC4D);
    (0xC55, 0xC56); (0xC62, 0xC63); (0xC81, 0xC81); (0xCBC, 0xCBC); (0xCBF, 0xCBF); (0xCC6, 0xCC6);
    (0xCCC, 0xCCD); (0xCE2, 0xCE3); (0xD00, 0xD01); (0xD3B, 0xD3C); (0xD41, 0xD44); (0xD4D, 0xD4D);
    (0xD62, 0xD63); (0xD81, 0xD81); (0xDCA, 0xDCA); (0xDD2, 0xDD4); (0xDD6, 0xDD6); (0xE31, 0xE31);
    (0xE34, 0xE3A); (0xE46, 0xE4E); (0xEB1, 0xEB1); (0xEB4, 0xEBC); (0xEC6, 0xEC6); (0xEC8, 0xECD);
    (0xF18, 0xF19); (0xF35, 0xF35); (0xF37, 0xF37); (0xF39, 0xF39); (0xF71, 0xF7E); (0xF80, 0xF84);
    (0xF86, 0xF87); (0xF8D, 0xF97); (0xF99, 0xFBC); (0xFC6, 0xFC6); (0x102D, 0x1030); (0x1032, 0x1037);
    (0x1039, 0x103A); (0x103D, 0x103E); (0x1058, 0x1059); (0x105E, 0x1060); (0x1071, 0x1074); (0x1082, 0x1082);
    (0x1085, 0x1086); (0x108D, 0x108D); (0x109D, 0x109D); (0x10FC, 0x10FC); (0x135D, 0x135F); (0x1712, 0x1714);
    (0x1732, 0x1733); (0x1752, 0x1753); (0x1772, 0x1773); (0x17B4, 0x17B5); (0x17B7, 0x17BD); (0x17C6, 0x17C6);
    (0x17C9, 0x17D3); (0x17D7, 0x17D7); (0x17DD, 0x17DD); (0x180B, 0x180F); (0x1843, 0x1843); (0x1885, 0x1886);
    (0x18A9, 0x18A9); (0x1920, 0x1922); (0x1927, 0x1928); (0x1932, 0x1932); (0x1939, 0x193B); (0x1A17, 0x1A18);
    (0x1A1B, 0x1A1B); (0x1A56, 0x1A56); (0x1A58, 0x1A5E); (0x1A60, 0x1A60); (0x1A62, 0x1A62); (0x1A65, 0x1A6C);
    (0x1A73, 0x1A7C); (0x1A7F, 0x1A7F); (0x1AA7, 0x1AA7); (0x1AB0, 0x1ACE); (0x1B00, 0x1B03); (0x1B34, 0x1B34);
    (0x1B36, 0x1B3A); (0x1B3C, 0x1B3C); (0x1B42, 0x1B42); (0x1B6B, 0x1B73); (0x1B80, 0x1B81); (0x1BA2, 0x1BA5);
    (0x1BA8, 0x1BA9); (0x1BAB, 0x1BAD); (0x1BE6, 0x1BE6); (0x1BE8, 0x1BE9); (0x1BED, 0x1BED); (0x1BEF, 0x1BF1);
    (0x1C2C, 0x1C33); (0x1C36, 0x1C37); (0x1C78, 0x1C7D); (0x1CD0, 0x1CD2); (0x1CD4, 0x1CE0); (0x1CE2, 0x1CE8);
    (0x1CED, 0x1CED); (0x1CF4, 0x1CF4); (0x1CF8, 0x1CF9); (0x1D2C, 0x1D6A); (0x1D78, 0x1D78); (0x1D9B, 0x1DFF);
    (0x1FBD, 0x1FBD); (0x1FBF, 0x1FC1); (0x1FCD, 0x1FCF); (0x1FDD, 0x1FDF); (0x1FED, 0x1FEF); (0x1FFD, 0x1FFE);
    (0x200B, 0x200F); (0x2018, 0x2019); (0x2024, 0x2024); (0x2027, 0x2027); (0x202A, 0x202E); (0x2060, 0x2064);
    (0x2066, 0x206F); (0x2071, 0x2071); (0x207F, 0x207F); (0x2090, 0x209C); (0x20D0, 0x20F0); (0x2C7C, 0x2C7D);
    (0x2CEF, 0x2CF1); (0x2D6F, 0x2D6F); (0x2D7F, 0x2D7F); (0x2DE0, 0x2DFF); (0x2E2F, 0x2E2F); (0x3005, 0x3005);
    (0x302A, 0x302D); (0x3031, 0x3035); (0x303B, 0x303B); (0x3099, 0x309E); (0x30FC, 0x30FE); (0xA015, 0xA015);
    (0xA4F8, 0xA4FD); (0xA60C, 0xA60C); (0xA66F, 0xA672); (0xA674, 0xA67D); (0xA67F, 0xA67F); (0xA69C, 0xA69F);
    (0xA6F0, 0xA6F1); (0xA700, 0xA721); (0xA770, 0xA770); (0xA788, 0xA78A); (0xA7F2, 0xA7F4); (0xA7F8, 0xA7F9);
    (0xA802, 0xA802); (0xA806, 0xA806); (0xA80B, 0xA80B); (0xA825, 0xA826); (0xA82C, 0xA82C); (0xA8C4, 0xA8C5);
    (0xA8E0, 0xA8F1); (0xA8FF, 0xA8FF); (0xA926, 0xA92D); (0xA947, 0xA951); (0xA980, 0xA982); (0xA9B3, 0xA9B3);
    (0xA9B6, 0xA9B9); (0xA9BC, 0xA9BD); (0xA9CF, 0xA9CF); (0xA9E5, 0xA9E6); (0xAA29, 0xAA2E); (0xAA31, 0xAA32);
    (0xAA35, 0xAA36); (0xAA43, 0xAA43); (0xAA4C, 0xAA4C); (0xAA70, 0xAA70); (0xAA7C, 0xAA7C); (0xAAB0, 0xAAB0);
    (0xAAB2, 0xAAB4); (0xAAB7, 0xAAB8); (0xAABE, 0xAABF); (0xAAC1, 0xAAC1); (0xAADD, 0xAADD); (0xAAEC, 0xAAED);
    (0xAAF3, 0xAAF4); (0xAAF6, 0xAAF6); (0xAB5B, 0xAB5F); (0xAB69, 0xAB6B); (0xABE5, 0xABE5); (0xABE8, 0xABE8);
    (0xABED, 0xABED); (0xFB1E, 0xFB1E); (0xFBB2, 0xFBC2); (0xFE00, 0xFE0F); (0xFE13, 0xFE13); (0xFE20, 0xFE2F);
    (0xFE52, 0xFE52); (0xFE55, 0xFE55); (0xFEFF, 0xFEFF); (0xFF07, 0xFF07); (0xFF0E, 0xFF0E); (0xFF1A, 0xFF1A);
    (0xFF3E, 0xFF3E); (0xFF40, 0xFF40); (0xFF70, 0xFF70); (0xFF9E, 0xFF9F); (0xFFE3, 0xFFE3); (0xFFF9, 0xFFFB);
    (0x101FD, 0x101FD); (0x102E0, 0x102E0); (0x10376, 0x1037A); (0x10780, 0x10785); (0x10787, 0x107B0); (0x107B2, 0x107BA);
    (0x10A01, 0x10A03); (0x10A05, 0x10A06); (0x10A0C, 0x10A0F); (0x10A38, 0x10A3A); (0x10A3F, 0x10A3F); (0x10AE5, 0x10AE6);
    (0x10D24, 0x10D27); (0x10EAB, 0x10EAC); (0x10F46, 0x10F50); (0x10F82, 0x10F85); (0x11001, 0x11001); (0x11038, 0x11046);
    (0x11070, 0x11070); (0x11073, 0x11074); (0x1107F, 0x11081); (0x110B3, 0x110B6); (0x110B9, 0x110BA); (0x110BD, 0x110BD);
    (0x110C2, 0x110C2); (0x110CD, 0x110CD); (0x11100, 0x11102); (0x11127, 0x1112B); (0x1112D, 0x11134); (0x11173, 0x11173);
    (0x11180, 0x11181); (0x111B6, 0x111BE); (0x111C9, 0x111CC); (0x111CF, 0x111CF); (0x1122F, 0x11231); (0x11234, 0x11234);
    (0x11236, 0x11237); (0x1123E, 0x1123E); (0x112DF, 0x112DF); (0x112E3, 0x112EA); (0x11300, 0x11301); (0x1133B, 0x1133C);
    (0x11340, 0x11340); (0x11366, 0x1136C); (0x11370, 0x11374); (0x11438, 0x1143F); (0x11442, 0x11444); (0x11446, 0x11446);
    (0x1145E, 0x1145E); (0x114B3, 0x114B8); (0x114BA, 0x114BA); (0x114BF, 0x114C0); (0x114C2, 0x114C3); (0x115B2, 0x115B5);
    (0x115BC, 0x115BD); (0x115BF, 0x115C0); (0x115DC, 0x115DD); (0x11633, 0x1163A); (0x1163D, 0x1163D); (0x1163F, 0x11640);
    (0x116AB, 0x116AB); (0x116AD, 0x116AD); (0x116B0, 0x116B5); (0x116B7, 0x116B7); (0x1171D, 0x1171F); (0x11722, 0x11725);
    (0x11727, 0x1172B); (0x1182F, 0x11837); (0x11839, 0x1183A); (0x1193B, 0x1193C); (0x1193E, 0x1193E); (0x11943, 0x11943);
    (0x119D4, 0x119D7); (0x119DA, 0x119DB); (0x119E0, 0x119E0); (0x11A01, 0x11A0A); (0x11A33, 0x11A38); (0x11A3B, 0x11A3E);
    (0x11A47, 0x11A47); (0x11A51, 0x11A56); (0x11A59, 0x11A5B); (0x11A8A, 0x11A96); (0x11A98, 0x11A99); (0x11C30, 0x11C36);
    (0x11C38, 0x11C3D); (0x11C3F, 0x11C3F); (0x11C92, 0x11CA7); (0x11CAA, 0x11CB0); (0x11CB2, 0x11CB3); (0x11CB5, 0x11CB6);
    (0x11D31, 0x11D36); (0x11D3A, 0x11D3A); (0x11D3C, 0x11D3D); (0x11D3F, 0x11D45); (0x11D47, 0x11D47); (0x11D90, 0x11D91);
    (0x11D95, 0x11D95); (0x11D97, 0x11D97); (0x11EF3, 0x11EF4); (0x13430, 0x13438); (0x16AF0, 0x16AF4); (0x16B30, 0x16B36);
    (0x16B40, 0x16B43); (0x16F4F, 0x16F4F); (0x16F8F, 0x16F9F); (0x16FE0, 0x16FE1); (0x16FE3, 0x16FE4); (0x1AFF0, 0x1AFF3);
    (0x1AFF5, 0x1AFFB); (0x1AFFD, 0x1AFFE); (0x1BC9D, 0x1BC9E); (0x1BCA0, 0x1BCA3); (0x1CF00, 0x1CF2D); (0x1CF30, 0x1CF46);
    (0x1D167, 0x1D169); (0x1D173, 0x1D182); (0x1D185, 0x1D18B); (0x1D1AA, 0x1D1AD); (0x1D242, 0x1D244); (0x1DA00, 0x1DA36);
    (0x1DA3B, 0x1DA6C); (0x1DA75, 0x1DA75); (0x1DA84, 0x1DA84); (0x1DA9B, 0x1DA9F); (0x1DAA1, 0x1DAAF); (0x1E000, 0x1E006);
    (0x1E008, 0x1E018); (0x1E01B, 0x1E021); (0x1E023, 0x1E024); (0x1E026, 0x1E02A); (0x1E130, 0x1E13D); (0x1E2AE, 0x1E2AE);
    (0x1E2EC, 0x1E2EF); (0x1E8D0, 0x1E8D6); (0x1E944, 0x1E94B); (0x1F3FB, 0x1F3FF); (0xE0001, 0xE0001); (0xE0020, 0xE007F);
    (0xE0100, 0xE01EF) ].

Definition cased_ranges : list (Z * Z) :=
  [ (0x41, 0x5A); (0x61, 0x7A); (0xAA, 0xAA); (0xB5, 0xB5); (0xBA, 0xBA); (0xC0, 0xD6);
    (0xD8, 0xF6); (0xF8, 0x1BA); (0x1BC, 0x1BF); (0x1C4, 0x293); (0x295, 0x2AF); (0x370, 0x373);
    (0x376, 0x377); (0x37B, 0x37D); (0x37F, 0x37F); (0x386, 0x386); (0x388, 0x38A); (0x38C, 0x38C);
    (0x38E, 0x3A1); (0x3A3, 0x3F5); (0x3F7, 0x481); (0x48A, 0x52F); (0x531, 0x556); (0x560, 0x588);
    (0x10A0, 0x10C5); (0x10C7, 0x10C7); (0x10CD, 0x10CD); (0x10D0, 0x10FA); (0x10FD, 0x10FF); (0x13A0, 0x13F5);
    (0x13F8, 0x13FD); (0x1C80, 0x1C88); (0x1C90, 0x1CBA); (0x1CBD, 0x1CBF); (0x1D00, 0x1D2B); (0x1D6B, 0x1D77);
    (0x1D79, 0x1D9A); (0x1E00, 0x1F15); (0x1F18, 0x1F1D); (0x1F20, 0x1F45); (0x1F48, 0x1F4D); (0x1F50, 0x1F57);
    (0x1F59, 0x1F59); (0x1F5B, 0x1F5B); (0x1F5D, 0x1F5D); (0x1F5F, 0x1F7D); (0x1F80, 0x1FB4); (0x1FB6, 0x1FBC);
    (0x1FBE, 0x1FBE); (0x1FC2, 0x1FC4); (0x1FC6, 0x1FCC); (0x1FD0, 0x1FD3); (0x1FD6, 0x1FDB); (0x1FE0, 0x1FEC);
    (0x1FF2, 0x1FF4); (0x1FF6, 0x1FFC); (0x2102, 0x2102); (0x2107, 0x2107); (0x210A, 0x2113); (0x2115, 0x2115);
    (0x2119, 0x211D); (0x2124, 0x2124); (0x2126, 0x2126); (0x2128, 0x2128); (0x212A, 0x212D); (0x212F, 0x2134);
    (0x2139, 0x2139); (0x213C, 0x213F); (0x2145, 0x2149); (0x214E, 0x214E); (0x2160, 0x217F); (0x2183, 0x2184);
    (0x24B6, 0x24E9); (0x2C00, 0x2C7B); (0x2C7E, 0x2CE4); (0x2CEB, 0x2CEE); (0x2CF2, 0x2CF3); (0x2D00, 0x2D25);
    (0x2D27, 0x2D27); (0x2D2D, 0x2D2D); (0xA640, 0xA66D); (0xA680, 0xA69B); (0xA722, 0xA76F); (0xA771, 0xA787);
    (0xA78B, 0xA78E); (0xA790, 0xA7CA); (0xA7D0, 0xA7D1); (0xA7D3, 0xA7D3); (0xA7D5, 0xA7D9); (0xA7F5, 0xA7F6);
    (0xA7FA, 0xA7FA); (0xAB30, 0xAB5A); (0xAB60, 0xAB68); (0xAB70, 0xABBF); (0xFB00, 0xFB06); (0xFB13, 0xFB17);
    (0xFF21, 0xFF3A); (0xFF41, 0xFF5A); (0x10400, 0x1044F); (0x104B0, 0x104D3); (0x104D8, 0x104FB); (0x10570, 0x1057A);
    (0x1057C, 0x1058A); (0x1058C, 0x10592); (0x10594, 0x10595); (0x10597, 0x105A1); (0x105A3, 0x105B1); (0x105B3, 0x105B9);
    (0x105BB, 0x105BC); (0x10C80, 0x10CB2); (0x10CC0, 0x10CF2); (0x118A0, 0x118DF); (0x16E40, 0x16E7F); (0x1D400, 0x1D454);
    (0x1D456, 0x1D49C); (0x1D49E, 0x1D49F); (0x1D4A2, 0x1D4A2); (0x1D4A5, 0x1D4A6); (0x1D4A9, 0x1D4AC); (0x1D4AE, 0x1D4B9);
    (0x1D4BB, 0x1D4BB); (0x1D4BD, 0x1D4C3); (0x1D4C5, 0x1D505); (0x1D507, 0x1D50A); (0x1D50D, 0x1D514); (0x1D516, 0x1D51C);
    (0x1D51E, 0x1D539); (0x1D53B, 0x1D53E); (0x1D540, 0x1D544); (0x1D546, 0x1D546); (0x1D54A, 0x1D550); (0x1D552, 0x1D6A5);
    (0x1D6A8, 0x1D6C0); (0x1D6C2, 0x1D6DA); (0x1D6DC, 0x1D6FA); (0x1D6FC, 0x1D714); (0x1D716, 0x1D734); (0x1D736, 0x1D74E);
    (0x1D750, 0x1D76E); (0x1D770, 0x1D788); (0x1D78A, 0x1D7A8); (0x1D7AA, 0x1D7C2); (0x1D7C4, 0x1D7CB); (0x1DF00, 0x1DF09);
    (0x1DF0B, 0x1DF1E); (0x1E900, 0x1E943); (0x1F130, 0x1F149); (0x1F150, 0x1F169); (0x1F170, 0x1F189) ].

Fixpoint in_ranges (ranges : list (Z * Z)) (c : Z) : bool :=
  match ranges with
  | [] => false
  | (first, last) :: ranges' =>
      if c <? first then false
      else if c <=? last then true
      else in_ranges ranges' c
  end.

Definition case_ignorable (c : Z) : bool := in_ranges case_ignorable_ranges c.
Definition cased (c : Z) : bool := in_ranges cased_ranges c.

Fixpoint lower_in (ranges : list (Z * Z * Z * Z)) (c : Z) : Z :=
  match ranges with
  | [] => c
  | (first, last, step, delta) :: ranges' =>
      if c <? first then c
      else if (c <=? last) && ((c - first) mod step =? 0) then c + delta
      else lower_in ranges' c
  end.

(** The full lower-case mapping of a code point: U+0130 is the one code
    point that maps to two. *)
Definition lower_point (c : Z) : list Z :=
  if c =? 0x130 then [0x69; 0x307] else [lower_in lower_ranges c].

(** Whether a cased letter follows, case-ignorable characters apart. *)
Fixpoint cased_follows (l : list char) : bool :=
  match l with
  | Point c :: l' => if case_ignorable c then cased_follows l' else cased c
  | _ => false
  end.

(** [cased_before]: a cased letter precedes, case-ignorable characters
    apart.  A capital sigma (U+03A3) between such a letter and no such
    letter is a final sigma. *)
Fixpoint lower_chars (cased_before : bool) (l : list char) : list char :=
  match l with
  | [] => []
  | Stray b :: l' => Stray b :: lower_chars false l'
  | Point c :: l' =>
      (Point <$>
         (if c =? 0x3A3
          then [if cased_before && negb (cased_follows l') then 0x3C2 else 0x3C3]
          else lower_point c)) ++
      lower_chars (if case_ignorable c then cased_before else cased c) l'
  end.

(** [s.lower()] *)
Definition lower (s : string) : string := encode (lower_chars false (decode s)).

(** The code points [str.isspace] accepts, and their UTF-8 forms. *)
Definition space_points : list Z :=
  [ 0x09; 0x0A; 0x0B; 0x0C; 0x0D; 0x1C; 0x1D; 0x1E; 0x1F; 0x20; 0x85; 0xA0;
    0x1680; 0x2000; 0x2001; 0x2002; 0x2003; 0x2004; 0x2005; 0x2006; 0x2007;
    0x2008; 0x2009; 0x200A; 0x2028; 0x2029; 0x202F; 0x205F; 0x3000 ].

Definition whitespace : list string :=
  Eval vm_compute in encode_point <$> space_points.

(** [Some r] when [s] is [w] followed by [r]. *)
Fixpoint strip_prefix (w s : string) : option string :=
  match w, s with
  | EmptyString, _ => Some s
  | String a w', String b s' => if Ascii.eqb a b then strip_prefix w' s' else None
  | String _ _, EmptyString => None
  end.

(** What follows a white-space character at the head of [s]. *)
Definition skip_space (s : string) : option string :=
  head (omap (λ w, strip_prefix w s) whitespace).

Fixpoint lstrip_go (fuel : nat) (s : string) : string :=
  match fuel with
  | O => s
  | S n =>
      match skip_space s with
      | Some r => lstrip_go n r
      | None => s
      end
  end.

(** [s.lstrip()] *)
Definition lstrip (s : string) : string := lstrip_go (String.length s) s.

(** [s.rstrip()]: [s] up to the point from which all is white space. *)
Fixpoint rstrip (s : string) : string :=
  match s with
  | EmptyString => EmptyString
  | String c s' =>
      if String.eqb (lstrip s) EmptyString then EmptyString else String c (rstrip s')
  end.

(** [s.strip()] *)
Definition strip (s : string) : string := rstrip (lstrip s).

(** [s.endswith(suffix)] *)
Definition endswith (s suffix : string) : bool :=
  String.prefix (String.rev suffix) (String.rev s).

(** [s.replace(' ', '_')] *)
Fixpoint replace_space (s : string) : string :=
  match s with
  | EmptyString => EmptyString
  | String c s' =>
      String (if Ascii.eqb c " " then "_"%char else c) (replace_space s')
  end.

Fixpoint basename_go (s acc : string) : string :=
  match s with
  | EmptyString => acc
  | String c s' =>
      if Ascii.eqb c "/" then basename_go s' EmptyString
      else basename_go s' (acc +:+ String c EmptyString)
  end.

(** [os.path.basename(p)]: what follows the last slash. *)
Definition basename (p : string) : string := basename_go p EmptyString.

(** [os.path.join(a, b)] for a relative [b]. *)
Definition join (a b : string) : string := a +:+ "/" +:+ b.

End Str.

(** *** Trimming, as a property of the result

    A string is blank when it is made of white-space characters; [x] is the
    trimmed form of [s] when [s] is [x] between two blank strings and [x]
    neither starts nor ends with a white-space character. *)

Inductive blank : string → Prop :=
  | blank_nil : blank EmptyString
  | blank_cons w s : w ∈ Str.whitespace → blank s → blank (w +:+ s).

Definition starts_blank (x : string) : Prop :=
  ∃ w r, w ∈ Str.whitespace ∧ x = w +:+ r.

Definition ends_blank (x : string) : Prop :=
  ∃ p w, w ∈ Str.whitespace ∧ x = p +:+ w.

Definition is_trim_of (x s : string) : Prop :=
  (∃ pre post, s = pre +:+ x +:+ post ∧ blank pre ∧ blank post) ∧
  ¬ starts_blank x ∧ ¬ ends_blank x.

(** ** Values loaded from JSON *)

Inductive json :=
  | JNull
  | JBool (b : bool)
  | JInt (z : Z)
  | JFloat (f : float)
  | JStr (s : string)
  | JArr (l : list json)
  | JObj (o : list (string * json)).

(** [d[k]] of a loaded dict, kept as its list of items (each key once; the
    first binding of a key is the one found). *)
Fixpoint dict_lookup (o : list (string * json)) (k : string) : option json :=
  match o with
  | [] => None
  | (k', v) :: o' => if decide (k' = k) then Some v else dict_lookup o' k
  end.

Definition py_type (v : json) : string :=
  match v with
  | JNull => "NoneType" | JBool _ => "bool" | JInt _ => "int"
  | JFloat _ => "float" | JStr _ => "str" | JArr _ => "list" | JObj _ => "dict"
  end.

Definition no_attribute (v : json) (attr : string) : exn :=
  Exn AttributeError
      ("'" +:+ py_type v +:+ "' object has no attribute '" +:+ attr +:+ "'").

(** [bool(v)] *)
Definition py_truthy (v : json) : bool :=
  match v with
  | JNull => false
  | JBool b => b
  | JInt z => negb (z =? 0)
  | JFloat f => negb (PrimFloat.eqb f 0)
  | JStr s => negb (String.eqb s "")
  | JArr l => match l with [] => false | _ => true end
  | JObj o => match o with [] => false | _ => true end
  end.

(** [v.get(key, default)] *)
Definition py_get (v : json) (key : string) (default : json) : res json :=
  match v with
  | JObj o => Ret (from_option id default (dict_lookup o key))
  | _ => Raise (no_attribute v "get")
  end.

(** [v[key]] for a [str] key *)
Definition py_getitem (v : json) (key : string) : res json :=
  match v with
  | JObj o =>
      match dict_lookup o key with
      | Some x => Ret x
      | None => Raise (Exn KeyError ("'" +:+ key +:+ "'"))
      end
  | JArr _ => Raise (Exn TypeError "list indices must be integers or slices, not str")
  | JStr _ => Raise (Exn TypeError "string indices must be integers, not 'str'")
  | _ => Raise (Exn TypeError ("'" +:+ py_type v +:+ "' object is not subscriptable"))
  end.

Fixpoint chars (s : string) : list json :=
  match s with
  | EmptyString => []
  | String c s' => JStr (String c EmptyString) :: chars s'
  end.

(** The items a [for] loop over [v] visits: the elements of a list, the keys
    of a dict, the characters of a string. *)
Definition py_iter (v : json) : res (list json) :=
  match v with
  | JArr l => Ret l
  | JObj o => Ret (JStr <$> o.*1)
  | JStr s => Ret (chars s)
  | _ => Raise (Exn TypeError ("'" +:+ py_type v +:+ "' object is not iterable"))
  end.

(** [v.strip()] and [v.lower()]: methods of [str] only. *)
Definition py_strip (v : json) : res string :=
  match v with
  | JStr s => Ret (Str.strip s)
  | _ => Raise (no_attribute v "strip")
  end.

Definition py_lower (v : json) : res string :=
  match v with
  | JStr s => Ret (Str.lower s)
  | _ => Raise (no_attribute v "lower")
  end.

(** ** Address index and street filter *)

Definition data_file_not_found : string :=
  "Error: The main data file was not found at the specified path.".

(** The body of the loop over [feature.get("adressen", [])] in
    [get_all_street_names]. *)
Definition add_street (adr : json) (street_names : gset string) : res (gset string) :=
  street_val ← py_get adr "str" JNull;
  if py_truthy street_val then
    s ← py_strip street_val;
    Ret ({[ s ]} ∪ street_names)
  else Ret street_names.

Definition add_feature_streets (feature : json) (street_names : gset string)
    : res (gset string) :=
  adressen ← py_get feature "adressen" (JArr []);
  adrs ← py_iter adressen;
  for_each add_street adrs street_names.

(** [sorted(list(street_names))] *)
Definition sorted (street_names : gset string) : list string :=
  merge_sort String.le (elements street_names).

(** [get_all_street_names()]; [file] is what opening and loading the data
    file gives. *)
Definition get_all_street_names (file : res json) : res (list string) :=
  match file with
  | Raise e =>
      if decide (exn_class e = FileNotFoundError) then Ret [data_file_not_found]
      else Raise e
  | Ret data =>
      features ← py_getitem data "features";
      fs ← py_iter features;
      street_names ← for_each add_feature_streets fs ∅;
      Ret (sorted street_names)
  end.

(** What [get_building_ids_for_street] does at a matching address entry,
    before it leaves the loop: [oi = feature.get("gebaeude", {}).get("oi")],
    appended when it is true. *)
Definition report_id (feature : json) (selected_ids : list json) : res (list json) :=
  gebaeude ← py_get feature "gebaeude" (JObj []);
  oi ← py_get gebaeude "oi" JNull;
  Ret (if py_truthy oi then selected_ids ++ [oi] else selected_ids).

(** The loop over the address entries of one feature in
    [get_building_ids_for_street]; it ends at the first matching entry
    ([break]). *)
Fixpoint scan_adressen (street_set : gset string) (feature : json)
    (adrs : list json) (selected_ids : list json) : res (list json) :=
  match adrs with
  | [] => Ret selected_ids
  | adr :: rest =>
      street_val ← py_get adr "str" JNull;
      if py_truthy street_val then
        s ← py_strip street_val;
        if decide (Str.lower s ∈ street_set) then report_id feature selected_ids
        else scan_adressen street_set feature rest selected_ids
      else scan_adressen street_set feature rest selected_ids
  end.

Definition select_feature (street_set : gset string) (feature : json)
    (selected_ids : list json) : res (list json) :=
  adressen ← py_get feature "adressen" (JArr []);
  adrs ← py_iter adressen;
  scan_adressen street_set feature adrs selected_ids.

(** [get_building_ids_for_street(street_name)] *)
Definition get_building_ids_for_street (file : res json) (street_name : string)
    : res (list json) :=
  match file with
  | Raise e =>
      if decide (exn_class e = FileNotFoundError) then Ret [JStr data_file_not_found]
      else Raise e
  | Ret data =>
      let street_set : gset string := {[ Str.lower (Str.strip street_name) ]} in
      features ← py_getitem data "features";
      fs ← py_iter features;
      for_each (select_feature street_set) fs []
  end.

(** ** The typed reading of a loaded feature collection *)

(** The features the two tools visit, the address entries of a feature, the
    street value of an address entry (a non-empty [str]) and the identifier
    [feature.get("gebaeude", {}).get("oi")]. *)
Definition features_of (data : json) : list json :=
  match py_getitem data "features" ≫= py_iter with
  | Ret fs => fs
  | Raise _ => []
  end.

Definition adressen_of (feature : json) : list json :=
  match py_get feature "adressen" (JArr []) ≫= py_iter with
  | Ret adrs => adrs
  | Raise _ => []
  end.

Definition street_of (adr : json) : option string :=
  match py_get adr "str" JNull with
  | Ret (JStr s) => if py_truthy (JStr s) then Some s else None
  | _ => None
  end.

Definition oi_of (feature : json) : json :=
  match py_get feature "gebaeude" (JObj []) ≫= λ g, py_get g "oi" JNull with
  | Ret oi => oi
  | Raise _ => JNull
  end.

(** The street values of a collection, in the order the tools read them. *)
Definition street_values (data : json) : list string :=
  f ← features_of data; omap street_of (adressen_of f).

(** Well-formed input: an object whose ["features"] can be iterated, every
    feature an object whose address entries (if any) are objects, every
    street value absent, false or a string. *)
Definition wf_adr (adr : json) : bool :=
  match py_get adr "str" JNull with
  | Ret (JStr _) => true
  | Ret v => negb (py_truthy v)
  | Raise _ => false
  end.

Definition wf_feature (feature : json) : bool :=
  match py_get feature "adressen" (JArr []) ≫= py_iter with
  | Ret adrs => forallb wf_adr adrs
  | Raise _ => false
  end.

Definition wf_data (data : json) : bool :=
  match py_getitem data "features" ≫= py_iter with
  | Ret fs => forallb wf_feature fs
  | Raise _ => false
  end.

(** An address entry, or some address entry of a feature, is on the street
    whose normal form (trimmed, lower case) is [n]. *)
Definition adr_on_street (n : string) (adr : json) : bool :=
  match street_of adr with
  | Some s => bool_decide (Str.lower (Str.strip s) = n)
  | None => false
  end.

Definition on_street (n : string) (feature : json) : bool :=
  existsb (adr_on_street n) (adressen_of feature).

(** A feature carries an identifier the lookup can report. *)
Definition has_id (feature : json) : bool :=
  match py_get feature "gebaeude" (JObj []) ≫= λ g, py_get g "oi" JNull with
  | Ret oi => py_truthy oi
  | Raise _ => false
  end.

(** *** Sample collections *)

Definition address (street : string) : json := JObj [("str", JStr street)].

Definition feature_with (oi : string) (streets : list string) : json :=
  JObj [("adressen", JArr (address <$> streets)); ("gebaeude", JObj [("oi", JStr oi)])].

Definition collection (features : list json) : json :=
  JObj [("features", JArr features)].

(** Three buildings; the first has the same street twice, once with a
    trailing blank. *)
Definition sample_collection : json :=
  collection [ feature_with "B1" ["Hauptstrasse "; "Hauptstrasse"];
               feature_with "B2" ["Am Berg"];
               feature_with "B3" ["hauptstrasse"; "Am Berg"] ].

(** One building on one street. *)
Definition one_street_collection : json :=
  collection [ feature_with "B1" ["Hauptstrasse"] ].

(** A feature with an address and no [gebaeude]. *)
Definition no_id_collection : json :=
  collection [ JObj [("adressen", JArr [address "Am Berg"])] ].

(** Two features that carry the same identifier. *)
Definition two_parts_collection : json :=
  collection [ feature_with "B1" ["Hauptstrasse"]; feature_with "B1" ["Hauptstrasse"] ].

(** Four buildings on one street, two of them without an identifier. *)
Definition unnumbered_collection : json :=
  collection
    [ feature_with "B1" ["Hauptstrasse"];
      JObj [("adressen", JArr [address "Hauptstrasse"])];
      JObj [("adressen", JArr [address "Hauptstrasse"]); ("gebaeude", JObj [])];
      feature_with "B2" ["Hauptstrasse"; "Hauptstrasse"] ].

(** Street names beyond ASCII: a capital umlaut, and a no-break space
    (U+00A0) after the name. *)
Definition umlaut_collection : json :=
  collection [ feature_with "B1" ["Ährenweg"];
               feature_with "B2" ["Hauptstraße" +:+ Str.encode_point 0xA0] ].

(** ** Formatting numbers *)

(** [str(n)] of an [int]. *)
Definition str_int (z : Z) : string := pretty z.

Fixpoint zeros (n : nat) : string :=
  match n with O => EmptyString | S n' => String "0" (zeros n') end.

(** The decimal digits of [n >= 0], padded with zeros on the left up to
    [width] characters. *)
Definition zero_padded (width : nat) (n : Z) : string :=
  let ds := pretty (Z.to_N n) in
  zeros (width - String.length ds) +:+ ds.

(** The text of [scaled / 10^d] with exactly [d] decimals. *)
Definition fixed_point (d : nat) (negative : bool) (scaled : Z) : string :=
  let p := 10 ^ Z.of_nat d in
  (if negative then "-" else "") +:+ pretty (Z.to_N (scaled / p)) +:+
  match d with
  | O => ""
  | _ => "." +:+ zero_padded d (scaled mod p)
  end.

(** [num / den] rounded to the nearest integer, ties to even ([den > 0]). *)
Definition round_half_even (num den : Z) : Z :=
  let q := num / den in
  let r := num mod den in
  if 2 * r <? den then q
  else if den <? 2 * r then q + 1
  else if Z.even q then q else q + 1.

(** [format(f, '.df')] of a float: the exact binary value rounded to [d]
    decimals, ties to even. *)
Definition format_f (d : nat) (f : float) : string :=
  match Prim2SF f with
  | S754_nan => "nan"
  | S754_infinity s => if s then "-inf" else "inf"
  | S754_zero s => fixed_point d s 0
  | S754_finite s m e =>
      let num := Z.pos m * 10 ^ Z.of_nat d in
      fixed_point d s
        (if 0 <=? e then num * 2 ^ e else round_half_even num (2 ^ (- e)))
  end.

(** [float(n)] of an [int]: the nearest binary64 (an [int] below [2^53] is
    one), [OverflowError] beyond the range. *)
Definition float_of_int (z : Z) : res float :=
  let f := SF2Prim (binary_normalize prec emax z 0 false) in
  if Z.abs z <? 2 ^ 53 then Ret f
  else if PrimFloat.is_infinity f
  then Raise (Exn OverflowError "int too large to convert to float")
  else Ret f.

(** [float(n)] of a length. *)
Definition float_of_len (n : nat) : float :=
  SF2Prim (binary_normalize prec emax (Z.of_nat n) 0 false).

(** [format(v, '.df')] of a loaded value. *)
Definition py_format_f (d : nat) (v : json) : res string :=
  match v with
  | JFloat f => Ret (format_f d f)
  | JInt z => f ← float_of_int z; Ret (format_f d f)
  | JBool b => Ret (format_f d (if b then 1 else 0)%float)
  | JStr _ => Raise (Exn ValueError "Unknown format code 'f' for object of type 'str'")
  | _ => Raise (Exn TypeError
                  ("unsupported format string passed to " +:+ py_type v +:+ ".__format__"))
  end.

Fixpoint group_thousands (fuel : nat) (n : Z) : string :=
  match fuel with
  | O => pretty (Z.to_N n)
  | S fuel' =>
      if n <? 1000 then pretty (Z.to_N n)
      else group_thousands fuel' (n / 1000) +:+ "," +:+ zero_padded 3 (n mod 1000)
  end.

(** [format(n, ',')] of an [int]. *)
Definition format_comma (n : Z) : string :=
  (if n <? 0 then "-" else "") +:+
  group_thousands (Z.to_nat (Z.log2 (Z.abs n))) (Z.abs n).

(** ** Building frames *)

(** A row of the buildings frame: its index label and the columns the tools
    read.  [adressen] is what [json.loads(building['adressen'])] gives (the
    [KeyError] of a frame without the column included); [gebaeude] and
    [id_col] are [None] when the frame has no such column. *)
Record building := Building {
  idx : Z;
  adressen : res json;
  gebaeude : option string;
  id_col : option string;
  dist_to_line : float;
  dist_to_substation : float;
  dist_to_transformer : float;
  max_trafo_loading : float;
  min_voltage_pu : float
}.

Abbreviation frame := (list building).

(** The loop over the parsed address entries of a row in the analysis
    filters: [true] when an entry matches ([append] and [break]). *)
Fixpoint street_matches (street_name : string) (adrs : list json) : res bool :=
  match adrs with
  | [] => Ret false
  | addr :: rest =>
      street_val ← py_get addr "str" (JStr "");
      if py_truthy street_val then
        l ← py_lower street_val;
        if decide (l = Str.lower street_name) then Ret true
        else street_matches street_name rest
      else street_matches street_name rest
  end.

(** One round of [for idx, building in buildings.iterrows()]: the [try]
    block and its [except (json.JSONDecodeError, KeyError): continue]. *)
Definition filter_row (street_name : string) (b : building)
    (street_buildings : list building) : res (list building) :=
  match parsed ← adressen b; adrs ← py_iter parsed; street_matches street_name adrs with
  | Ret true => Ret (street_buildings ++ [b])
  | Ret false => Ret street_buildings
  | Raise e =>
      if decide (exn_class e = JSONDecodeError ∨ exn_class e = KeyError)
      then Ret street_buildings
      else Raise e
  end.

(** The street filter of [run_comprehensive_hp_analysis] and of
    [run_comprehensive_dh_analysis]. *)
Definition filter_street_buildings (buildings : frame) (street_name : string)
    : res (list building) :=
  for_each (filter_row street_name) buildings [].

(** ** Result aggregator *)

Record metrics := Metrics { max_loading : float; min_voltage : float }.

(** [building.get('gebaeude', building.get('id', str(idx)))] *)
Definition building_id (b : building) : string :=
  from_option id (from_option id (str_int (idx b)) (id_col b)) (gebaeude b).

Definition set_power (loading voltage : float) (b : building) : building :=
  Building (idx b) (adressen b) (gebaeude b) (id_col b) (dist_to_line b)
    (dist_to_substation b) (dist_to_transformer b) loading voltage.

(** [frame.loc[label, columns] = values]: every row with that label. *)
Definition loc_set (label : Z) (f : building → building) (fr : frame) : frame :=
  (λ b, if decide (idx b = label) then f b else b) <$> fr.

Definition merge_row (power_metrics : gmap string metrics) (fr : frame)
    (b : building) : frame :=
  match power_metrics !! building_id b with
  | Some m => loc_set (idx b) (set_power (max_loading m) (min_voltage m)) fr
  | None => loc_set (idx b) (set_power nan nan) fr
  end.

(** The merge loop: [for idx, building in street_buildings.iterrows()]. *)
Definition add_power_metrics (power_metrics : gmap string metrics)
    (street_buildings : frame) : frame :=
  foldl (merge_row power_metrics) street_buildings street_buildings.

(** [column.isna().all()] *)
Definition isna_all (column : list float) : bool := forallb PrimFloat.is_nan column.

(** The values pandas' reductions keep ([skipna]). *)
Definition known (column : list float) : list float :=
  filter (λ x, PrimFloat.is_nan x = false) column.

(** [column.max()] and [column.min()]; between zeros of opposite sign, which
    are equal, the one returned is the first met. *)
Definition col_max (column : list float) : float :=
  match known column with
  | [] => nan
  | x :: l => foldl (λ m y, if PrimFloat.ltb m y then y else m) x l
  end.

Definition col_min (column : list float) : float :=
  match known column with
  | [] => nan
  | x :: l => foldl (λ m y, if PrimFloat.ltb y m then y else m) x l
  end.

(** What the merge loop gives a row, by the identifier of the row. *)
Definition merged_row (power_metrics : gmap string metrics) (b : building) : building :=
  match power_metrics !! building_id b with
  | Some m => set_power (max_loading m) (min_voltage m) b
  | None => set_power nan nan b
  end.

(** The row [r] as the round of the merge loop for the row [b] leaves it,
    and as the rounds for the rows [l] leave it when their labels are
    distinct. *)
Definition set_by (power_metrics : gmap string metrics) (b r : building) : building :=
  match power_metrics !! building_id b with
  | Some m => set_power (max_loading m) (min_voltage m) r
  | None => set_power nan nan r
  end.

Definition update_by (power_metrics : gmap string metrics) (l : list building)
    (r : building) : building :=
  match list_find (λ b, idx b = idx r) l with
  | Some (_, b) => set_by power_metrics b r
  | None => r
  end.

(** *** Sample frames *)

Definition sample_row (label : Z) (oi street : string) (loading : float) : building :=
  Building label (Ret (JArr [address street])) (Some oi) None 12 140 35 loading nan.

(** A stored street with a trailing blank. *)
Definition padded_row : building := sample_row 0 "B1" "Hauptstrasse " nan.

(** The example of the specification: two known loadings and a missing one. *)
Definition bahnhof_frame : frame :=
  [ sample_row 0 "B1" "Bahnhofstrasse" nan;
    sample_row 1 "B2" "Bahnhofstrasse" nan;
    sample_row 2 "B3" "Bahnhofstrasse" nan ].

Definition bahnhof_metrics : gmap string metrics :=
  {[ "B1" := Metrics 80 0.97; "B2" := Metrics 95 0.95 ]}.

Record hp_stats := HpStats {
  MaxTrafoLoading : float;
  MinVoltagePU : float;
  AvgDistLine : float;
  AvgDistTransformer : float;
  BuildingsCount : nat
}.

(** ** Report renderer *)

(** The label of the date field of the dashboards. *)
Definition date_label : string := "<strong>Analysis Date:</strong> ".

(** A rendering reads the clock for the date field and for nothing else. *)
Definition date_field_only (render : string → res string) : Prop :=
  (∃ e, ∀ now, render now = Raise e) ∨
  (∃ pre post, ∀ now, render now = Ret (pre +:+ date_label +:+ now +:+ post)).

(** The double quote character. *)
Definition dq : string := String (ascii_of_nat 34) EmptyString.

(** [str(len(l))] *)
Definition str_len (n : nat) : string := str_int (Z.of_nat n).

(** [str(path.absolute())] of a relative path. *)
Definition absolute (cwd path : string) : string := cwd +:+ "/" +:+ path.

(** [os.path.basename(map_path) if map_path else 'dh_network_map.html'] *)
Definition map_basename (map_path : option string) : string :=
  match map_path with
  | Some p => if py_truthy (JStr p) then Str.basename p else "dh_network_map.html"
  | None => "dh_network_map.html"
  end.

(** [x / len(l)] *)
Definition float_div_len (x : float) (n : nat) : res json :=
  match n with
  | O => Raise (Exn ZeroDivisionError "float division by zero")
  | _ => Ret (JFloat (x / float_of_len n))
  end.

(** [v.get(key, default)] where evaluating [default] may raise: the
    attribute [get] is looked up first. *)
Definition py_get_with (v : json) (key : string) (default : res json) : res json :=
  match v with
  | JObj _ => d ← default; py_get v key d
  | _ => Raise (no_attribute v "get")
  end.

Section Tools.

(** Two library functions the tools call are taken as they are: pandas'
    mean of the values of a column that are not missing, and [repr] of a
    float, a list or a dict (where [str] is [repr]). *)
Variable series_mean : list float → float.
Variable py_repr : json → string.

(** [str(v)] of a loaded value. *)
Definition py_str (v : json) : string :=
  match v with
  | JNull => "None"
  | JBool true => "True"
  | JBool false => "False"
  | JInt z => str_int z
  | JStr s => s
  | _ => py_repr v
  end.

(** [column.mean()] *)
Definition col_mean (column : list float) : float := series_mean (known column).

(** The [stats] dict of [run_comprehensive_hp_analysis]. *)
Definition hp_stats_of (street_buildings : frame) : hp_stats :=
  let loading := max_trafo_loading <$> street_buildings in
  let voltage := min_voltage_pu <$> street_buildings in
  let line := dist_to_line <$> street_buildings in
  let transformer := dist_to_transformer <$> street_buildings in
  {| MaxTrafoLoading := if negb (isna_all loading) then col_max loading else 0.0;
     MinVoltagePU := if negb (isna_all voltage) then col_min voltage else 1.0;
     AvgDistLine := if negb (isna_all line) then col_mean line else 0.0;
     AvgDistTransformer :=
       if negb (isna_all transformer) then col_mean transformer else 0.0;
     BuildingsCount := length street_buildings |}.

(** [avg_dist_to_substation] *)
Definition avg_dist_to_substation_of (street_buildings : frame) : float :=
  let substation := dist_to_substation <$> street_buildings in
  if negb (isna_all substation) then col_mean substation else 0.0.

(** The dashboard of [run_comprehensive_hp_analysis]; [now] is the text of
    [datetime.now().strftime('%B %d, %Y')]. *)
Definition hp_dashboard_html (street_name scenario : string) (stats : hp_stats)
    (map_path now : string) : string :=
  "<!DOCTYPE html>
<html lang=" +:+ dq +:+ "en" +:+ dq +:+ ">
<head>
    <meta charset=" +:+ dq +:+ "UTF-8" +:+ dq +:+ ">
    <meta name=" +:+ dq +:+ "viewport" +:+ dq +:+ " content=" +:+ dq +:+ "width=device-width, initial-scale=1.0" +:+ dq +:+ ">
    <title>Heat Pump Feasibility Analysis Dashboard - " +:+
  street_name +:+
  "</title>
    <style>
        body {
            font-family: 'Segoe UI', Tahoma, Geneva, Verdana, sans-serif;
            margin: 0;
            padding: 0;
            background: linear-gradient(135deg, #667eea 0%, #764ba2 100%);
            min-height: 100vh;
        }
        .container {
            max-width: 1400px;
            margin: 0 auto;
            padding: 20px;
        }
        .header {
            background: rgba(255, 255, 255, 0.95);
            padding: 30px;
            border-radius: 15px;
            box-shadow: 0 8px 32px rgba(0, 0, 0, 0.1);
            margin-bottom: 30px;
            text-align: center;
        }
        .header h1 {
            color: #2c3e50;
            margin: 0;
            font-size: 2.5em;
            font-weight: 300;
        }
        .header p {
            color: #7f8c8d;
            margin: 10px 0 0 0;
            font-size: 1.2em;
        }
        .dashboard-grid {
            display: grid;
            grid-template-columns: 1fr 1fr;
            gap: 30px;
            margin-bottom: 30px;
        }
        .panel {
            background: rgba(255, 255, 255, 0.95);
            padding: 25px;
            border-radius: 15px;
            box-shadow: 0 8px 32px rgba(0, 0, 0, 0.1);
        }
        .panel h2 {
            color: #2c3e50;
            margin: 0 0 20px 0;
            font-size: 1.5em;
            border-bottom: 3px solid #667eea;
            padding-bottom: 10px;
        }
        .metric-grid {
            display: grid;
            grid-template-columns: repeat(auto-fit, minmax(200px, 1fr));
            gap: 20px;
        }
        .metric-card {
            background: linear-gradient(135deg, #667eea 0%, #764ba2 100%);
            color: white;
            padding: 20px;
            border-radius: 10px;
            text-align: center;
            box-shadow: 0 4px 15px rgba(0, 0, 0, 0.1);
        }
        .metric-value {
            font-size: 2em;
            font-weight: bold;
            margin-bottom: 5px;
        }
        .metric-label {
            font-size: 0.9em;
            opacity: 0.9;
        }
        .status-success {
            background: linear-gradient(135deg, #00b894 0%, #00a085 100%);
        }
        .map-container {
            background: rgba(255, 255, 255, 0.95);
            padding: 25px;
            border-radius: 15px;
            box-shadow: 0 8px 32px rgba(0, 0, 0, 0.1);
            margin-bottom: 30px;
        }
        .map-container h2 {
            color: #2c3e50;
            margin: 0 0 20px 0;
            font-size: 1.5em;
            border-bottom: 3px solid #667eea;
            padding-bottom: 10px;
        }
        .map-container iframe {
            width: 100%;
            height: 600px;
            border: none;
            border-radius: 10px;
        }
        @media (max-width: 768px) {
            .dashboard-grid {
                grid-template-columns: 1fr;
            }
            .metric-grid {
                grid-template-columns: 1fr;
            }
        }
    </style>
</head>
<body>
    <div class=" +:+ dq +:+ "container" +:+ dq +:+ ">
        <div class=" +:+ dq +:+ "header" +:+ dq +:+ ">
            <h1>🔌 Heat Pump Feasibility Analysis Dashboard</h1>
            <p>Comprehensive electrical infrastructure assessment for " +:+
  street_name +:+
  "</p>
            <p><strong>Analysis Date:</strong> " +:+
  now +:+
  " | <strong>Scenario:</strong> " +:+
  scenario +:+
  "</p>
        </div>

        <div class=" +:+ dq +:+ "dashboard-grid" +:+ dq +:+ ">
            <div class=" +:+ dq +:+ "panel" +:+ dq +:+ ">
                <h2>📊 Electrical Network Metrics</h2>
                <div class=" +:+ dq +:+ "metric-grid" +:+ dq +:+ ">
                    <div class=" +:+ dq +:+ "metric-card" +:+ dq +:+ ">
                        <div class=" +:+ dq +:+ "metric-value" +:+ dq +:+ ">" +:+
  format_f 2 (MaxTrafoLoading stats) +:+
  "%</div>
                        <div class=" +:+ dq +:+ "metric-label" +:+ dq +:+ ">Max Transformer Loading</div>
                    </div>
                    <div class=" +:+ dq +:+ "metric-card" +:+ dq +:+ ">
                        <div class=" +:+ dq +:+ "metric-value" +:+ dq +:+ ">" +:+
  format_f 3 (MinVoltagePU stats) +:+
  "</div>
                        <div class=" +:+ dq +:+ "metric-label" +:+ dq +:+ ">Min Voltage (pu)</div>
                    </div>
                    <div class=" +:+ dq +:+ "metric-card" +:+ dq +:+ ">
                        <div class=" +:+ dq +:+ "metric-value" +:+ dq +:+ ">" +:+
  format_f 0 (AvgDistLine stats) +:+
  " m</div>
                        <div class=" +:+ dq +:+ "metric-label" +:+ dq +:+ ">Avg Distance to Line</div>
                    </div>
                    <div class=" +:+ dq +:+ "metric-card" +:+ dq +:+ ">
                        <div class=" +:+ dq +:+ "metric-value" +:+ dq +:+ ">" +:+
  format_f 0 (AvgDistTransformer stats) +:+
  " m</div>
                        <div class=" +:+ dq +:+ "metric-label" +:+ dq +:+ ">Avg Distance to Transformer</div>
                    </div>
                </div>
            </div>

            <div class=" +:+ dq +:+ "panel" +:+ dq +:+ ">
                <h2>🏢 Building Analysis</h2>
                <div class=" +:+ dq +:+ "metric-grid" +:+ dq +:+ ">
                    <div class=" +:+ dq +:+ "metric-card status-success" +:+ dq +:+ ">
                        <div class=" +:+ dq +:+ "metric-value" +:+ dq +:+ ">" +:+
  str_len (BuildingsCount stats) +:+
  "</div>
                        <div class=" +:+ dq +:+ "metric-label" +:+ dq +:+ ">Total Buildings</div>
                    </div>
                    <div class=" +:+ dq +:+ "metric-card status-success" +:+ dq +:+ ">
                        <div class=" +:+ dq +:+ "metric-value" +:+ dq +:+ ">" +:+
  str_len (BuildingsCount stats) +:+
  "</div>
                        <div class=" +:+ dq +:+ "metric-label" +:+ dq +:+ ">Close to Transformer</div>
                    </div>
                    <div class=" +:+ dq +:+ "metric-card" +:+ dq +:+ ">
                        <div class=" +:+ dq +:+ "metric-value" +:+ dq +:+ ">100.0%</div>
                        <div class=" +:+ dq +:+ "metric-label" +:+ dq +:+ ">Network Coverage</div>
                    </div>
                    <div class=" +:+ dq +:+ "metric-card" +:+ dq +:+ ">
                        <div class=" +:+ dq +:+ "metric-value" +:+ dq +:+ ">✅ Ready</div>
                        <div class=" +:+ dq +:+ "metric-label" +:+ dq +:+ ">Implementation Status</div>
                    </div>
                </div>
            </div>
        </div>

        <div class=" +:+ dq +:+ "map-container" +:+ dq +:+ ">
            <h2>🗺️ Interactive Network Map</h2>
            <iframe src=" +:+ dq +:+ "" +:+
  Str.basename map_path +:+
  "" +:+ dq +:+ "></iframe>
        </div>

        <div class=" +:+ dq +:+ "panel" +:+ dq +:+ ">
            <h2>✅ Implementation Recommendations</h2>
            <div style=" +:+ dq +:+ "background: #f8f9fa; padding: 20px; border-radius: 10px; border-left: 5px solid #00b894;" +:+ dq +:+ ">
                <h4 style=" +:+ dq +:+ "margin: 0 0 10px 0; color: #2c3e50;" +:+ dq +:+ ">🔌 Electrical Capacity</h4>
                <p style=" +:+ dq +:+ "margin: 0; color: #7f8c8d;" +:+ dq +:+ ">✅ Network can support heat pump loads - Max transformer loading: " +:+
  format_f 2 (MaxTrafoLoading stats) +:+
  "%</p>
            </div>
            <div style=" +:+ dq +:+ "background: #f8f9fa; padding: 20px; border-radius: 10px; border-left: 5px solid #00b894; margin-top: 15px;" +:+ dq +:+ ">
                <h4 style=" +:+ dq +:+ "margin: 0 0 10px 0; color: #2c3e50;" +:+ dq +:+ ">🏗️ Infrastructure Proximity</h4>
                <p style=" +:+ dq +:+ "margin: 0; color: #7f8c8d;" +:+ dq +:+ ">✅ Buildings within connection range - Avg distance to transformer: " +:+
  format_f 0 (AvgDistTransformer stats) +:+
  "m</p>
            </div>
            <div style=" +:+ dq +:+ "background: #f8f9fa; padding: 20px; border-radius: 10px; border-left: 5px solid #00b894; margin-top: 15px;" +:+ dq +:+ ">
                <h4 style=" +:+ dq +:+ "margin: 0 0 10px 0; color: #2c3e50;" +:+ dq +:+ ">🛣️ Street-Based Routing</h4>
                <p style=" +:+ dq +:+ "margin: 0; color: #7f8c8d;" +:+ dq +:+ ">✅ Construction-ready service connections following existing street network</p>
            </div>
            <div style=" +:+ dq +:+ "background: #f8f9fa; padding: 20px; border-radius: 10px; border-left: 5px solid #00b894; margin-top: 15px;" +:+ dq +:+ ">
                <h4 style=" +:+ dq +:+ "margin: 0 0 10px 0; color: #2c3e50;" +:+ dq +:+ ">⚡ Power Quality</h4>
                <p style=" +:+ dq +:+ "margin: 0; color: #7f8c8d;" +:+ dq +:+ ">✅ Voltage levels within acceptable range - Min voltage: " +:+
  format_f 3 (MinVoltagePU stats) +:+
  " pu</p>
            </div>
        </div>
    </div>
</body>
</html>".

(** The summary [run_comprehensive_hp_analysis] returns. *)
Definition hp_summary (street_name scenario : string) (street_buildings : frame)
    (stats : hp_stats) (avg_dist_to_substation : float)
    (map_path dashboard_path output_dir : string) (chart_paths : list string)
    (cwd : string) : string :=
  "
=== COMPREHENSIVE HEAT PUMP FEASIBILITY ANALYSIS ===
Street: " +:+
  street_name +:+
  "
Scenario: " +:+
  scenario +:+
  "
Buildings Analyzed: " +:+
  str_len (length street_buildings) +:+
  "

📊 ELECTRICAL INFRASTRUCTURE METRICS:
• Max Transformer Loading: " +:+
  format_f 2 (MaxTrafoLoading stats) +:+
  "%
• Min Voltage: " +:+
  format_f 3 (MinVoltagePU stats) +:+
  " pu
• Network Coverage: 100.0% of buildings close to transformers

🏢 PROXIMITY ANALYSIS:
• Avg Distance to Power Line: " +:+
  format_f 1 (AvgDistLine stats) +:+
  " m
• Avg Distance to Substation: " +:+
  format_f 1 avg_dist_to_substation +:+
  " m
• Avg Distance to Transformer: " +:+
  format_f 1 (AvgDistTransformer stats) +:+
  " m
• Buildings Close to Transformer: " +:+
  str_len (length street_buildings) +:+
  "/" +:+
  str_len (length street_buildings) +:+
  "

✅ IMPLEMENTATION READINESS:
• Electrical Capacity: ✅ Network can support heat pump loads
• Infrastructure Proximity: ✅ Buildings within connection range
• Street-Based Routing: ✅ Construction-ready service connections
• Power Quality: ✅ Voltage levels within acceptable range

📁 GENERATED FILES:
• Interactive Map: " +:+
  map_path +:+
  "
• Dashboard: " +:+
  dashboard_path +:+
  "
• Proximity Table: " +:+
  output_dir +:+
  "/building_proximity_table.csv
• Charts: " +:+
  str_len (length chart_paths) +:+
  " visualization charts

🔗 DASHBOARD LINK: file://" +:+
  absolute cwd dashboard_path +:+
  "

✅ REAL ANALYSIS COMPLETED: This analysis used actual power flow simulation,
   proximity analysis, and interactive map generation from street_final_copy_3.
".

(** The dashboard of [run_comprehensive_dh_analysis]; the holes are
    evaluated from left to right, the first exception ends the rendering. *)
Definition dh_dashboard_html (street_name : string) (street_buildings : frame)
    (network_stats simulation_results : json) (map_path : option string)
    (now : string) : res string :=
  h1 ← (v ← py_get network_stats "num_buildings" (JInt (Z.of_nat (length street_buildings))); Ret (py_str v));
  h2 ← (v ← py_get network_stats "total_supply_length_km" (JFloat 0.92); py_format_f 2 v);
  h3 ← (v ← py_get network_stats "total_return_length_km" (JFloat 0.92); py_format_f 2 v);
  h4 ← (v ← py_get network_stats "total_main_length_km" (JFloat 1.84); py_format_f 2 v);
  h5 ← (v ← py_get network_stats "total_service_length_m" (JInt (Z.of_nat (length street_buildings) * 50)); py_format_f 0 v);
  h6 ← (v ← py_get network_stats "num_buildings" (JInt (Z.of_nat (length street_buildings))); Ret (py_str v));
  h7 ← (v ← py_get network_stats "service_connections" (JInt (Z.of_nat (length street_buildings) * 2)); Ret (py_str v));
  h8 ← (v ← py_get network_stats "total_heat_demand_mwh" (JInt (Z.of_nat (length street_buildings) * 10)); py_format_f 1 v);
  h9 ← (v ← py_get_with network_stats "network_density_km_per_building" (float_div_len 1.84 (length street_buildings)); py_format_f 3 v);
  h10 ← (v ← py_get simulation_results "pressure_drop_bar" (JFloat 0.000025); py_format_f 6 v);
  h11 ← (v ← py_get simulation_results "total_flow_kg_per_s" (JFloat (float_of_len (length street_buildings) * 0.1)); py_format_f 1 v);
  h12 ← (v ← py_get simulation_results "temperature_drop_c" (JFloat 30.0); py_format_f 1 v);
  h13 ← (v ← py_get simulation_results "hydraulic_success" (JBool true); Ret (if py_truthy v then "✅ Yes" else "❌ No"));
  h14 ← (v ← py_get network_stats "total_main_length_km" (JFloat 1.84); py_format_f 2 v);
  h15 ← (v ← py_get simulation_results "temperature_drop_c" (JFloat 30.0); py_format_f 1 v);
  Ret ("<!DOCTYPE html>
<html lang=" +:+ dq +:+ "en" +:+ dq +:+ ">
<head>
    <meta charset=" +:+ dq +:+ "UTF-8" +:+ dq +:+ ">
    <meta name=" +:+ dq +:+ "viewport" +:+ dq +:+ " content=" +:+ dq +:+ "width=device-width, initial-scale=1.0" +:+ dq +:+ ">
    <title>District Heating Network Analysis - " +:+
  street_name +:+
  "</title>
    <style>
        body {
            font-family: 'Segoe UI', Tahoma, Geneva, Verdana, sans-serif;
            margin: 0;
            padding: 0;
            background: linear-gradient(135deg, #e17055 0%, #d63031 100%);
            min-height: 100vh;
        }
        .container {
            max-width: 1400px;
            margin: 0 auto;
            padding: 20px;
        }
        .header {
            background: rgba(255, 255, 255, 0.95);
            padding: 30px;
            border-radius: 15px;
            box-shadow: 0 8px 32px rgba(0, 0, 0, 0.1);
            margin-bottom: 30px;
            text-align: center;
        }
        .header h1 {
            color: #2c3e50;
            margin: 0;
            font-size: 2.5em;
            font-weight: 300;
        }
        .header p {
            color: #7f8c8d;
            margin: 10px 0 0 0;
            font-size: 1.2em;
        }
        .dashboard-grid {
            display: grid;
            grid-template-columns: 1fr 1fr;
            gap: 30px;
            margin-bottom: 30px;
        }
        .panel {
            background: rgba(255, 255, 255, 0.95);
            padding: 25px;
            border-radius: 15px;
            box-shadow: 0 8px 32px rgba(0, 0, 0, 0.1);
        }
        .panel h2 {
            color: #2c3e50;
            margin: 0 0 20px 0;
            font-size: 1.5em;
            border-bottom: 3px solid #e74c3c;
            padding-bottom: 10px;
        }
        .metric-grid {
            display: grid;
            grid-template-columns: repeat(auto-fit, minmax(200px, 1fr));
            gap: 20px;
        }
        .metric-card {
            background: linear-gradient(135deg, #fd79a8 0%, #e84393 100%);
            color: white;
            padding: 20px;
            border-radius: 10px;
            text-align: center;
            box-shadow: 0 4px 15px rgba(0, 0, 0, 0.1);
        }
        .metric-value {
            font-size: 2em;
            font-weight: bold;
            margin-bottom: 5px;
        }
        .metric-label {
            font-size: 0.9em;
            opacity: 0.9;
        }
        .status-success {
            background: linear-gradient(135deg, #00b894 0%, #00a085 100%);
        }
        .map-container {
            background: rgba(255, 255, 255, 0.95);
            padding: 25px;
            border-radius: 15px;
            box-shadow: 0 8px 32px rgba(0, 0, 0, 0.1);
            margin-bottom: 30px;
        }
        .map-container h2 {
            color: #2c3e50;
            margin: 0 0 20px 0;
            font-size: 1.5em;
            border-bottom: 3px solid #e74c3c;
            padding-bottom: 10px;
        }
        .map-container iframe {
            width: 100%;
            height: 600px;
            border: none;
            border-radius: 10px;
        }
        @media (max-width: 768px) {
            .dashboard-grid {
                grid-template-columns: 1fr;
            }
            .metric-grid {
                grid-template-columns: 1fr;
            }
        }
    </style>
</head>
<body>
    <div class=" +:+ dq +:+ "container" +:+ dq +:+ ">
        <div class=" +:+ dq +:+ "header" +:+ dq +:+ ">
            <h1>🔥 District Heating Network Analysis</h1>
            <p>Comprehensive dual-pipe network design and hydraulic simulation for " +:+
  street_name +:+
  "</p>
            <p><strong>Analysis Date:</strong> " +:+
  now +:+
  " | <strong>Buildings Analyzed:</strong> " +:+
  h1 +:+
  "</p>
        </div>

        <div class=" +:+ dq +:+ "dashboard-grid" +:+ dq +:+ ">
            <div class=" +:+ dq +:+ "panel" +:+ dq +:+ ">
                <h2>📊 Network Infrastructure</h2>
                <div class=" +:+ dq +:+ "metric-grid" +:+ dq +:+ ">
                    <div class=" +:+ dq +:+ "metric-card" +:+ dq +:+ ">
                        <div class=" +:+ dq +:+ "metric-value" +:+ dq +:+ ">" +:+
  h2 +:+
  " km</div>
                        <div class=" +:+ dq +:+ "metric-label" +:+ dq +:+ ">Supply Pipes</div>
                    </div>
                    <div class=" +:+ dq +:+ "metric-card" +:+ dq +:+ ">
                        <div class=" +:+ dq +:+ "metric-value" +:+ dq +:+ ">" +:+
  h3 +:+
  " km</div>
                        <div class=" +:+ dq +:+ "metric-label" +:+ dq +:+ ">Return Pipes</div>
                    </div>
                    <div class=" +:+ dq +:+ "metric-card" +:+ dq +:+ ">
                        <div class=" +:+ dq +:+ "metric-value" +:+ dq +:+ ">" +:+
  h4 +:+
  " km</div>
                        <div class=" +:+ dq +:+ "metric-label" +:+ dq +:+ ">Total Main Pipes</div>
                    </div>
                    <div class=" +:+ dq +:+ "metric-card" +:+ dq +:+ ">
                        <div class=" +:+ dq +:+ "metric-value" +:+ dq +:+ ">" +:+
  h5 +:+
  " m</div>
                        <div class=" +:+ dq +:+ "metric-label" +:+ dq +:+ ">Service Pipes</div>
                    </div>
                </div>
            </div>

            <div class=" +:+ dq +:+ "panel" +:+ dq +:+ ">
                <h2>🏢 Building Connections</h2>
                <div class=" +:+ dq +:+ "metric-grid" +:+ dq +:+ ">
                    <div class=" +:+ dq +:+ "metric-card" +:+ dq +:+ ">
                        <div class=" +:+ dq +:+ "metric-value" +:+ dq +:+ ">" +:+
  h6 +:+
  "</div>
                        <div class=" +:+ dq +:+ "metric-label" +:+ dq +:+ ">Total Buildings</div>
                    </div>
                    <div class=" +:+ dq +:+ "metric-card" +:+ dq +:+ ">
                        <div class=" +:+ dq +:+ "metric-value" +:+ dq +:+ ">" +:+
  h7 +:+
  "</div>
                        <div class=" +:+ dq +:+ "metric-label" +:+ dq +:+ ">Service Connections</div>
                    </div>
                    <div class=" +:+ dq +:+ "metric-card" +:+ dq +:+ ">
                        <div class=" +:+ dq +:+ "metric-value" +:+ dq +:+ ">" +:+
  h8 +:+
  "</div>
                        <div class=" +:+ dq +:+ "metric-label" +:+ dq +:+ ">Total Heat Demand (MWh/year)</div>
                    </div>
                    <div class=" +:+ dq +:+ "metric-card" +:+ dq +:+ ">
                        <div class=" +:+ dq +:+ "metric-value" +:+ dq +:+ ">" +:+
  h9 +:+
  "</div>
                        <div class=" +:+ dq +:+ "metric-label" +:+ dq +:+ ">Network Density (km/building)</div>
                    </div>
                </div>
            </div>
        </div>

        <div class=" +:+ dq +:+ "panel" +:+ dq +:+ ">
            <h2>⚡ Hydraulic Simulation Results</h2>
            <div class=" +:+ dq +:+ "metric-grid" +:+ dq +:+ ">
                <div class=" +:+ dq +:+ "metric-card status-success" +:+ dq +:+ ">
                    <div class=" +:+ dq +:+ "metric-value" +:+ dq +:+ ">" +:+
  h10 +:+
  "</div>
                    <div class=" +:+ dq +:+ "metric-label" +:+ dq +:+ ">Pressure Drop (bar)</div>
                </div>
                <div class=" +:+ dq +:+ "metric-card" +:+ dq +:+ ">
                    <div class=" +:+ dq +:+ "metric-value" +:+ dq +:+ ">" +:+
  h11 +:+
  "</div>
                    <div class=" +:+ dq +:+ "metric-label" +:+ dq +:+ ">Total Flow (kg/s)</div>
                </div>
                <div class=" +:+ dq +:+ "metric-card" +:+ dq +:+ ">
                    <div class=" +:+ dq +:+ "metric-value" +:+ dq +:+ ">" +:+
  h12 +:+
  " °C</div>
                    <div class=" +:+ dq +:+ "metric-label" +:+ dq +:+ ">Temperature Drop</div>
                </div>
                <div class=" +:+ dq +:+ "metric-card status-success" +:+ dq +:+ ">
                    <div class=" +:+ dq +:+ "metric-value" +:+ dq +:+ ">" +:+
  h13 +:+
  "</div>
                    <div class=" +:+ dq +:+ "metric-label" +:+ dq +:+ ">Hydraulic Success</div>
                </div>
            </div>
        </div>

        <div class=" +:+ dq +:+ "map-container" +:+ dq +:+ ">
            <h2>🗺️ Interactive Network Map</h2>
            <iframe src=" +:+ dq +:+ "" +:+
  map_basename map_path +:+
  "" +:+ dq +:+ "></iframe>
        </div>

        <div class=" +:+ dq +:+ "panel" +:+ dq +:+ ">
            <h2>✅ Implementation Recommendations</h2>
            <div style=" +:+ dq +:+ "background: #f8f9fa; padding: 20px; border-radius: 10px; border-left: 5px solid #00b894;" +:+ dq +:+ ">
                <h4 style=" +:+ dq +:+ "margin: 0 0 10px 0; color: #2c3e50;" +:+ dq +:+ ">🔥 Complete Dual-Pipe System</h4>
                <p style=" +:+ dq +:+ "margin: 0; color: #7f8c8d;" +:+ dq +:+ ">✅ Supply and return networks designed - " +:+
  h14 +:+
  " km total main pipes</p>
            </div>
            <div style=" +:+ dq +:+ "background: #f8f9fa; padding: 20px; border-radius: 10px; border-left: 5px solid #00b894; margin-top: 15px;" +:+ dq +:+ ">
                <h4 style=" +:+ dq +:+ "margin: 0 0 10px 0; color: #2c3e50;" +:+ dq +:+ ">⚡ Pandapipes Simulation</h4>
                <p style=" +:+ dq +:+ "margin: 0; color: #7f8c8d;" +:+ dq +:+ ">✅ Hydraulic analysis completed successfully - Pressure drop within limits</p>
            </div>
            <div style=" +:+ dq +:+ "background: #f8f9fa; padding: 20px; border-radius: 10px; border-left: 5px solid #00b894; margin-top: 15px;" +:+ dq +:+ ">
                <h4 style=" +:+ dq +:+ "margin: 0 0 10px 0; color: #2c3e50;" +:+ dq +:+ ">🏗️ Engineering Compliance</h4>
                <p style=" +:+ dq +:+ "margin: 0; color: #7f8c8d;" +:+ dq +:+ ">✅ Industry standards met - Temperature drop of " +:+
  h15 +:+
  "°C achieved</p>
            </div>
            <div style=" +:+ dq +:+ "background: #f8f9fa; padding: 20px; border-radius: 10px; border-left: 5px solid #00b894; margin-top: 15px;" +:+ dq +:+ ">
                <h4 style=" +:+ dq +:+ "margin: 0 0 10px 0; color: #2c3e50;" +:+ dq +:+ ">🛣️ Street-Based Routing</h4>
                <p style=" +:+ dq +:+ "margin: 0; color: #7f8c8d;" +:+ dq +:+ ">✅ ALL connections follow existing street network for construction feasibility</p>
            </div>
        </div>
    </div>
</body>
</html>").

(** The summary [run_comprehensive_dh_analysis] returns. *)
Definition dh_summary (street_name : string) (street_buildings : frame)
    (network_stats simulation_results : json)
    (dashboard_path output_dir cwd : string) : res string :=
  h1 ← (v ← py_get network_stats "num_buildings" (JInt (Z.of_nat (length street_buildings))); Ret (py_str v));
  h2 ← (v ← py_get network_stats "total_supply_length_km" (JFloat 0.92); py_format_f 2 v);
  h3 ← (v ← py_get network_stats "total_return_length_km" (JFloat 0.92); py_format_f 2 v);
  h4 ← (v ← py_get network_stats "total_main_length_km" (JFloat 1.84); py_format_f 2 v);
  h5 ← (v ← py_get network_stats "total_service_length_m" (JInt (Z.of_nat (length street_buildings) * 50)); py_format_f 0 v);
  h6 ← (v ← py_get network_stats "num_buildings" (JInt (Z.of_nat (length street_buildings))); Ret (py_str v));
  h7 ← (v ← py_get network_stats "service_connections" (JInt (Z.of_nat (length street_buildings) * 2)); Ret (py_str v));
  h8 ← (v ← py_get network_stats "total_heat_demand_mwh" (JInt (Z.of_nat (length street_buildings) * 10)); py_format_f 1 v);
  h9 ← (v ← py_get_with network_stats "network_density_km_per_building" (float_div_len 1.84 (length street_buildings)); py_format_f 3 v);
  h10 ← (v ← py_get simulation_results "pressure_drop_bar" (JFloat 0.000025); py_format_f 6 v);
  h11 ← (v ← py_get simulation_results "total_flow_kg_per_s" (JFloat (float_of_len (length street_buildings) * 0.1)); py_format_f 1 v);
  h12 ← (v ← py_get simulation_results "temperature_drop_c" (JFloat 30.0); py_format_f 1 v);
  h13 ← (v ← py_get simulation_results "hydraulic_success" (JBool true); Ret (if py_truthy v then "✅ Yes" else "❌ No"));
  Ret ("
=== COMPREHENSIVE DISTRICT HEATING NETWORK ANALYSIS ===
Street: " +:+
  street_name +:+
  "
Buildings Analyzed: " +:+
  h1 +:+
  "

📊 NETWORK INFRASTRUCTURE:
• Supply Pipes: " +:+
  h2 +:+
  " km
• Return Pipes: " +:+
  h3 +:+
  " km
• Total Main Pipes: " +:+
  h4 +:+
  " km
• Service Pipes: " +:+
  h5 +:+
  " m

🏢 BUILDING CONNECTIONS:
• Total Buildings: " +:+
  h6 +:+
  "
• Service Connections: " +:+
  h7 +:+
  " (supply + return)
• Total Heat Demand: " +:+
  h8 +:+
  " MWh/year
• Network Density: " +:+
  h9 +:+
  " km per building

⚡ HYDRAULIC SIMULATION:
• Pressure Drop: " +:+
  h10 +:+
  " bar
• Total Flow: " +:+
  h11 +:+
  " kg/s
• Temperature Drop: " +:+
  h12 +:+
  " °C
• Hydraulic Success: " +:+
  h13 +:+
  "

✅ IMPLEMENTATION READINESS:
• Complete Dual-Pipe System: ✅ Supply and return networks
• Pandapipes Simulation: ✅ Hydraulic analysis completed
• Engineering Compliance: ✅ Industry standards met
• Street-Based Routing: ✅ ALL connections follow streets

📁 GENERATED FILES:
• Dashboard: " +:+
  dashboard_path +:+
  "
• Network Data: " +:+
  output_dir +:+
  "/dual_supply_pipes_*.csv
• Service Connections: " +:+
  output_dir +:+
  "/dual_service_connections_*.csv
• Simulation Results: " +:+
  output_dir +:+
  "/pandapipes_simulation_*.json

🔗 DASHBOARD LINK: file://" +:+
  absolute cwd dashboard_path +:+
  "

✅ REAL ANALYSIS COMPLETED: This analysis used actual dual-pipe network design,
   pandapipes hydraulic simulation, and interactive map generation from street_final_copy_3.
").

(** The text [compare_comprehensive_scenarios] returns. *)
Definition comparison_summary (street_name hp_scenario hp_result dh_result : string) : string :=
  "
=== COMPREHENSIVE SCENARIO COMPARISON ===
Street: " +:+
  street_name +:+
  "
HP Scenario: " +:+
  hp_scenario +:+
  "

🔌 HEAT PUMP (DECENTRALIZED) ANALYSIS:
" +:+
  hp_result +:+
  "

🔥 DISTRICT HEATING (CENTRALIZED) ANALYSIS:
" +:+
  dh_result +:+
  "

⚖️ COMPARISON SUMMARY:
• Heat Pumps: Individual building solutions with electrical infrastructure requirements
• District Heating: Centralized network solution with thermal infrastructure
• Both: Street-following routing for construction feasibility
• Both: Comprehensive simulation and analysis completed

📊 RECOMMENDATION:
The choice between HP and DH depends on:
1. Electrical infrastructure capacity (HP requirement)
2. Thermal infrastructure investment (DH requirement)
3. Building density and heat demand patterns
4. Local energy prices and policy preferences

Both solutions are technically feasible for " +:+
  street_name +:+
  " with proper infrastructure planning.

💡 NOTE: This is a demonstration of the enhanced agent system integration.
   The full implementation would include actual comprehensive analysis
   with real power flow and hydraulic simulations.
".

(** The head and the foot of the text [analyze_kpi_report] returns. *)
Definition kpi_analysis_head (kpi_report_path : string) : string :=
  "
=== KPI REPORT ANALYSIS ===
File: " +:+
  kpi_report_path +:+
  "

📊 KEY METRICS:
".

Definition kpi_analysis_foot : string :=
  "
💡 INSIGHTS:
• The analysis provides comprehensive energy infrastructure assessment
• Both technical and economic metrics are evaluated
• Recommendations are based on industry standards and best practices

📋 RECOMMENDATIONS:
• Review the generated visualizations for spatial understanding
• Consider both technical feasibility and economic viability
• Consult with energy infrastructure experts for implementation planning
".

(** ** The analysis tools *)

(** [try: body except Exception as e: return handler(e)] *)
Definition try_except (body : res string) (handler : exn → string) : res string :=
  match body with
  | Ret s => Ret s
  | Raise e => Ret (handler e)
  end.

Definition modules_not_available : string :=
  "Error: Required modules from street_final_copy_3 are not available.".

Definition buildings_geojson : string :=
  "data/geojson/hausumringe_mit_adressenV3.geojson".

(** [import_street_final_modules()]: [imports] is what creating the output
    directory and importing the collaborator's modules gives; the result is
    [true] for the dict of functions and [false] for [None]. *)
Definition import_street_final_modules (imports : res unit) : res bool :=
  match imports with
  | Ret _ => Ret true
  | Raise e => if decide (exn_class e = ImportError) then Ret false else Raise e
  end.

(** What the collaborator, the file system and the clock answer to one
    invocation of the heat-pump analysis. *)
Record hp_world := HpWorld {
  hp_imports : res unit;
  hp_mkdir : res unit;
  load_buildings : string → res frame;
  load_power_infrastructure : res unit;
  read_streets : string → res unit;
  compute_proximity : frame → res frame;
  compute_service_lines_street_following : frame → res frame;
  compute_power_feasibility : frame → string → res (gmap string metrics);
  visualize : frame → res unit;
  output_results_table : frame → res unit;
  save_charts : frame → res unit;
  hp_write : string → string → res unit;
  hp_now : string;
  hp_cwd : string
}.

Definition hp_analysis_body (w : hp_world) (street_name scenario : string)
    : res string :=
  modules ← import_street_final_modules (hp_imports w);
  if negb modules then Ret modules_not_available else
  let output_dir := "results_test/hp_analysis" in
  _ ← hp_mkdir w;
  buildings ← load_buildings w buildings_geojson;
  street_buildings ← filter_street_buildings buildings street_name;
  if decide (length street_buildings = 0%nat)
  then Ret ("No buildings found for street: " +:+ street_name) else
  _ ← load_power_infrastructure w;
  _ ← read_streets w "data/geojson/strassen_mit_adressenV3.geojson";
  street_buildings ← compute_proximity w street_buildings;
  street_buildings ← compute_service_lines_street_following w street_buildings;
  power_metrics ← compute_power_feasibility w street_buildings scenario;
  let street_buildings := add_power_metrics power_metrics street_buildings in
  let map_path := Str.join output_dir "hp_feasibility_map.html" in
  _ ← visualize w street_buildings;
  _ ← output_results_table w street_buildings;
  let stats := hp_stats_of street_buildings in
  _ ← save_charts w street_buildings;
  let chart_paths :=
    [ Str.join output_dir "dist_to_transformer_hist.png";
      Str.join output_dir "dist_to_line_hist.png" ] in
  let dashboard_path := Str.join output_dir "hp_feasibility_dashboard.html" in
  let dashboard_html :=
    hp_dashboard_html street_name scenario stats map_path (hp_now w) in
  _ ← hp_write w dashboard_path dashboard_html;
  Ret (hp_summary street_name scenario street_buildings stats
         (avg_dist_to_substation_of street_buildings)
         map_path dashboard_path output_dir chart_paths (hp_cwd w)).

(** [run_comprehensive_hp_analysis(street_name, scenario)] *)
Definition run_comprehensive_hp_analysis (w : hp_world)
    (street_name scenario : string) : res string :=
  try_except (hp_analysis_body w street_name scenario)
    (λ e, "Error in comprehensive HP analysis: " +:+ exn_str e).

(** What the collaborator, the file system and the clock answer to one
    invocation of the district-heating analysis.  [dh_load_json path] is
    [None] when [os.path.exists(path)] is false, else what opening and
    loading the file gives. *)
Record dh_world := DhWorld {
  dh_imports : res unit;
  dh_mkdir : res unit;
  read_file : string → res frame;
  to_file : string → list building → res unit;
  create_network_map : string → string → res unit;
  dh_load_json : string → option (res json);
  dh_write : string → string → res unit;
  dh_now : string;
  dh_cwd : string
}.

(** The values the analysis takes when a result file is absent. *)
Definition default_network_stats (street_buildings : list building) : res json :=
  let n := length street_buildings in
  density ← float_div_len 1.84 n;
  Ret (JObj [ ("total_supply_length_km", JFloat 0.92);
              ("total_return_length_km", JFloat 0.92);
              ("total_main_length_km", JFloat 1.84);
              ("total_service_length_m", JInt (Z.of_nat n * 50));
              ("num_buildings", JInt (Z.of_nat n));
              ("service_connections", JInt (Z.of_nat n * 2));
              ("total_heat_demand_mwh", JInt (Z.of_nat n * 10));
              ("network_density_km_per_building", density) ]).

Definition default_simulation_results (street_buildings : list building) : json :=
  let n := length street_buildings in
  JObj [ ("pressure_drop_bar", JFloat 0.000025);
         ("total_flow_kg_per_s", JFloat (float_of_len n * 0.1));
         ("temperature_drop_c", JFloat 30.0);
         ("hydraulic_success", JBool true) ].

(** The paths of the district-heating analysis (for a street name without
    a slash, which [pathlib] would normalise). *)
Definition dh_output_dir : string := "results_test/dh_analysis".

Definition dh_buildings_file (street_name : string) : string :=
  dh_output_dir +:+ "/buildings_" +:+ Str.replace_space street_name +:+ ".geojson".

Definition dh_map_path (street_name : string) : string :=
  Str.join dh_output_dir ("dh_network_map_" +:+ street_name +:+ ".html").

Definition dh_stats_file (street_name : string) : string :=
  dh_output_dir +:+ "/dual_network_stats_dh_analysis_" +:+
  Str.replace_space street_name +:+ ".json".

Definition dh_sim_file (street_name : string) : string :=
  dh_output_dir +:+ "/pandapipes_simulation_results_dh_analysis_" +:+
  Str.replace_space street_name +:+ ".json".

Definition dh_dashboard_path (street_name : string) : string :=
  Str.join dh_output_dir ("dh_dashboard_" +:+ Str.replace_space street_name +:+ ".html").

Definition dh_analysis_body (w : dh_world) (street_name : string) : res string :=
  modules ← import_street_final_modules (dh_imports w);
  if negb modules then Ret modules_not_available else
  _ ← dh_mkdir w;
  buildings ← read_file w buildings_geojson;
  street_buildings ← filter_street_buildings buildings street_name;
  if decide (length street_buildings = 0%nat)
  then Ret ("No buildings found for street: " +:+ street_name) else
  _ ← to_file w (dh_buildings_file street_name) street_buildings;
  let map_path :=
    match create_network_map w (dh_buildings_file street_name) (dh_map_path street_name) with
    | Ret _ => Some (dh_map_path street_name)
    | Raise _ => None
    end in
  network_stats ←
    match dh_load_json w (dh_stats_file street_name) with
    | Some loaded => loaded
    | None => default_network_stats street_buildings
    end;
  simulation_results ←
    match dh_load_json w (dh_sim_file street_name) with
    | Some loaded => loaded
    | None => Ret (default_simulation_results street_buildings)
    end;
  dashboard_html ←
    dh_dashboard_html street_name street_buildings network_stats simulation_results
      map_path (dh_now w);
  _ ← dh_write w (dh_dashboard_path street_name) dashboard_html;
  dh_summary street_name street_buildings network_stats simulation_results
    (dh_dashboard_path street_name) dh_output_dir (dh_cwd w).

(** [run_comprehensive_dh_analysis(street_name)] *)
Definition run_comprehensive_dh_analysis (w : dh_world) (street_name : string)
    : res string :=
  try_except (dh_analysis_body w street_name)
    (λ e, "Error in comprehensive DH analysis: " +:+ exn_str e).

Definition comparison_body (whp : hp_world) (wdh : dh_world)
    (street_name hp_scenario : string) : res string :=
  hp_result ← run_comprehensive_hp_analysis whp street_name hp_scenario;
  dh_result ← run_comprehensive_dh_analysis wdh street_name;
  Ret (comparison_summary street_name hp_scenario hp_result dh_result).

(** [compare_comprehensive_scenarios(street_name, hp_scenario)]; [.func] of a
    tool is the function it wraps. *)
Definition compare_comprehensive_scenarios (whp : hp_world) (wdh : dh_world)
    (street_name hp_scenario : string) : res string :=
  try_except (comparison_body whp wdh street_name hp_scenario)
    (λ e, "Error in comprehensive scenario comparison: " +:+ exn_str e).

(** ** KPI report analysis *)

(** A column of the frame [pd.read_csv] gives: the text of its label,
    whether its dtype is [int64] or [float64], and the text of its first
    value ([None] in an empty frame). *)
Record kpi_column := KpiColumn {
  column_label : string;
  numeric_dtype : bool;
  first_value : option string
}.

Inductive kpi_data :=
  | KpiFrame (columns : list kpi_column)
  | KpiJson (v : json).

Record kpi_world := KpiWorld {
  kpi_exists : string → bool;
  read_csv : string → res (list kpi_column);
  kpi_load_json : string → res json
}.

Definition kpi_metric_lines (data : kpi_data) : string :=
  match data with
  | KpiFrame columns =>
      foldl (λ analysis c,
               if numeric_dtype c
               then analysis +:+ "• " +:+ column_label c +:+ ": " +:+
                    from_option id "N/A" (first_value c) +:+ "
"
               else analysis) "" columns
  | KpiJson (JObj o) =>
      foldl (λ analysis kv,
               analysis +:+ "• " +:+ kv.1 +:+ ": " +:+ py_str kv.2 +:+ "
") "" o
  | KpiJson _ => ""
  end.

Definition kpi_body (w : kpi_world) (kpi_report_path : string) : res string :=
  if negb (kpi_exists w kpi_report_path)
  then Ret ("Error: KPI report file not found at " +:+ kpi_report_path)
  else
    loaded ←
      (if Str.endswith kpi_report_path ".csv"
       then columns ← read_csv w kpi_report_path; Ret (Some (KpiFrame columns))
       else if Str.endswith kpi_report_path ".json"
       then v ← kpi_load_json w kpi_report_path; Ret (Some (KpiJson v))
       else Ret None);
    match loaded with
    | None =>
        Ret ("Error: Unsupported file format for KPI report: " +:+ kpi_report_path)
    | Some data =>
        Ret (kpi_analysis_head kpi_report_path +:+ kpi_metric_lines data +:+
             kpi_analysis_foot)
    end.

(** [analyze_kpi_report(kpi_report_path)] *)
Definition analyze_kpi_report (w : kpi_world) (kpi_report_path : string)
    : res string :=
  try_except (kpi_body w kpi_report_path)
    (λ e, "Error analyzing KPI report: " +:+ exn_str e).

End Tools.

(** ** Results lister *)

Inductive category := Web | Table | Data | Image | Geometry | OtherFile.

Global Instance category_eq_dec : EqDecision category.
Proof. solve_decision. Defined.

(** The chain of [file.endswith] tests of [list_available_results]. *)
Definition categorize (file : string) : category :=
  if Str.endswith file ".html" then Web
  else if Str.endswith file ".csv" then Table
  else if Str.endswith file ".json" then Data
  else if Str.endswith file ".png" || Str.endswith file ".jpg" then Image
  else if Str.endswith file ".geojson" then Geometry
  else OtherFile.

(** The mark each branch of the chain puts before the path. *)
Definition icon (c : category) : string :=
  match c with
  | Web => "🌐"
  | Table => "📊"
  | Data => "📄"
  | Image => "🖼️"
  | Geometry => "🗺️"
  | OtherFile => "📁"
  end.

(** A file [os.walk] finds: its name, its path relative to the output
    directory and what [os.path.getsize] gives. *)
Record file_entry := FileEntry {
  file : string;
  relative_path : string;
  file_size : res Z
}.

Definition list_file (e : file_entry) (results : list string) : res (list string) :=
  size ← file_size e;
  Ret (results ++ [ "  " +:+ icon (categorize (file e)) +:+ " " +:+ relative_path e +:+
                    " (" +:+ format_comma size +:+ " bytes)" ]).

(** [walk output_dir] is [None] when the directory does not exist, else the
    files below it in walk order. *)
Definition list_output_dir (walk : string → option (list file_entry))
    (output_dir : string) (results : list string) : res (list string) :=
  match walk output_dir with
  | Some files => for_each list_file files (results ++ [ "
📁 " +:+ output_dir +:+ "/" ])
  | None => Ret results
  end.

Definition list_results_body (walk : string → option (list file_entry))
    : res string :=
  results ← for_each (list_output_dir walk)
              ["results_test"; "results"; "simulation_outputs"] [];
  match results with
  | [] => Ret "No results found. Run an analysis first to generate results."
  | _ => Ret (String.concat "" results)
  end.

(** [list_available_results()] *)
Definition list_available_results (walk : string → option (list file_entry))
    : res string :=
  try_except (list_results_body walk)
    (λ e, "Error listing results: " +:+ exn_str e).

(** ** The tools as they are called

    Each tool prints a line before its [try] block, and the two data tools
    print another after their loop; [print text] is what writing the line to
    standard output gives.  No handler is around these calls. *)

Section Called.

Variable series_mean : list float → float.
Variable py_repr : json → string.
Variable print : string → res unit.

Definition call_get_all_street_names (file : res json) : res (list string) :=
  _ ← print ("TOOL: Reading all street names from " +:+ buildings_geojson +:+ "...");
  match file with
  | Raise e => get_all_street_names (Raise e)
  | Ret data =>
      sorted_streets ← get_all_street_names (Ret data);
      _ ← print ("TOOL: Found " +:+ str_len (length sorted_streets) +:+ " unique streets.");
      Ret sorted_streets
  end.

Definition call_get_building_ids_for_street (file : res json) (street_name : string)
    : res (list json) :=
  _ ← print ("TOOL: Searching for buildings on '" +:+ street_name +:+ "' in " +:+
             buildings_geojson +:+ "...");
  match file with
  | Raise e => get_building_ids_for_street (Raise e) street_name
  | Ret data =>
      selected_ids ← get_building_ids_for_street (Ret data) street_name;
      _ ← print ("TOOL: Found " +:+ str_len (length selected_ids) +:+ " buildings.");
      Ret selected_ids
  end.

Definition hp_opening_line (street_name scenario : string) : string :=
  "TOOL: Running comprehensive HP analysis for '" +:+ street_name +:+
  "' with scenario '" +:+ scenario +:+ "'...".

Definition call_run_comprehensive_hp_analysis (w : hp_world)
    (street_name scenario : string) : res string :=
  _ ← print (hp_opening_line street_name scenario);
  run_comprehensive_hp_analysis series_mean w street_name scenario.

Definition dh_opening_line (street_name : string) : string :=
  "TOOL: Running comprehensive DH analysis for '" +:+ street_name +:+ "'...".

Definition call_run_comprehensive_dh_analysis (w : dh_world) (street_name : string)
    : res string :=
  _ ← print (dh_opening_line street_name);
  run_comprehensive_dh_analysis py_repr w street_name.

Definition comparison_opening_line (street_name : string) : string :=
  "TOOL: Running comprehensive scenario comparison for '" +:+ street_name +:+ "'...".

Definition call_compare_comprehensive_scenarios (whp : hp_world) (wdh : dh_world)
    (street_name hp_scenario : string) : res string :=
  _ ← print (comparison_opening_line street_name);
  compare_comprehensive_scenarios series_mean py_repr whp wdh street_name hp_scenario.

Definition kpi_opening_line (kpi_report_path : string) : string :=
  "TOOL: Analyzing KPI report at " +:+ kpi_report_path +:+ "...".

Definition call_analyze_kpi_report (w : kpi_world) (kpi_report_path : string)
    : res string :=
  _ ← print (kpi_opening_line kpi_report_path);
  analyze_kpi_report py_repr w kpi_report_path.

Definition listing_opening_line : string := "TOOL: Listing all available results...".

Definition call_list_available_results (walk : string → option (list file_entry))
    : res string :=
  _ ← print listing_opening_line;
  list_available_results walk.

End Called.

(** Standard output is closed: every [print] raises. *)
Definition closed_stdout : string → res unit :=
  λ _, Raise (Exn ValueError "I/O operation on closed file.").

(** Standard output takes ASCII only: a line with another byte raises (the
    message is shortened here). *)
Definition ascii_stdout : string → res unit :=
  λ text,
    if forallb (λ b, Z.of_N (N_of_ascii b) <? 128) (list_ascii_of_string text)
    then Ret ()
    else Raise (Exn ValueError "'ascii' codec can't encode character: ordinal not in range(128)").

(** The category the specification assigns to a file: its extension (what
    follows the last dot of the name) looked up in the fixed table. *)
Fixpoint extension_go (reversed acc : string) : option string :=
  match reversed with
  | EmptyString => None
  | String c r => if Ascii.eqb c "." then Some acc else extension_go r (String c acc)
  end.

Fixpoint dot_free (s : string) : bool :=
  match s with
  | EmptyString => true
  | String c s' => negb (Ascii.eqb c ".") && dot_free s'
  end.

Definition extension (file : string) : option string :=
  extension_go (String.rev file) EmptyString.

Definition category_of_extension (ext : option string) : category :=
  match ext with
  | Some e =>
      if String.eqb e "html" then Web
      else if String.eqb e "csv" then Table
      else if String.eqb e "json" then Data
      else if String.eqb e "png" || String.eqb e "jpg" then Image
      else if String.eqb e "geojson" then Geometry
      else OtherFile
  | None => OtherFile
  end.

(** ** Sample invocations *)

Definition one_building_frame : frame := [ sample_row 0 "B1" "Hauptstrasse" nan ].

(** The buildings cannot be loaded. *)
Definition unreadable_world : hp_world :=
  {| hp_imports := Ret ();
     hp_mkdir := Ret ();
     load_buildings := λ _, Raise (Exn OSError "cannot read the buildings file");
     load_power_infrastructure := Ret ();
     read_streets := λ _, Ret ();
     compute_proximity := Ret;
     compute_service_lines_street_following := Ret;
     compute_power_feasibility := λ _ _, Ret ∅;
     visualize := λ _, Ret ();
     output_results_table := λ _, Ret ();
     save_charts := λ _, Ret ();
     hp_write := λ _ _, Ret ();
     hp_now := "November 04, 2026";
     hp_cwd := "/srv/branitz" |}.

(** The network step fails and leaves no statistics and no simulation
    results behind; everything else works. *)
Definition no_network_world : dh_world :=
  {| dh_imports := Ret ();
     dh_mkdir := Ret ();
     read_file := λ _, Ret one_building_frame;
     to_file := λ _ _, Ret ();
     create_network_map := λ _ _, Raise (Exn RuntimeError "no street network");
     dh_load_json := λ _, None;
     dh_write := λ _ _, Ret ();
     dh_now := "November 04, 2026";
     dh_cwd := "/srv/branitz" |}.

(** Everything works; the buildings file has one building. *)
Definition one_building_world : hp_world :=
  {| hp_imports := Ret ();
     hp_mkdir := Ret ();
     load_buildings := λ _, Ret one_building_frame;
     load_power_infrastructure := Ret ();
     read_streets := λ _, Ret ();
     compute_proximity := Ret;
     compute_service_lines_street_following := Ret;
     compute_power_feasibility := λ _ _, Ret ∅;
     visualize := λ _, Ret ();
     output_results_table := λ _, Ret ();
     save_charts := λ _, Ret ();
     hp_write := λ _ _, Ret ();
     hp_now := "November 04, 2026";
     hp_cwd := "/srv/branitz" |}.

(** The output directory cannot be written to: saving the filtered
    buildings fails. *)
Definition read_only_world : dh_world :=
  {| dh_imports := Ret ();
     dh_mkdir := Ret ();
     read_file := λ _, Ret one_building_frame;
     to_file := λ _ _, Raise (Exn OSError "[Errno 30] Read-only file system");
     create_network_map := λ _ _, Ret ();
     dh_load_json := λ _, None;
     dh_write := λ _ _, Ret ();
     dh_now := "November 04, 2026";
     dh_cwd := "/srv/branitz" |}.

(** The disk is full when the dashboard is written. *)
Definition full_disk_world : dh_world :=
  {| dh_imports := Ret ();
     dh_mkdir := Ret ();
     read_file := λ _, Ret one_building_frame;
     to_file := λ _ _, Ret ();
     create_network_map := λ _ _, Ret ();
     dh_load_json := λ _, None;
     dh_write := λ _ _, Raise (Exn OSError "[Errno 28] No space left on device");
     dh_now := "November 04, 2026";
     dh_cwd := "/srv/branitz" |}.


(** ** Further definitions *)

(** The last row of [l] that carries the index label [label]. *)
Definition last_labelled (l : list building) (label : Z) : option building :=
  last (filter (λ b, idx b = label) l).

(** The address entries of a row of the buildings frame, as the filter of
    the analyses reads them; a row is well formed when its cell parses to a
    sequence of well-formed address entries. *)
Definition row_entries (b : building) : list json :=
  match adressen b ≫= py_iter with
  | Ret adrs => adrs
  | Raise _ => []
  end.

Definition wf_row (b : building) : bool :=
  match adressen b ≫= py_iter with
  | Ret adrs => forallb wf_adr adrs
  | Raise _ => false
  end.

(** Some address entry of the row has the street [street_name], compared in
    lower case. *)
Definition row_on_street (street_name : string) (b : building) : bool :=
  existsb (λ adr, match street_of adr with
                  | Some s => bool_decide (Str.lower s = Str.lower street_name)
                  | None => false
                  end) (row_entries b).

(** The names the module binds at top level: its imports, its flag and its
    functions.  The names [import_street_final_modules] imports are local to
    it. *)
Definition module_globals : list string :=
  [ "json"; "os"; "subprocess"; "sys"; "yaml"; "tool"; "gpd"; "plt";
    "nearest_points"; "LineString"; "Point"; "nx"; "distance_matrix"; "pd";
    "glob"; "np"; "folium"; "Path"; "Transformer"; "random"; "time"; "STRtree";
    "datetime"; "warnings"; "STREET_FINAL_AVAILABLE";
    "import_street_final_modules"; "create_real_hp_feasibility_map";
    "create_real_dh_network_map"; "create_real_comparison_map";
    "get_all_street_names"; "get_building_ids_for_street";
    "run_comprehensive_hp_analysis"; "run_comprehensive_dh_analysis";
    "compare_comprehensive_scenarios"; "analyze_kpi_report";
    "list_available_results" ].

(** Whether a name that is neither local nor a builtin can be read; reading
    an unbound name raises [NameError]. *)
Definition bound (name : string) : bool := bool_decide (name ∈ module_globals).

(** [create_real_hp_feasibility_map(..., output_dir)]: [makedirs] is what
    [os.makedirs] gives, [visualize] what calling the collaborator's
    function would give.  Any exception ends in [return None]. *)
Definition create_real_hp_feasibility_map (makedirs visualize : res unit)
    (output_dir : string) : option string :=
  if returned makedirs then
    let map_path := Str.join output_dir "hp_feasibility_map.html" in
    if bound "visualize" then
      if returned visualize then Some map_path else None
    else None
  else None.

(** [create_real_dh_network_map(street_name, buildings_file, output_dir)]:
    [network] is what building the network and its map would give. *)
Definition create_real_dh_network_map (makedirs network : res unit)
    (street_name buildings_file output_dir : string) : option string :=
  if returned makedirs then
    if bound "ImprovedDualPipeDHNetwork" then
      if returned network
      then Some (Str.join output_dir ("dh_network_map_" +:+ street_name +:+ ".html"))
      else None
    else None
  else None.

(** Two computations end alike: both return, or both raise the same
    exception. *)
Definition same_outcome {A B : Type} (m : res A) (m' : res B) : Prop :=
  (m ≫= λ _, Ret ()) = (m' ≫= λ _, Ret ()).

(** The line [analyze_kpi_report] writes for a numeric column. *)
Definition kpi_column_line (c : kpi_column) : string :=
  "• " +:+ column_label c +:+ ": " +:+ from_option id "N/A" (first_value c) +:+ "
".

(** The line it writes for an item of a loaded JSON object. *)
Definition kpi_item_line (py_repr : json → string) (kv : string * json) : string :=
  "• " +:+ kv.1 +:+ ": " +:+ py_str py_repr kv.2 +:+ "
".

(** The items of a loaded value that is a [dict]. *)
Definition kpi_items (v : json) : list (string * json) :=
  match v with
  | JObj o => o
  | _ => []
  end.

(** The heading [list_available_results] writes for a directory. *)
Definition dir_heading (output_dir : string) : string := "
📁 " +:+ output_dir +:+ "/".

(** The entry it writes for a file of [size] bytes. *)
Definition file_line (e : file_entry) (size : Z) : string :=
  "  " +:+ icon (categorize (file e)) +:+ " " +:+ relative_path e +:+
  " (" +:+ format_comma size +:+ " bytes)".

(** The size of a file that can be measured, and the lines the lister
    writes for a directory: its heading and one entry per file. *)
Definition size_of (e : file_entry) : Z :=
  match file_size e with
  | Ret size => size
  | Raise _ => 0
  end.

Definition dir_lines (walk : string → option (list file_entry)) (output_dir : string)
    : list string :=
  match walk output_dir with
  | Some files => dir_heading output_dir :: ((λ e, file_line e (size_of e)) <$> files)
  | None => []
  end.

(** The directories [list_available_results] looks into. *)
Definition output_dirs : list string := ["results_test"; "results"; "simulation_outputs"].

Definition no_results_found : string :=
  "No results found. Run an analysis first to generate results.".

(** A world that differs from [w] in the outcome of the network block only. *)
Definition with_network_map (w : dh_world) (outcome : string → string → res unit)
    : dh_world :=
  {| dh_imports := dh_imports w;
     dh_mkdir := dh_mkdir w;
     read_file := read_file w;
     to_file := to_file w;
     create_network_map := outcome;
     dh_load_json := dh_load_json w;
     dh_write := dh_write w;
     dh_now := dh_now w;
     dh_cwd := dh_cwd w |}.

(** *** Further samples *)

(** A row whose [adressen] cell is not JSON text, and one whose cell is not
    text at all. *)
Definition unparsable_row : building :=
  Building 7 (Raise (Exn JSONDecodeError "Expecting value: line 1 column 1 (char 0)"))
    (Some "B7") None 1 2 3 nan nan.

Definition untyped_row : building :=
  Building 8
    (Raise (Exn TypeError "the JSON object must be str, bytes or bytearray, not float"))
    (Some "B8") None 1 2 3 nan nan.

(** Two rows that share the index label 0. *)
Definition shared_label_frame : frame :=
  [ sample_row 0 "B1" "Bahnhofstrasse" nan; sample_row 0 "B3" "Bahnhofstrasse" nan ].

(** The buildings load; one row has a cell that is not text. *)
Definition untyped_cell_world : hp_world :=
  {| hp_imports := Ret ();
     hp_mkdir := Ret ();
     load_buildings := λ _, Ret [sample_row 0 "B1" "Hauptstrasse" nan; untyped_row];
     load_power_infrastructure := Ret ();
     read_streets := λ _, Ret ();
     compute_proximity := Ret;
     compute_service_lines_street_following := Ret;
     compute_power_feasibility := λ _ _, Ret ∅;
     visualize := λ _, Ret ();
     output_results_table := λ _, Ret ();
     save_charts := λ _, Ret ();
     hp_write := λ _ _, Ret ();
     hp_now := "November 04, 2026";
     hp_cwd := "/srv/branitz" |}.

Definition untyped_cell_dh_world : dh_world :=
  {| dh_imports := Ret ();
     dh_mkdir := Ret ();
     read_file := λ _, Ret [sample_row 0 "B1" "Hauptstrasse" nan; untyped_row];
     to_file := λ _ _, Ret ();
     create_network_map := λ _ _, Ret ();
     dh_load_json := λ _, None;
     dh_write := λ _ _, Ret ();
     dh_now := "November 04, 2026";
     dh_cwd := "/srv/branitz" |}.

(** The statistics file holds a list, not an object. *)
Definition list_stats_world : dh_world :=
  {| dh_imports := Ret ();
     dh_mkdir := Ret ();
     read_file := λ _, Ret one_building_frame;
     to_file := λ _ _, Ret ();
     create_network_map := λ _ _, Ret ();
     dh_load_json := λ path,
       if String.eqb path (dh_stats_file "Hauptstrasse") then Some (Ret (JArr [])) else None;
     dh_write := λ _ _, Ret ();
     dh_now := "November 04, 2026";
     dh_cwd := "/srv/branitz" |}.

(** Two report files exist: a table with a text column and two numeric
    columns, and a JSON object. *)
Definition sample_kpi_world : kpi_world :=
  {| kpi_exists := λ path,
       String.eqb path "results/kpi.csv" || String.eqb path "results/kpi.json";
     read_csv := λ _,
       Ret [ KpiColumn "street" false (Some "Hauptstrasse");
             KpiColumn "lcoh_eur_per_mwh" true (Some "85.3");
             KpiColumn "co2_t_per_a" true (Some "12") ];
     kpi_load_json := λ _, Ret (JObj [ ("lcoh", JInt 85); ("street", JStr "Hauptstrasse") ]) |}.

(** Two directories exist, one of them empty. *)
Definition sample_walk (output_dir : string) : option (list file_entry) :=
  if String.eqb output_dir "results_test"
  then Some [ FileEntry "hp_feasibility_dashboard.html"
                "hp_analysis/hp_feasibility_dashboard.html" (Ret 18234);
              FileEntry "buildings_Am_Berg.geojson"
                "dh_analysis/buildings_Am_Berg.geojson" (Ret 1048576) ]
  else if String.eqb output_dir "simulation_outputs" then Some []
  else None.

(** One directory exists; its second and its third file cannot be
    measured. *)
Definition broken_link_walk (output_dir : string) : option (list file_entry) :=
  if String.eqb output_dir "results"
  then Some [ FileEntry "a.csv" "a.csv" (Ret 10);
              FileEntry "b.html" "sub/b.html"
                (Raise (Exn OSError "[Errno 2] No such file or directory: 'results/sub/b.html'"));
              FileEntry "c.json" "sub/c.json"
                (Raise (Exn OSError "[Errno 13] Permission denied: 'results/sub/c.json'")) ]
  else None.

(** * Properties *)

(** ** The error monad and loops *)

Lemma bind_ret {A B} (f : A → res B) (a : A) : (Ret a ≫= f) = f a.
Proof. reflexivity. Qed.

Lemma same_outcome_bind {A B C} (m : res A) (K : A → res B) (K' : A → res C) :
  (∀ h, m = Ret h → same_outcome (K h) (K' h)) →
  same_outcome (m ≫= K) (m ≫= K').
Proof. intros HK. destruct m as [h|e]; [by apply HK | reflexivity]. Qed.

Lemma bind_ext {A B} (m : res A) (K K' : A → res B) :
  (∀ a, m = Ret a → K a = K' a) → m ≫= K = m ≫= K'.
Proof. intros HK. destruct m as [a|e]; [by apply HK | reflexivity]. Qed.

Lemma same_outcome_ret {A B} (a : A) (b : B) : same_outcome (Ret a) (Ret b).
Proof. reflexivity. Qed.

Lemma same_outcome_inv {A B} (m : res A) (m' : res B) :
  same_outcome m m' →
  (∃ a b, m = Ret a ∧ m' = Ret b) ∨ (∃ e, m = Raise e ∧ m' = Raise e).
Proof.
  unfold same_outcome. destruct m as [a|e], m' as [b|e']; cbn; intros H;
    try discriminate.
  - left. by exists a, b.
  - right. exists e. by injection H as ->.
Qed.

(** ** Strings *)

Module StrFacts.

Lemma append_cons a s t : String a s +:+ t = String a (s +:+ t).
Proof. reflexivity. Qed.

Lemma append_assoc s t u : (s +:+ t) +:+ u = s +:+ (t +:+ u).
Proof. induction s as [|a s IH]; [done|]. by rewrite !append_cons, IH. Qed.

Lemma prefix_cons a s c r :
  String.prefix (String a s) (String c r) =
  if ascii_dec a c then String.prefix s r else false.
Proof. reflexivity. Qed.

Lemma prefix_nil r : String.prefix "" r = true.
Proof. by destruct r. Qed.

Lemma append_nil_r s : s +:+ "" = s.
Proof. induction s as [|c s IH]; [reflexivity|]. by rewrite append_cons, IH. Qed.

Lemma append_length s t :
  String.length (s +:+ t) = (String.length s + String.length t)%nat.
Proof. induction s as [|c s IH]; [reflexivity|]. rewrite append_cons. cbn. by rewrite IH. Qed.

Lemma strip_prefix_spec w s r : Str.strip_prefix w s = Some r ↔ s = w +:+ r.
Proof.
  revert s. induction w as [|a w IH]; intros s.
  - cbn. split; [by intros [= ->] | by intros ->].
  - destruct s as [|b s]; cbn [Str.strip_prefix]; [done|].
    rewrite append_cons. destruct (Ascii.eqb_spec a b) as [->|Hne].
    + rewrite IH. split; [by intros -> | by intros [= ->]].
    + split; [done | intros [= ? ?]; by destruct Hne].
Qed.

Lemma whitespace_not_empty w : w ∈ Str.whitespace → (0 < String.length w)%nat.
Proof.
  intros H. apply list_elem_of_In in H. cbn in H.
  repeat destruct H as [<-|H]; first [destruct H | cbn; lia].
Qed.

Lemma skip_space_elem s r :
  Str.skip_space s = Some r → ∃ w, w ∈ Str.whitespace ∧ s = w +:+ r.
Proof.
  unfold Str.skip_space. intros H.
  assert (Hin : r ∈ omap (λ w, Str.strip_prefix w s) Str.whitespace).
  { destruct (omap _ Str.whitespace); [done|]. injection H as ->. left. }
  apply list_elem_of_omap in Hin as (w & Hw & Hr). exists w. split; [done|].
  by apply strip_prefix_spec.
Qed.

(** No white-space character is the beginning of another one. *)
Lemma skip_space_app w t : w ∈ Str.whitespace → Str.skip_space (w +:+ t) = Some t.
Proof.
  intros H. apply list_elem_of_In in H. cbn in H.
  repeat destruct H as [<-|H]; first [destruct H | reflexivity].
Qed.

Lemma skip_space_length s r :
  Str.skip_space s = Some r → (String.length r < String.length s)%nat.
Proof.
  intros (w & Hw & ->)%skip_space_elem. rewrite append_length.
  pose proof (whitespace_not_empty w Hw). lia.
Qed.

Lemma lstrip_go_fuel n m s :
  (String.length s ≤ n)%nat → (String.length s ≤ m)%nat →
  Str.lstrip_go n s = Str.lstrip_go m s.
Proof.
  revert m s. induction n as [|n IH]; intros m s Hn Hm.
  - destruct s; [|cbn in Hn; lia]. by destruct m.
  - destruct m as [|m]; [destruct s; [done | cbn in Hm; lia]|].
    cbn [Str.lstrip_go]. destruct (Str.skip_space s) as [r|] eqn:Hr; [|done].
    apply skip_space_length in Hr. apply IH; lia.
Qed.

Lemma lstrip_eq s :
  Str.lstrip s =
  match Str.skip_space s with Some r => Str.lstrip r | None => s end.
Proof.
  unfold Str.lstrip. destruct (String.length s) as [|n] eqn:Hn.
  - destruct s; [done | discriminate].
  - cbn [Str.lstrip_go]. destruct (Str.skip_space s) as [r|] eqn:Hr; [|done].
    apply skip_space_length in Hr. apply lstrip_go_fuel; lia.
Qed.

Lemma lstrip_ind (P : string → string → Prop) :
  (∀ s, Str.skip_space s = None → P s s) →
  (∀ s r, Str.skip_space s = Some r → P r (Str.lstrip r) → P s (Str.lstrip r)) →
  ∀ s, P s (Str.lstrip s).
Proof.
  intros Hnone Hsome s. remember (String.length s) as n eqn:Hn. revert s Hn.
  induction n as [n IH] using lt_wf_ind. intros s ->. rewrite lstrip_eq.
  destruct (Str.skip_space s) as [r|] eqn:Hr; [|by apply Hnone].
  apply Hsome; [done|]. eapply IH; [|done]. by apply skip_space_length.
Qed.

(** Trimming on the left takes a blank prefix and leaves no white-space
    character at the head. *)
Lemma lstrip_split s : ∃ pre, s = pre +:+ Str.lstrip s ∧ blank pre.
Proof.
  apply (lstrip_ind (λ s t, ∃ pre, s = pre +:+ t ∧ blank pre)); clear s.
  - intros s _. exists "". split; [done | constructor].
  - intros s r (w & Hw & ->)%skip_space_elem (pre & Hr & Hpre).
    exists (w +:+ pre). split; [|by constructor].
    by rewrite append_assoc, <- Hr.
Qed.

Lemma lstrip_head s : Str.skip_space (Str.lstrip s) = None.
Proof. by apply (lstrip_ind (λ _ t, Str.skip_space t = None)). Qed.

Lemma blank_lstrip x : blank x → Str.lstrip x = "".
Proof.
  induction 1 as [|w s Hw _ IH]; [reflexivity|].
  by rewrite lstrip_eq, skip_space_app.
Qed.

Lemma lstrip_blank s : Str.lstrip s = "" → blank s.
Proof.
  intros H. destruct (lstrip_split s) as (pre & Hs & Hpre).
  rewrite H, append_nil_r in Hs. by subst.
Qed.

Lemma blank_ends post : blank post → post = "" ∨ ends_blank post.
Proof.
  induction 1 as [|w s Hw _ IH]; [by left|]. right. destruct IH as [->|(p & w' & Hw' & ->)].
  - exists "", w. by rewrite append_nil_r.
  - exists (w +:+ p), w'. by rewrite append_assoc.
Qed.

(** Trimming on the right takes a blank suffix and leaves no white-space
    character at the end. *)
Lemma rstrip_cons c s :
  Str.rstrip (String c s) =
  if String.eqb (Str.lstrip (String c s)) "" then "" else String c (Str.rstrip s).
Proof. reflexivity. Qed.

Lemma rstrip_split s : ∃ post, s = Str.rstrip s +:+ post ∧ blank post.
Proof.
  induction s as [|c s (post & Hs & Hpost)]; [exists ""; split; [done|constructor]|].
  rewrite rstrip_cons. destruct (String.eqb_spec (Str.lstrip (String c s)) "") as [He|_].
  - exists (String c s). split; [done | by apply lstrip_blank].
  - exists post. split; [|done]. by rewrite append_cons, <- Hs.
Qed.

Lemma rstrip_not_ends s : ¬ ends_blank (Str.rstrip s).
Proof.
  induction s as [|c s IH]; intros (p & w & Hw & Hx).
  - pose proof (whitespace_not_empty w Hw) as Hlen. cbn in Hx.
    apply (f_equal String.length) in Hx. rewrite append_length in Hx. cbn in Hx. lia.
  - rewrite rstrip_cons in Hx.
    destruct (String.eqb_spec (Str.lstrip (String c s)) "") as [_|Hne].
    + pose proof (whitespace_not_empty w Hw) as Hlen.
      apply (f_equal String.length) in Hx. rewrite append_length in Hx. cbn in Hx. lia.
    + destruct p as [|c' p].
      * cbn in Hx. destruct (rstrip_split s) as (post & Hs & Hpost).
        apply Hne. rewrite Hs, <- append_cons, Hx, lstrip_eq, skip_space_app by done.
        by apply blank_lstrip.
      * rewrite append_cons in Hx. injection Hx as _ Hx. apply IH. by exists p, w.
Qed.

Lemma rstrip_not_starts s : Str.skip_space s = None → ¬ starts_blank (Str.rstrip s).
Proof.
  intros Hs (w & r & Hw & Hx). destruct (rstrip_split s) as (post & Hsplit & _).
  rewrite Hx, append_assoc in Hsplit. by rewrite Hsplit, skip_space_app in Hs.
Qed.

(** [strip] gives the trimmed form. *)
Lemma strip_spec s : is_trim_of (Str.strip s) s.
Proof.
  unfold Str.strip. split; [|split].
  - destruct (lstrip_split s) as (pre & Hs & Hpre).
    destruct (rstrip_split (Str.lstrip s)) as (post & Hl & Hpost).
    exists pre, post. split; [|done]. by rewrite <- Hl.
  - apply rstrip_not_starts, lstrip_head.
  - apply rstrip_not_ends.
Qed.

(** The trimmed form is its own trimmed form. *)
Lemma strip_fixed x : ¬ starts_blank x → ¬ ends_blank x → Str.strip x = x.
Proof.
  intros Hstart Hend. unfold Str.strip.
  assert (Hl : Str.lstrip x = x).
  { rewrite lstrip_eq. destruct (Str.skip_space x) as [r|] eqn:Hr; [|done].
    destruct Hstart. apply skip_space_elem in Hr as (w & Hw & ->). by exists w, r. }
  rewrite Hl. destruct (rstrip_split x) as (post & Hx & Hpost).
  destruct (blank_ends post Hpost) as [->|(p & w & Hw & ->)].
  - by rewrite append_nil_r in Hx.
  - destruct Hend. exists (Str.rstrip x +:+ p), w. split; [done|].
    by rewrite append_assoc.
Qed.

Lemma strip_idemp s : Str.strip (Str.strip s) = Str.strip s.
Proof. destruct (strip_spec s) as (_ & Hstart & Hend). by apply strip_fixed. Qed.

End StrFacts.

(** ** Street index *)

Section street_index.

Implicit Types (adr feature data : json) (names : gset string).

Lemma add_street_wf adr names :
  wf_adr adr = true →
  add_street adr names =
  Ret (match street_of adr with
       | Some s => {[ Str.strip s ]} ∪ names
       | None => names
       end).
Proof.
  unfold wf_adr, add_street, street_of.
  destruct (py_get adr "str" JNull) as [v|e]; [|discriminate]; simpl.
  destruct v; simpl; intros H; try (apply negb_true_iff in H; simpl in H);
    rewrite ?H; try reflexivity.
  by destruct (negb (s =? "")%string).
Qed.

Lemma for_each_add_street adrs names :
  forallb wf_adr adrs = true →
  for_each add_street adrs names =
  Ret (list_to_set (Str.strip <$> omap street_of adrs) ∪ names).
Proof.
  revert names. induction adrs as [|adr adrs IH]; intros names Hwf; simpl.
  - f_equal. set_solver.
  - apply andb_true_iff in Hwf as [Hadr Hwf].
    rewrite (add_street_wf _ _ Hadr); simpl. rewrite (IH _ Hwf). f_equal.
    destruct (street_of adr); simpl; set_solver.
Qed.

Lemma add_feature_streets_wf feature names :
  wf_feature feature = true →
  add_feature_streets feature names =
  Ret (list_to_set (Str.strip <$> omap street_of (adressen_of feature)) ∪ names).
Proof.
  unfold wf_feature, add_feature_streets, adressen_of.
  destruct (py_get feature "adressen" (JArr [])) as [v|e]; [|discriminate]; simpl.
  destruct (py_iter v) as [adrs|e]; [|discriminate]; simpl.
  apply for_each_add_street.
Qed.

Lemma for_each_add_feature_streets fs names :
  forallb wf_feature fs = true →
  for_each add_feature_streets fs names =
  Ret (list_to_set (Str.strip <$> (f ← fs; omap street_of (adressen_of f))) ∪ names).
Proof.
  revert names. induction fs as [|f fs IH]; intros names Hwf; simpl.
  - f_equal. set_solver.
  - apply andb_true_iff in Hwf as [Hf Hwf].
    rewrite (add_feature_streets_wf _ _ Hf); simpl. rewrite (IH _ Hwf). f_equal.
    rewrite fmap_app. set_solver.
Qed.

(** On well-formed data the index is the sorted set of trimmed street
    values. *)
Lemma get_all_street_names_wf data :
  wf_data data = true →
  get_all_street_names (Ret data) =
  Ret (sorted (list_to_set (Str.strip <$> street_values data))).
Proof.
  unfold wf_data, get_all_street_names, street_values, features_of.
  destruct (py_getitem data "features") as [v|e]; [|discriminate]; simpl.
  destruct (py_iter v) as [fs|e]; [|discriminate]; simpl. intros Hwf.
  rewrite (for_each_add_feature_streets _ _ Hwf); simpl. do 2 f_equal. set_solver.
Qed.

(** A collection that is not well formed makes the listing raise. *)
Lemma add_street_not_wf adr names :
  wf_adr adr = false → returned (add_street adr names) = false.
Proof.
  unfold wf_adr, add_street.
  destruct (py_get adr "str" JNull) as [v|e]; [|done]; simpl.
  destruct v; simpl; try done; intros H; apply negb_false_iff in H; simpl in H;
    by rewrite ?H.
Qed.

Lemma for_each_not_wf {A S} (body : A → S → res S) (wf : A → bool) (l : list A) s :
  (∀ x s, wf x = false → returned (body x s) = false) →
  forallb wf l = false → returned (for_each body l s) = false.
Proof.
  intros Hbody. revert s. induction l as [|x l IH]; intros s; [done|].
  cbn [forallb for_each]. destruct (wf x) eqn:Hx; simpl.
  - intros Hl. destruct (body x s); simpl; [by apply IH | done].
  - intros _. specialize (Hbody x s Hx). by destruct (body x s).
Qed.

Lemma add_feature_streets_not_wf feature names :
  wf_feature feature = false → returned (add_feature_streets feature names) = false.
Proof.
  unfold wf_feature, add_feature_streets.
  destruct (py_get feature "adressen" (JArr [])) as [v|e]; [|done]; simpl.
  destruct (py_iter v) as [adrs|e]; [|done]; simpl.
  apply for_each_not_wf, add_street_not_wf.
Qed.

(** The listing returns exactly on the well-formed collections. *)
Lemma get_all_street_names_returns data :
  returned (get_all_street_names (Ret data)) = wf_data data.
Proof.
  destruct (wf_data data) eqn:Hwf.
  - by rewrite (get_all_street_names_wf _ Hwf).
  - revert Hwf. unfold wf_data, get_all_street_names.
    destruct (py_getitem data "features") as [v|e]; [|done]; simpl.
    destruct (py_iter v) as [fs|e]; [|done]; simpl. intros Hwf.
    pose proof (for_each_not_wf add_feature_streets wf_feature fs ∅
                  add_feature_streets_not_wf Hwf) as Hr.
    by destruct (for_each add_feature_streets fs ∅).
Qed.

Lemma sorted_spec names :
  StronglySorted String.le (sorted names) ∧ NoDup (sorted names) ∧
  ∀ x, x ∈ sorted names ↔ x ∈ names.
Proof.
  unfold sorted. split; [|split].
  - apply StronglySorted_merge_sort; apply _.
  - rewrite merge_sort_Permutation. apply NoDup_elements.
  - intros x. rewrite merge_sort_Permutation. apply elem_of_elements.
Qed.

Lemma sorted_streets_elem data x :
  x ∈ sorted (list_to_set (Str.strip <$> street_values data)) ↔
  x ∈ Str.strip <$> street_values data.
Proof.
  destruct (sorted_spec (list_to_set (Str.strip <$> street_values data)))
    as (_ & _ & Hin).
  rewrite Hin. apply elem_of_list_to_set.
Qed.

Lemma street_values_elem data s :
  s ∈ street_values data ↔
  ∃ f adr, f ∈ features_of data ∧ adr ∈ adressen_of f ∧ street_of adr = Some s.
Proof.
  unfold street_values. rewrite list_elem_of_bind. split.
  - intros (f & Hs & Hf). apply list_elem_of_omap in Hs as (adr & ? & ?). eauto.
  - intros (f & adr & ? & ? & ?). exists f. split; [|done].
    apply list_elem_of_omap. eauto.
Qed.

(** *** The lookup *)

Lemma scan_adressen_wf n feature adrs acc :
  forallb wf_adr adrs = true →
  scan_adressen {[ n ]} feature adrs acc =
  if existsb (adr_on_street n) adrs then report_id feature acc else Ret acc.
Proof.
  induction adrs as [|adr adrs IH]; intros Hwf; simpl; [reflexivity|].
  apply andb_true_iff in Hwf as [Hadr Hwf]. specialize (IH Hwf).
  unfold wf_adr in Hadr. unfold adr_on_street at 1, street_of.
  destruct (py_get adr "str" JNull) as [v|e]; [|discriminate]; simpl.
  destruct v; simpl in *; try (apply negb_true_iff in Hadr; simpl in Hadr);
    rewrite ?Hadr; simpl; try exact IH.
  destruct (negb (s =? "")%string); simpl; [|exact IH].
  destruct (decide (Str.lower (Str.strip s) ∈ ({[ n ]} : gset string))) as [Hin|Hin].
  - apply elem_of_singleton in Hin. rewrite bool_decide_eq_true_2 by done. reflexivity.
  - rewrite bool_decide_eq_false_2 by set_solver. exact IH.
Qed.

Lemma select_feature_wf n feature acc :
  wf_feature feature = true →
  select_feature {[ n ]} feature acc =
  if on_street n feature then report_id feature acc else Ret acc.
Proof.
  unfold wf_feature, select_feature, on_street, adressen_of.
  destruct (py_get feature "adressen" (JArr [])) as [v|e]; [|discriminate]; simpl.
  destruct (py_iter v) as [adrs|e]; [|discriminate]; simpl.
  apply scan_adressen_wf.
Qed.

Lemma report_id_has_id feature acc :
  has_id feature = true → report_id feature acc = Ret (acc ++ [oi_of feature]).
Proof.
  unfold has_id, report_id, oi_of.
  destruct (py_get feature "gebaeude" (JObj [])) as [g|e]; [|discriminate]; simpl.
  destruct (py_get g "oi" JNull) as [oi|e]; [|discriminate]; simpl.
  by intros ->.
Qed.

Lemma for_each_select_wf n fs acc :
  forallb wf_feature fs = true →
  (∀ f, f ∈ fs → on_street n f = true → has_id f = true) →
  for_each (select_feature {[ n ]}) fs acc =
  Ret (acc ++ (oi_of <$> filter (λ f, on_street n f = true) fs)).
Proof.
  revert acc. induction fs as [|f fs IH]; intros acc Hwf Hid.
  - simpl. by rewrite app_nil_r.
  - apply andb_true_iff in Hwf as [Hf Hwf].
    assert (Hid' : ∀ f', f' ∈ fs → on_street n f' = true → has_id f' = true).
    { intros f' ?. apply Hid. by right. }
    cbn [for_each]. rewrite (select_feature_wf _ _ _ Hf), filter_cons.
    destruct (decide (on_street n f = true)) as [Hon|Hon].
    + rewrite Hon, report_id_has_id by (apply Hid; [left|done]).
      rewrite bind_ret, (IH _ Hwf Hid'), fmap_cons. by rewrite <- app_assoc.
    + apply not_true_is_false in Hon. rewrite Hon, bind_ret. by apply IH.
Qed.

(** Whatever the data, a feature adds nothing or its own identifier, and
    only an identifier that counts as true. *)
Lemma scan_adressen_adds ss feature adrs acc acc' :
  scan_adressen ss feature adrs acc = Ret acc' →
  acc' = acc ∨ (acc' = acc ++ [oi_of feature] ∧ py_truthy (oi_of feature) = true).
Proof.
  induction adrs as [|adr adrs IH]; simpl; [intros [= <-]; by left|].
  destruct (py_get adr "str" JNull) as [v|e]; [|discriminate]; simpl.
  destruct (py_truthy v); [|exact IH].
  destruct (py_strip v) as [s|e]; [|discriminate]; simpl.
  destruct (decide _) as [_|_]; [|exact IH]. unfold oi_of, report_id.
  destruct (py_get feature "gebaeude" (JObj [])) as [g|e]; [|discriminate]; simpl.
  destruct (py_get g "oi" JNull) as [oi|e]; [|discriminate]; simpl.
  intros [= <-]. destruct (py_truthy oi) eqn:Ht; [by right | by left].
Qed.

Lemma select_feature_adds ss feature acc acc' :
  select_feature ss feature acc = Ret acc' →
  acc' = acc ∨ (acc' = acc ++ [oi_of feature] ∧ py_truthy (oi_of feature) = true).
Proof.
  unfold select_feature.
  destruct (py_get feature "adressen" (JArr [])) as [v|e]; [|discriminate]; simpl.
  destruct (py_iter v) as [adrs|e]; [|discriminate]; simpl.
  apply scan_adressen_adds.
Qed.

Lemma for_each_select_sublist ss fs acc acc' :
  for_each (select_feature ss) fs acc = Ret acc' →
  ∃ l, acc' = acc ++ l ∧
       l `sublist_of` filter (λ oi, py_truthy oi = true) (oi_of <$> fs).
Proof.
  revert acc. induction fs as [|f fs IH]; intros acc; simpl.
  - intros [= <-]. exists []. by rewrite app_nil_r.
  - destruct (select_feature ss f acc) as [acc1|e] eqn:E; [|discriminate]; simpl.
    intros (l & -> & Hl)%IH. rewrite filter_cons.
    apply select_feature_adds in E as [-> | [-> Ht]].
    + exists l. split; [done|]. destruct (decide _); [by apply sublist_cons | done].
    + exists (oi_of f :: l). rewrite <- app_assoc. split; [done|].
      rewrite decide_True by done. by apply sublist_skip.
Qed.

End street_index.


(** C9. Listing streets: on a well-formed collection [get_all_street_names]
    returns the trimmed street values of all address entries of all
    features, sorted in lexicographic order, each name once.  Trimmed: every
    name of the result is a street value without the white space at its two
    ends, and every street value has its trimmed form in the result. *)
Theorem get_all_street_names_sorted_unique (data : json) :
  wf_data data = true →
  ∃ streets,
    get_all_street_names (Ret data) = Ret streets ∧
    StronglySorted String.le streets ∧
    NoDup streets ∧
    (∀ x, x ∈ streets ↔ x ∈ Str.strip <$> street_values data) ∧
    (∀ x, x ∈ streets → ∃ s, s ∈ street_values data ∧ is_trim_of x s) ∧
    (∀ s, s ∈ street_values data → ∃ x, x ∈ streets ∧ is_trim_of x s).
Proof.
  intros Hwf. exists (sorted (list_to_set (Str.strip <$> street_values data))).
  split; [by apply get_all_street_names_wf|].
  destruct (sorted_spec (list_to_set (Str.strip <$> street_values data)))
    as (Hsorted & Hnodup & _).
  split; [exact Hsorted|]. split; [exact Hnodup|].
  split; [intros x; apply sorted_streets_elem|]. split.
  - intros x (s & -> & Hs)%sorted_streets_elem%list_elem_of_fmap.
    exists s. split; [done | apply StrFacts.strip_spec].
  - intros s Hs. exists (Str.strip s). split; [|apply StrFacts.strip_spec].
    apply sorted_streets_elem. by apply list_elem_of_fmap_2.
Qed.

Lemma get_all_street_names_sorted_unique_sample :
  ∃ streets,
    get_all_street_names (Ret sample_collection) = Ret streets ∧
    StronglySorted String.le streets ∧
    NoDup streets ∧
    (∀ x, x ∈ streets ↔ x ∈ Str.strip <$> street_values sample_collection) ∧
    (∀ x, x ∈ streets → ∃ s, s ∈ street_values sample_collection ∧ is_trim_of x s) ∧
    (∀ s, s ∈ street_values sample_collection → ∃ x, x ∈ streets ∧ is_trim_of x s).
Proof. apply (get_all_street_names_sorted_unique sample_collection). reflexivity. Defined.

Example get_all_street_names_sample :
  get_all_street_names (Ret sample_collection) =
  Ret ["Am Berg"; "Hauptstrasse"; "hauptstrasse"].
Proof. vm_compute. reflexivity. Qed.

(** C4, as the code has it.  On a well-formed collection: the lookup of a
    name of the index returns a non-empty list when the features on that
    street carry an identifier (the lookup skips a feature without one);
    the lookup of a name whose normal form (trimmed, lower case) is the
    lower-case form of no name of the index returns the empty list.  In
    both cases it returns, it does not raise. *)
Theorem lookup_agrees_with_index (data : json) (street_name : string) :
  wf_data data = true →
  ∃ index,
    get_all_street_names (Ret data) = Ret index ∧
    (street_name ∈ index →
     (∀ f, f ∈ features_of data →
           on_street (Str.lower (Str.strip street_name)) f = true → has_id f = true) →
     ∃ ids, get_building_ids_for_street (Ret data) street_name = Ret ids ∧ ids ≠ []) ∧
    ((∀ x, x ∈ index → Str.lower x ≠ Str.lower (Str.strip street_name)) →
     get_building_ids_for_street (Ret data) street_name = Ret []).
Proof.
  intros Hwf.
  pose proof (get_all_street_names_wf data Hwf) as Hidx.
  pose proof (sorted_streets_elem data) as Hin.
  set (index := sorted (list_to_set (Str.strip <$> street_values data))) in Hidx, Hin.
  exists index. split; [done|].
  set (n := Str.lower (Str.strip street_name)).
  assert (Hlookup :
    (∀ f, f ∈ features_of data → on_street n f = true → has_id f = true) →
    get_building_ids_for_street (Ret data) street_name =
    Ret (oi_of <$> filter (λ f, on_street n f = true) (features_of data))).
  { subst n. revert Hwf. unfold wf_data, get_building_ids_for_street, features_of.
    destruct (py_getitem data "features") as [v|e]; [|discriminate]; simpl.
    destruct (py_iter v) as [fs|e]; [|discriminate]; simpl. intros Hwf Hid.
    by rewrite (for_each_select_wf _ fs [] Hwf Hid). }
  assert (Hoff : ∀ f adr s, f ∈ features_of data → In adr (adressen_of f) →
            street_of adr = Some s → Str.strip s ∈ index).
  { intros f adr s Hf Hadr Hs. apply Hin, list_elem_of_fmap. exists s. split; [done|].
    apply street_values_elem. exists f, adr.
    split_and!; [done | by apply list_elem_of_In | done]. }
  split.
  - intros Hname Hid. rewrite (Hlookup Hid). eexists. split; [done|].
    apply Hin, list_elem_of_fmap in Hname as (s & Hname & Hs).
    apply street_values_elem in Hs as (f & adr & Hf & Hadr & Hs).
    assert (Hon : on_street n f = true).
    { apply existsb_exists. exists adr. split; [by apply list_elem_of_In|].
      unfold adr_on_street, n. rewrite Hs, Hname, StrFacts.strip_idemp.
      by apply bool_decide_eq_true_2. }
    intros Hnil. apply fmap_nil_inv in Hnil.
    assert (Hfin : f ∈ filter (λ f, on_street n f = true) (features_of data))
      by (by apply list_elem_of_filter).
    rewrite Hnil in Hfin. by apply not_elem_of_nil in Hfin.
  - intros Hno.
    assert (Hnone : ∀ f, f ∈ features_of data → on_street n f = true → False).
    { intros f Hf Hon. apply existsb_exists in Hon as (adr & Hadr & Hon).
      unfold adr_on_street in Hon. destruct (street_of adr) as [s|] eqn:Hs; [|done].
      apply bool_decide_eq_true_1 in Hon. apply (Hno (Str.strip s)); [|done].
      by eapply Hoff. }
    rewrite Hlookup by (intros f Hf Hon; destruct (Hnone f Hf Hon)).
    f_equal. generalize (features_of data) Hnone. clear.
    induction l as [|f l IH]; intros Hnone; [done|]. rewrite filter_cons.
    rewrite decide_False by (intros Hon; apply (Hnone f); [left|done]).
    apply IH. intros f' ?. apply Hnone. by right.
Qed.

Lemma lookup_agrees_with_index_sample :
  (∃ ids, get_building_ids_for_street (Ret sample_collection) "Am Berg" = Ret ids ∧
          ids ≠ []) ∧
  get_building_ids_for_street (Ret sample_collection) "Nirgendwo" = Ret [].
Proof.
  split.
  - destruct (lookup_agrees_with_index sample_collection "Am Berg" eq_refl)
      as (index & Hidx & Hfound & _).
    vm_compute in Hidx. injection Hidx as <-. apply Hfound.
    + apply list_elem_of_In. simpl. tauto.
    + intros f Hf _. apply list_elem_of_In in Hf. vm_compute in Hf.
      destruct Hf as [<-|[<-|[<-|[]]]]; reflexivity.
  - destruct (lookup_agrees_with_index sample_collection "Nirgendwo" eq_refl)
      as (index & Hidx & _ & Hnone).
    vm_compute in Hidx. injection Hidx as <-. apply Hnone.
    intros x Hx. apply list_elem_of_In in Hx. simpl in Hx.
    destruct Hx as [<-|[<-|[<-|[]]]]; vm_compute; discriminate.
Defined.

(** C4 as stated fails in both directions: a name that is not in the index
    (the index keeps the case of the data) finds a building, and a name of
    the index finds none when the feature has no identifier. *)
Lemma lookup_disagrees_with_index :
  (get_all_street_names (Ret one_street_collection) = Ret ["Hauptstrasse"] ∧
   bool_decide ("hauptstrasse" ∈ ["Hauptstrasse"]) = false ∧
   get_building_ids_for_street (Ret one_street_collection) "hauptstrasse" =
   Ret [JStr "B1"]) ∧
  (get_all_street_names (Ret no_id_collection) = Ret ["Am Berg"] ∧
   get_building_ids_for_street (Ret no_id_collection) "Am Berg" = Ret []).
Proof. vm_compute. repeat split. Qed.

(** Beyond ASCII the tools compare as Python does: [lower] folds the case of
    every cased letter ([Ä], the capital sharp s), and does not fold [ß]
    into [ss]; [strip] removes every white-space character (the no-break
    space U+00A0, the em space U+2003). *)
Example street_names_beyond_ascii :
  get_all_street_names (Ret umlaut_collection) = Ret ["Hauptstraße"; "Ährenweg"] ∧
  get_building_ids_for_street (Ret umlaut_collection) "ährenweg" = Ret [JStr "B1"] ∧
  get_building_ids_for_street (Ret umlaut_collection) "HAUPTSTRAẞE" = Ret [JStr "B2"] ∧
  get_building_ids_for_street (Ret umlaut_collection) "HAUPTSTRASSE" = Ret [] ∧
  get_building_ids_for_street (Ret umlaut_collection)
    (Str.encode_point 0x2003 +:+ "hauptstraße") = Ret [JStr "B2"] ∧
  filter_street_buildings [sample_row 0 "B1" "Ährenweg" nan] "ÄHRENWEG" =
  Ret [sample_row 0 "B1" "Ährenweg" nan] ∧
  Str.lower "ΟΔΟΣ ΣΟΦΟΣ" = "οδος σοφος".
Proof. vm_compute. repeat split. Qed.

(** C5, as the code has it.  A feature adds at most one entry to the result,
    however many of its address entries match: the result is a sublist of
    the identifiers the features carry (the values of [gebaeude.oi] that
    count as true), one per feature, in the order of the collection.  So no
    identifier is repeated when the identifiers the features carry are
    distinct; features without an identifier do not count. *)
Theorem lookup_once_per_feature (data : json) (street_name : string) (ids : list json) :
  get_building_ids_for_street (Ret data) street_name = Ret ids →
  ids `sublist_of` filter (λ oi, py_truthy oi = true) (oi_of <$> features_of data) ∧
  (NoDup (filter (λ oi, py_truthy oi = true) (oi_of <$> features_of data)) → NoDup ids).
Proof.
  intros H.
  assert (Hsub : ids `sublist_of`
                   filter (λ oi, py_truthy oi = true) (oi_of <$> features_of data)).
  { revert H. unfold get_building_ids_for_street, features_of.
    destruct (py_getitem data "features") as [v|e]; [|discriminate]; simpl.
    destruct (py_iter v) as [fs|e]; [|discriminate]; simpl.
    by intros (l & -> & Hl)%for_each_select_sublist. }
  split; [done|]. intros Hnd. by eapply sublist_NoDup.
Qed.

Lemma lookup_once_per_feature_sample :
  [JStr "B1"; JStr "B2"] `sublist_of`
    filter (λ oi, py_truthy oi = true) (oi_of <$> features_of unnumbered_collection) ∧
  NoDup [JStr "B1"; JStr "B2"].
Proof.
  destruct (lookup_once_per_feature unnumbered_collection " HAUPTSTRASSE"
              [JStr "B1"; JStr "B2"]) as [Hsub Hnd]; [vm_compute; reflexivity|].
  split; [exact Hsub|]. apply Hnd.
  change (NoDup [JStr "B1"; JStr "B2"]).
  apply NoDup_cons. split; [|apply NoDup_singleton].
  intros Hin. apply list_elem_of_singleton in Hin. discriminate Hin.
Defined.

(** C5 as stated fails on a collection in which two features carry the same
    identifier: the identifier is in the result twice. *)
Lemma lookup_repeats_shared_identifier :
  get_building_ids_for_street (Ret two_parts_collection) "Hauptstrasse" =
  Ret [JStr "B1"; JStr "B1"].
Proof. vm_compute. reflexivity. Qed.


(** ** Street filter of the analyses *)

(** C3: the lookup compares the trimmed, lower-case forms of the stored and
    the queried street; the filter of the analyses compares the lower-case
    forms only.  A stored street with a trailing blank is found by the
    lookup and missed by the filter, for the same query. *)
Theorem filter_does_not_trim :
  Str.lower (Str.strip "Hauptstrasse ") = Str.lower (Str.strip "Hauptstrasse") ∧
  get_building_ids_for_street
    (Ret (collection [feature_with "B1" ["Hauptstrasse "]])) "Hauptstrasse" =
  Ret [JStr "B1"] ∧
  filter_street_buildings [padded_row] "Hauptstrasse" = Ret [] ∧
  filter_street_buildings [padded_row] "hauptSTRASSE " = Ret [padded_row].
Proof. vm_compute. repeat split. Qed.

(** The lookup matches exactly on the normal forms: an address entry of a
    well-formed feature selects it if and only if its street value, trimmed
    and in lower case, is the query, trimmed and in lower case. *)
Lemma lookup_matches_normal_forms (feature : json) (street_name : string)
    (selected_ids : list json) :
  wf_feature feature = true →
  let found := ∃ adr s, adr ∈ adressen_of feature ∧ street_of adr = Some s ∧
                 Str.lower (Str.strip s) = Str.lower (Str.strip street_name) in
  let selected :=
    select_feature {[ Str.lower (Str.strip street_name) ]} feature selected_ids in
  (found → selected = report_id feature selected_ids) ∧
  (¬ found → selected = Ret selected_ids).
Proof.
  intros Hwf found selected. subst found selected.
  rewrite (select_feature_wf _ _ _ Hwf).
  destruct (on_street _ feature) eqn:Hon.
  - split; [done|]. intros []. 
    apply existsb_exists in Hon as (adr & Hadr & Hon). unfold adr_on_street in Hon.
    destruct (street_of adr) as [s|] eqn:Hs; [|done].
    apply bool_decide_eq_true_1 in Hon. exists adr, s. by rewrite list_elem_of_In.
  - split; [|done]. intros (adr & s & Hadr & Hs & Heq).
    apply not_true_iff_false in Hon. destruct Hon. apply existsb_exists. exists adr.
    split; [by apply list_elem_of_In|]. unfold adr_on_street. rewrite Hs.
    by apply bool_decide_eq_true_2.
Qed.

(** The filter matches exactly on the lower-case forms. *)
Lemma filter_matches_lower_case (street_name : string) (adrs : list json) :
  forallb wf_adr adrs = true →
  street_matches street_name adrs =
  Ret (existsb (λ adr, match street_of adr with
                       | Some s => bool_decide (Str.lower s = Str.lower street_name)
                       | None => false
                       end) adrs).
Proof.
  induction adrs as [|adr adrs IH]; intros Hwf; simpl; [reflexivity|].
  apply andb_true_iff in Hwf as [Hadr Hwf]. specialize (IH Hwf).
  revert Hadr. unfold wf_adr, street_of, py_get.
  destruct adr; try discriminate; simpl.
  destruct (dict_lookup o "str") as [v|]; simpl; [|intros _; exact IH].
  destruct v; simpl; intros Hadr; try (apply negb_true_iff in Hadr; simpl in Hadr);
    rewrite ?Hadr; simpl; try exact IH.
  destruct (negb (s =? "")%string); simpl; [|exact IH].
  destruct (decide (Str.lower s = Str.lower street_name)) as [Heq|Hne].
  - by rewrite bool_decide_eq_true_2.
  - rewrite bool_decide_eq_false_2 by done. exact IH.
Qed.

(** ** Result aggregator *)

Section aggregator.

Variable power_metrics : gmap string metrics.

Lemma idx_set_by b r : idx (set_by power_metrics b r) = idx r.
Proof. unfold set_by. by destruct (power_metrics !! building_id b). Qed.

Lemma merge_row_loc_set fr b :
  merge_row power_metrics fr b = loc_set (idx b) (set_by power_metrics b) fr.
Proof. unfold merge_row, set_by. by destruct (power_metrics !! building_id b). Qed.

Lemma foldl_merge_row l fr :
  NoDup (idx <$> l) →
  foldl (merge_row power_metrics) fr l = update_by power_metrics l <$> fr.
Proof.
  revert fr. induction l as [|b l IH]; intros fr Hnd.
  - cbn [foldl]. unfold update_by. cbn [list_find]. by rewrite list_fmap_id.
  - rewrite fmap_cons in Hnd. apply NoDup_cons in Hnd as [Hb Hnd].
    cbn [foldl]. rewrite (IH _ Hnd), merge_row_loc_set.
    unfold loc_set. rewrite <- list_fmap_compose. apply list_fmap_ext.
    intros _ r _. cbn [compose]. unfold update_by at 2.
    cbn [list_find].
    destruct (decide (idx r = idx b)) as [Heq|Hne].
    + rewrite (decide_True (P := idx b = idx r)) by done.
      unfold update_by. rewrite idx_set_by.
      destruct (list_find (λ b0, idx b0 = idx r) l) as [[i b']|] eqn:Hfind; [|done].
      apply list_find_Some in Hfind as (Hi & Hb' & _). exfalso. apply Hb.
      rewrite <- Heq, <- Hb'. apply list_elem_of_fmap_2. by eapply list_elem_of_lookup_2.
    + rewrite (decide_False (P := idx b = idx r)) by done. unfold update_by.
      by destruct (list_find (λ b0, idx b0 = idx r) l) as [[i b']|].
Qed.

(** With distinct index labels the merge loop treats each row by its own
    identifier. *)
Lemma add_power_metrics_rows (street_buildings : frame) :
  NoDup (idx <$> street_buildings) →
  add_power_metrics power_metrics street_buildings =
  merged_row power_metrics <$> street_buildings.
Proof.
  intros Hnd. unfold add_power_metrics. rewrite (foldl_merge_row _ _ Hnd).
  apply list_fmap_ext. intros i r Hr. unfold update_by.
  destruct (list_find (λ b, idx b = idx r) street_buildings) as [[j b]|] eqn:Hfind.
  - apply list_find_Some in Hfind as (Hj & Hb & _).
    assert (j = i) as ->.
    { eapply NoDup_lookup; [exact Hnd| |]; rewrite list_lookup_fmap.
      - by rewrite Hj.
      - rewrite Hr. simpl. by rewrite Hb. }
    by simplify_eq.
  - exfalso. eapply list_find_None in Hfind. rewrite Forall_forall in Hfind.
    eapply Hfind; [|done]. by eapply list_elem_of_lookup_2.
Qed.

End aggregator.

Lemma known_not_nan column x : x ∈ known column → PrimFloat.is_nan x = false.
Proof. unfold known. by intros [? _]%list_elem_of_filter. Qed.

Lemma known_cons column : isna_all column = false → ∃ x l, known column = x :: l.
Proof.
  unfold isna_all, known. induction column as [|x column IH]; [done|].
  cbn [forallb]. rewrite filter_cons. destruct (PrimFloat.is_nan x) eqn:Hx.
  - rewrite decide_False by done. exact IH.
  - rewrite decide_True by done. eauto.
Qed.

Lemma foldl_pick {A} (pick : A → A → bool) (l : list A) (x : A) :
  foldl (λ m y, if pick m y then y else m) x l ∈ x :: l.
Proof.
  revert x. induction l as [|y l IH]; intros x; simpl; [by left|].
  specialize (IH (if pick x y then y else x)).
  apply elem_of_cons in IH as [-> | IH].
  - destruct (pick x y); [right; left | left].
  - by do 2 right.
Qed.

(** The maximum and the minimum of a column are taken among its known
    values. *)
Lemma col_max_known column :
  isna_all column = false → col_max column ∈ known column.
Proof.
  intros (x & l & E)%known_cons. unfold col_max. rewrite E.
  apply (foldl_pick (λ m y, PrimFloat.ltb m y)).
Qed.

Lemma col_min_known column :
  isna_all column = false → col_min column ∈ known column.
Proof.
  intros (x & l & E)%known_cons. unfold col_min. rewrite E.
  apply (foldl_pick (λ m y, PrimFloat.ltb y m)).
Qed.


(** The example of the specification: two buildings with known transformer
    loading (80 and 95) and one without; the maximum is taken over the two. *)
Example bahnhof_max_loading (series_mean : list float → float) :
  let merged := add_power_metrics bahnhof_metrics bahnhof_frame in
  max_trafo_loading <$> merged = [80; 95; nan]%float ∧
  MaxTrafoLoading (hp_stats_of series_mean merged) = 95%float ∧
  format_f 2 (MaxTrafoLoading (hp_stats_of series_mean merged)) = "95.00".
Proof. vm_compute. repeat split. Qed.

(** C1, as the code has it.  In a frame with distinct index labels the merge
    step gives the row of a building whose identifier has no entry in the
    metrics mapping the missing-value marker [nan] in both metric fields.
    The maximum, the minimum and the means are taken over the known values
    of a column.  Over a column whose values are all unknown the summary
    reports a number: [0.0] for the maximum transformer loading and for the
    average distances, [1.0] for the minimum voltage. *)
Theorem missing_metrics_nan_then_defaults
    (series_mean : list float → float) (power_metrics : gmap string metrics)
    (street_buildings : frame) :
  NoDup (idx <$> street_buildings) →
  let merged := add_power_metrics power_metrics street_buildings in
  let stats := hp_stats_of series_mean merged in
  let column (field : building → float) := field <$> merged in
  (∀ i b, street_buildings !! i = Some b →
          power_metrics !! building_id b = None →
          ∃ r, merged !! i = Some r ∧ idx r = idx b ∧
               max_trafo_loading r = nan ∧ min_voltage_pu r = nan) ∧
  (if isna_all (column max_trafo_loading)
   then MaxTrafoLoading stats = 0%float
   else MaxTrafoLoading stats ∈ known (column max_trafo_loading)) ∧
  (if isna_all (column min_voltage_pu)
   then MinVoltagePU stats = 1%float
   else MinVoltagePU stats ∈ known (column min_voltage_pu)) ∧
  (if isna_all (column dist_to_line)
   then AvgDistLine stats = 0%float
   else AvgDistLine stats = series_mean (known (column dist_to_line))) ∧
  (if isna_all (column dist_to_transformer)
   then AvgDistTransformer stats = 0%float
   else AvgDistTransformer stats = series_mean (known (column dist_to_transformer))) ∧
  (if isna_all (column dist_to_substation)
   then avg_dist_to_substation_of series_mean merged = 0%float
   else avg_dist_to_substation_of series_mean merged =
        series_mean (known (column dist_to_substation))).
Proof.
  intros Hnd merged stats column. split.
  - intros i b Hb Hnone. exists (merged_row power_metrics b).
    subst merged. rewrite (add_power_metrics_rows _ _ Hnd), list_lookup_fmap, Hb.
    split; [simpl; unfold merged_row; by rewrite Hnone|].
    unfold merged_row. rewrite Hnone. by repeat split.
  - subst stats column. unfold hp_stats_of, avg_dist_to_substation_of, col_mean.
    cbn [MaxTrafoLoading MinVoltagePU AvgDistLine AvgDistTransformer].
    repeat split.
    + destruct (isna_all (max_trafo_loading <$> merged)) eqn:E; [done|].
      by apply col_max_known.
    + destruct (isna_all (min_voltage_pu <$> merged)) eqn:E; [done|].
      by apply col_min_known.
    + by destruct (isna_all (dist_to_line <$> merged)).
    + by destruct (isna_all (dist_to_transformer <$> merged)).
    + by destruct (isna_all (dist_to_substation <$> merged)).
Qed.

Lemma missing_metrics_nan_then_defaults_bahnhof :
  let series_mean : list float → float := λ _, 0%float in
  let merged := add_power_metrics bahnhof_metrics bahnhof_frame in
  let stats := hp_stats_of series_mean merged in
  let column (field : building → float) := field <$> merged in
  (∀ i b, bahnhof_frame !! i = Some b →
          bahnhof_metrics !! building_id b = None →
          ∃ r, merged !! i = Some r ∧ idx r = idx b ∧
               max_trafo_loading r = nan ∧ min_voltage_pu r = nan) ∧
  (if isna_all (column max_trafo_loading)
   then MaxTrafoLoading stats = 0%float
   else MaxTrafoLoading stats ∈ known (column max_trafo_loading)) ∧
  (if isna_all (column min_voltage_pu)
   then MinVoltagePU stats = 1%float
   else MinVoltagePU stats ∈ known (column min_voltage_pu)) ∧
  (if isna_all (column dist_to_line)
   then AvgDistLine stats = 0%float
   else AvgDistLine stats = series_mean (known (column dist_to_line))) ∧
  (if isna_all (column dist_to_transformer)
   then AvgDistTransformer stats = 0%float
   else AvgDistTransformer stats = series_mean (known (column dist_to_transformer))) ∧
  (if isna_all (column dist_to_substation)
   then avg_dist_to_substation_of series_mean merged = 0%float
   else avg_dist_to_substation_of series_mean merged =
        series_mean (known (column dist_to_substation))).
Proof.
  apply (missing_metrics_nan_then_defaults (λ _, 0%float) bahnhof_metrics bahnhof_frame).
  apply (bool_decide_unpack (NoDup (idx <$> bahnhof_frame))). vm_compute. exact I.
Defined.

(** C1 as stated fails on its second half: when no building of the street
    has an entry in the metrics mapping, both metric columns are all
    unknown, and the summary reports the numbers [0.0] and [1.0]. *)
Lemma all_unknown_reported_as_numbers :
  isna_all (max_trafo_loading <$> add_power_metrics ∅ bahnhof_frame) = true ∧
  isna_all (min_voltage_pu <$> add_power_metrics ∅ bahnhof_frame) = true ∧
  (∀ series_mean,
     MaxTrafoLoading (hp_stats_of series_mean (add_power_metrics ∅ bahnhof_frame)) =
     0%float ∧
     MinVoltagePU (hp_stats_of series_mean (add_power_metrics ∅ bahnhof_frame)) =
     1%float ∧
     PrimFloat.is_nan
       (MaxTrafoLoading (hp_stats_of series_mean (add_power_metrics ∅ bahnhof_frame))) =
     false).
Proof. vm_compute. repeat split. Qed.


(** ** Results lister *)

Module RevFacts.

Lemma rev_rev_app s acc : String.rev (String.rev_app s acc) = String.rev_app acc s.
Proof. revert acc. induction s as [|a s IH]; intros acc; [done|]. simpl. by rewrite IH. Qed.

Lemma rev_involutive s : String.rev (String.rev s) = s.
Proof. unfold String.rev at 2. by rewrite rev_rev_app. Qed.

End RevFacts.

(** The characters before the first dot of the reversed name are the
    reversed extension. *)
Lemma extension_go_prefix (p r acc : string) :
  dot_free p = true →
  String.prefix (p +:+ ".") r = true →
  extension_go r acc = Some (String.rev_app p acc).
Proof.
  revert r acc. induction p as [|a p IH]; intros r acc Hp Hr.
  - change ("" +:+ ".") with "." in Hr.
    destruct r as [|c r]; [discriminate|].
    rewrite StrFacts.prefix_cons in Hr. cbn [extension_go].
    destruct (ascii_dec "." c) as [<-|]; [done | discriminate].
  - rewrite StrFacts.append_cons in Hr.
    destruct r as [|c r]; [discriminate|].
    rewrite StrFacts.prefix_cons in Hr. cbn [extension_go dot_free] in Hp |- *.
    apply andb_true_iff in Hp as [Ha Hp]. apply negb_true_iff in Ha.
    destruct (ascii_dec a c) as [<-|]; [|discriminate].
    rewrite Ha. by apply IH.
Qed.

Lemma extension_go_inv (r acc e : string) :
  extension_go r acc = Some e →
  ∃ p, dot_free p = true ∧ String.prefix (p +:+ ".") r = true ∧
       e = String.rev_app p acc.
Proof.
  revert acc. induction r as [|c r IH]; intros acc; [discriminate|].
  cbn [extension_go]. destruct (Ascii.eqb c ".") eqn:Hc.
  - intros [= <-]. exists "". apply Ascii.eqb_eq in Hc as ->.
    change ("" +:+ ".") with ".". rewrite StrFacts.prefix_cons, StrFacts.prefix_nil.
    by destruct (ascii_dec "." "."); [|congruence].
  - intros (p & Hp & Hr & ->)%IH. exists (String c p).
    rewrite StrFacts.append_cons, StrFacts.prefix_cons. cbn [dot_free].
    rewrite Hc, Hp. by destruct (ascii_dec c c); [|congruence].
Qed.

Lemma endswith_extension (p file : string) :
  dot_free p = true →
  String.prefix (p +:+ ".") (String.rev file) = true ↔
  extension file = Some (String.rev p).
Proof.
  intros Hp. unfold extension. split.
  - intros Hr. by rewrite (extension_go_prefix p _ _ Hp Hr).
  - intros (q & Hq & Hr & Hrev)%extension_go_inv.
    assert (q = p) as ->; [|done].
    rewrite <- (RevFacts.rev_involutive q), <- (RevFacts.rev_involutive p).
    by f_equal.
Qed.

Ltac by_extension H p :=
  let H' := fresh in
  match type of H with
  | Str.endswith ?file _ = true =>
      pose proof (proj1 (endswith_extension p file eq_refl) H) as H'
  | Str.endswith ?file _ = false =>
      assert (H' : extension file ≠ Some (String.rev p));
      [ intros H'; apply (endswith_extension p file eq_refl) in H';
        unfold Str.endswith in H; change (String.rev _ ) with (p +:+ ".") in H at 1;
        congruence | ]
  end.

(** C6. The category of a listed file is a function of its extension alone,
    through the fixed table: the chain of [endswith] tests gives a name the
    category the table gives its extension.  In particular a name that ends
    in [.geojson] is in the category geometry: [.geojson] does not end in
    [.json], so the earlier test does not take it. *)
Theorem categorize_by_extension (file : string) :
  categorize file = category_of_extension (extension file) ∧
  (if Str.endswith file ".geojson" then categorize file = Geometry else True).
Proof.
  assert (Hcat : categorize file = category_of_extension (extension file)).
  { unfold categorize.
    destruct (Str.endswith file ".html") eqn:E1.
    { by_extension E1 "lmth". by rewrite H. }
    destruct (Str.endswith file ".csv") eqn:E2.
    { by_extension E2 "vsc". by rewrite H. }
    destruct (Str.endswith file ".json") eqn:E3.
    { by_extension E3 "nosj". by rewrite H. }
    destruct (Str.endswith file ".png") eqn:E4.
    { by_extension E4 "gnp". by rewrite H. }
    destruct (Str.endswith file ".jpg") eqn:E5.
    { by_extension E5 "gpj". by rewrite H. }
    destruct (Str.endswith file ".geojson") eqn:E6.
    { by_extension E6 "nosjoeg". by rewrite H. }
    by_extension E1 "lmth". by_extension E2 "vsc". by_extension E3 "nosj".
    by_extension E4 "gnp". by_extension E5 "gpj". by_extension E6 "nosjoeg".
    simpl. destruct (extension file) as [e|]; [|done]. simpl.
    repeat match goal with
           | |- context [String.eqb e ?x] =>
               destruct (String.eqb_spec e x) as [->|_]; [done|]
           end.
    done. }
  split; [done|].
  destruct (Str.endswith file ".geojson") eqn:E6; [|done].
  by_extension E6 "nosjoeg". by rewrite Hcat, H.
Qed.


(** ** Report renderer *)

Lemma date_field_only_bind {A} (m : res A) (K : A → string → res string) :
  (∀ h, date_field_only (K h)) → date_field_only (λ now, m ≫= λ h, K h now).
Proof.
  intros HK. destruct m as [h|e]; simpl; [apply HK|].
  left. by exists e.
Qed.

(** Gathers the pieces before the date field into one prefix. *)
Ltac gather_prefix now :=
  repeat lazymatch goal with
         | |- _ +:+ (date_label +:+ (now +:+ _)) = _ => fail
         | |- ?a +:+ (?b +:+ ?c) = _ => rewrite <- (StrFacts.append_assoc a b c)
         end;
  reflexivity.

(** C2. Rendering is a function of the metrics, the street name, the
    scenario label and the date text: the clock enters the dashboard of the
    heat-pump analysis and the dashboard of the district-heating analysis
    once, as the text after the label of the analysis-date field; all other
    bytes are fixed by the other inputs.  Two renderings of the same inputs
    agree byte for byte outside that field, and everywhere when the date
    text is the same. *)
Theorem dashboards_fixed_outside_date_field :
  (∀ street_name scenario stats map_path,
     ∃ pre post, ∀ now,
       hp_dashboard_html street_name scenario stats map_path now =
       pre +:+ "<strong>Analysis Date:</strong> " +:+ now +:+ post) ∧
  (∀ py_repr street_name street_buildings network_stats simulation_results map_path,
     (∃ e, ∀ now,
        dh_dashboard_html py_repr street_name street_buildings network_stats
          simulation_results map_path now = Raise e) ∨
     (∃ pre post, ∀ now,
        dh_dashboard_html py_repr street_name street_buildings network_stats
          simulation_results map_path now =
        Ret (pre +:+ "<strong>Analysis Date:</strong> " +:+ now +:+ post))).
Proof.
  split.
  - intros. do 2 eexists. intros now. unfold hp_dashboard_html.
    change "</p>
            <p><strong>Analysis Date:</strong> "
      with ("</p>
            <p>" +:+ date_label).
    rewrite (StrFacts.append_assoc _ date_label).
    change "<strong>Analysis Date:</strong> " with date_label.
    gather_prefix now.
  - intros.
    change (date_field_only (λ now,
      dh_dashboard_html py_repr street_name street_buildings network_stats
        simulation_results map_path now)).
    unfold dh_dashboard_html.
    repeat (apply date_field_only_bind; intros ?).
    right. do 2 eexists. intros now. f_equal.
    change "</p>
            <p><strong>Analysis Date:</strong> "
      with ("</p>
            <p>" +:+ date_label).
    rewrite (StrFacts.append_assoc _ date_label).
    gather_prefix now.
Qed.


(** ** The analysis tools *)

Lemma try_except_returns (body : res string) (handler : exn → string) :
  ∃ s, try_except body handler = Ret s ∧
       match body with Ret r => s = r | Raise e => s = handler e end.
Proof. destruct body; simpl; eauto. Qed.

Lemma float_of_int_small z :
  Z.abs z < 2 ^ 53 →
  float_of_int z = Ret (SF2Prim (binary_normalize prec emax z 0 false)).
Proof. intros Hz. unfold float_of_int. by rewrite (proj2 (Z.ltb_lt _ _) Hz). Qed.

Lemma py_format_f_int d z :
  Z.abs z < 2 ^ 53 → ∃ s, py_format_f d (JInt z) = Ret s.
Proof.
  intros Hz. unfold py_format_f. rewrite (float_of_int_small z Hz). by eexists.
Qed.

Lemma py_format_f_float d f : py_format_f d (JFloat f) = Ret (format_f d f).
Proof. reflexivity. Qed.

(** Rendering the built-in values of the district-heating analysis does
    not fail. *)
Ltac render_defaults H50 H10 :=
  lazy beta iota zeta delta
    -[py_format_f String.append float_of_len PrimFloat.div PrimFloat.mul
      Z.of_nat Z.mul py_str map_basename];
  rewrite ?py_format_f_float, ?H50, ?H10; by eexists.

Lemma dh_render_defaults py_repr street_name (street_buildings : frame)
    map_path now dashboard_path output_dir cwd :
  street_buildings ≠ [] →
  Z.of_nat (length street_buildings) * 50 < 2 ^ 53 →
  ∃ network_stats html summary,
    default_network_stats street_buildings = Ret network_stats ∧
    dh_dashboard_html py_repr street_name street_buildings network_stats
      (default_simulation_results street_buildings) map_path now = Ret html ∧
    dh_summary py_repr street_name street_buildings network_stats
      (default_simulation_results street_buildings) dashboard_path output_dir cwd =
    Ret summary.
Proof.
  intros Hne Hn. unfold default_network_stats, float_div_len, default_simulation_results.
  destruct (length street_buildings) as [|k] eqn:Hlen.
  { by destruct street_buildings. }
  destruct (py_format_f_int 0 (Z.of_nat (S k) * 50)) as [s50 H50]; [lia|].
  destruct (py_format_f_int 1 (Z.of_nat (S k) * 10)) as [s10 H10]; [lia|].
  eexists. cbn [mbind res_bind].
  assert (∃ html, dh_dashboard_html py_repr street_name street_buildings
    (JObj [ ("total_supply_length_km", JFloat 0.92);
            ("total_return_length_km", JFloat 0.92);
            ("total_main_length_km", JFloat 1.84);
            ("total_service_length_m", JInt (Z.of_nat (S k) * 50));
            ("num_buildings", JInt (Z.of_nat (S k)));
            ("service_connections", JInt (Z.of_nat (S k) * 2));
            ("total_heat_demand_mwh", JInt (Z.of_nat (S k) * 10));
            ("network_density_km_per_building", JFloat (1.84 / float_of_len (S k))) ])
    (JObj [ ("pressure_drop_bar", JFloat 0.000025);
            ("total_flow_kg_per_s", JFloat (float_of_len (S k) * 0.1));
            ("temperature_drop_c", JFloat 30.0);
            ("hydraulic_success", JBool true) ]) map_path now = Ret html)
    as [html Hhtml].
  { unfold dh_dashboard_html. rewrite Hlen. render_defaults H50 H10. }
  assert (∃ summary, dh_summary py_repr street_name street_buildings
    (JObj [ ("total_supply_length_km", JFloat 0.92);
            ("total_return_length_km", JFloat 0.92);
            ("total_main_length_km", JFloat 1.84);
            ("total_service_length_m", JInt (Z.of_nat (S k) * 50));
            ("num_buildings", JInt (Z.of_nat (S k)));
            ("service_connections", JInt (Z.of_nat (S k) * 2));
            ("total_heat_demand_mwh", JInt (Z.of_nat (S k) * 10));
            ("network_density_km_per_building", JFloat (1.84 / float_of_len (S k))) ])
    (JObj [ ("pressure_drop_bar", JFloat 0.000025);
            ("total_flow_kg_per_s", JFloat (float_of_len (S k) * 0.1));
            ("temperature_drop_c", JFloat 30.0);
            ("hydraulic_success", JBool true) ]) dashboard_path output_dir cwd =
    Ret summary) as [summary Hsummary].
  { unfold dh_summary. rewrite Hlen. render_defaults H50 H10. }
  exists html, summary. by rewrite Hhtml, Hsummary.
Qed.

(** A report of an analysis does not begin with the word Error. *)
Lemma dh_summary_not_error py_repr street_name street_buildings network_stats
    simulation_results dashboard_path output_dir cwd summary :
  dh_summary py_repr street_name street_buildings network_stats simulation_results
    dashboard_path output_dir cwd = Ret summary →
  String.prefix "Error" summary = false.
Proof.
  unfold dh_summary.
  repeat (match goal with
          | |- (?m ≫= _) = _ → _ => destruct m; [|discriminate]; cbn [mbind res_bind]
          end).
  by intros [= <-].
Qed.

(** The summary reads the fields the dashboard has read: after a rendered
    dashboard it is rendered too. *)
Lemma dh_summary_follows_dashboard py_repr street_name street_buildings network_stats
    simulation_results map_path now dashboard_path output_dir cwd html :
  dh_dashboard_html py_repr street_name street_buildings network_stats
    simulation_results map_path now = Ret html →
  ∃ summary,
    dh_summary py_repr street_name street_buildings network_stats simulation_results
      dashboard_path output_dir cwd = Ret summary.
Proof.
  intros Hhtml.
  assert (H : same_outcome
    (dh_dashboard_html py_repr street_name street_buildings network_stats
       simulation_results map_path now)
    (dh_summary py_repr street_name street_buildings network_stats simulation_results
       dashboard_path output_dir cwd)).
  { unfold dh_dashboard_html, dh_summary.
    do 3 (apply same_outcome_bind; intros ? _).
    apply same_outcome_bind; intros h4 H4.
    do 7 (apply same_outcome_bind; intros ? _).
    apply same_outcome_bind; intros h12 H12.
    apply same_outcome_bind; intros ? _.
    rewrite H4, bind_ret, H12, bind_ret. apply same_outcome_ret. }
  apply same_outcome_inv in H as [(a & b & _ & Hb)|(e & He & _)]; [by exists b|].
  rewrite Hhtml in He. discriminate He.
Qed.





Lemma hp_summary_not_error street_name scenario street_buildings stats
    avg_dist_to_substation map_path dashboard_path output_dir chart_paths cwd :
  String.prefix "Error"
    (hp_summary street_name scenario street_buildings stats avg_dist_to_substation
       map_path dashboard_path output_dir chart_paths cwd) = false.
Proof. reflexivity. Qed.




(** * Further properties *)

(** ** Street index *)

Lemma for_each_app {A S} (body : A → S → res S) (l1 l2 : list A) (s : S) :
  for_each body (l1 ++ l2) s = (for_each body l1 s ≫= for_each body l2).
Proof.
  revert s. induction l1 as [|x l1 IH]; intros s; [reflexivity|].
  cbn [app for_each]. destruct (body x s) as [s'|e]; [apply IH | reflexivity].
Qed.

(** X1. The listing returns, rather than raises, exactly on the well-formed
    collections: a top-level object whose ["features"] can be iterated,
    every feature an object whose address entries are objects, every street
    value absent, false or a string. *)
Theorem listing_returns_iff_well_formed (data : json) :
  returned (get_all_street_names (Ret data)) = wf_data data.
Proof.
  destruct (wf_data data) eqn:Hwf.
  - by rewrite (get_all_street_names_wf _ Hwf).
  - revert Hwf. unfold wf_data, get_all_street_names.
    destruct (py_getitem data "features") as [v|e]; [|done]; simpl.
    destruct (py_iter v) as [fs|e]; [|done]; simpl. intros Hwf.
    pose proof (for_each_not_wf add_feature_streets wf_feature fs ∅
                  add_feature_streets_not_wf Hwf) as Hr.
    by destruct (for_each add_feature_streets fs ∅).
Qed.

(** X2. Every name of the index is trimmed: it neither starts nor ends
    with a white-space character. *)
Theorem index_names_are_trimmed (data : json) (index : list string) :
  get_all_street_names (Ret data) = Ret index →
  ∀ x, x ∈ index → ¬ starts_blank x ∧ ¬ ends_blank x.
Proof.
  intros Hidx x Hx.
  assert (Hwf : wf_data data = true).
  { rewrite <- get_all_street_names_returns. by rewrite Hidx. }
  rewrite (get_all_street_names_wf _ Hwf) in Hidx. injection Hidx as <-.
  apply sorted_streets_elem, list_elem_of_fmap in Hx as (s & -> & _).
  apply StrFacts.strip_spec.
Qed.

Lemma index_names_are_trimmed_sample :
  get_all_street_names (Ret umlaut_collection) = Ret ["Hauptstraße"; "Ährenweg"] ∧
  ¬ starts_blank "Hauptstraße" ∧ ¬ ends_blank "Hauptstraße".
Proof.
  assert (Hidx : get_all_street_names (Ret umlaut_collection) =
                 Ret ["Hauptstraße"; "Ährenweg"])
    by (vm_compute; reflexivity).
  split; [exact Hidx|].
  apply (index_names_are_trimmed umlaut_collection _ Hidx). left.
Defined.

(** X3. The index depends on the features as a set: their order and their
    repetitions do not change it. *)
Theorem listing_ignores_order_and_repetition (fs1 fs2 : list json) :
  forallb wf_feature fs1 = true →
  (∀ f, f ∈ fs1 ↔ f ∈ fs2) →
  get_all_street_names (Ret (collection fs1)) =
  get_all_street_names (Ret (collection fs2)).
Proof.
  intros Hwf1 Hsame.
  assert (Hwf2 : forallb wf_feature fs2 = true).
  { apply forallb_forall. intros f Hf%list_elem_of_In%Hsame%list_elem_of_In.
    revert f Hf. by apply forallb_forall. }
  rewrite !get_all_street_names_wf by done. do 2 f_equal.
  apply set_eq. intros x. rewrite !elem_of_list_to_set, !list_elem_of_fmap.
  unfold street_values. change (features_of (collection fs1)) with fs1.
  change (features_of (collection fs2)) with fs2.
  split; intros (s & -> & (f & Hs & Hf)%list_elem_of_bind); exists s; (split; [done|]);
    apply list_elem_of_bind; exists f; (split; [done|]); by apply Hsame.
Qed.

Lemma listing_ignores_order_and_repetition_sample :
  get_all_street_names
    (Ret (collection [feature_with "B1" ["Hauptstrasse"]; feature_with "B2" ["Am Berg"]])) =
  get_all_street_names
    (Ret (collection [feature_with "B2" ["Am Berg"]; feature_with "B1" ["Hauptstrasse"];
                      feature_with "B2" ["Am Berg"]])).
Proof.
  apply listing_ignores_order_and_repetition; [reflexivity|].
  intros f. rewrite !elem_of_cons. rewrite !elem_of_nil. tauto.
Defined.

(** ** The lookup *)

Lemma report_id_returns feature acc :
  returned (report_id feature []) = true →
  report_id feature acc =
  Ret (if py_truthy (oi_of feature) then acc ++ [oi_of feature] else acc).
Proof.
  unfold report_id, oi_of.
  destruct (py_get feature "gebaeude" (JObj [])) as [g|e]; [|done]; simpl.
  by destruct (py_get g "oi" JNull) as [oi|e].
Qed.

Lemma for_each_select_ids n fs acc :
  forallb wf_feature fs = true →
  (∀ f, f ∈ fs → on_street n f = true → returned (report_id f []) = true) →
  for_each (select_feature {[ n ]}) fs acc =
  Ret (acc ++ filter (λ oi, py_truthy oi = true)
                (oi_of <$> filter (λ f, on_street n f = true) fs)).
Proof.
  revert acc. induction fs as [|f fs IH]; intros acc Hwf Hid.
  - cbn. by rewrite app_nil_r.
  - apply andb_true_iff in Hwf as [Hf Hwf].
    assert (Hid' : ∀ f', f' ∈ fs → on_street n f' = true →
                         returned (report_id f' []) = true).
    { intros f' ?. apply Hid. by right. }
    cbn [for_each]. rewrite (select_feature_wf _ _ _ Hf), filter_cons.
    destruct (decide (on_street n f = true)) as [Hon|Hon].
    + rewrite Hon, report_id_returns by (apply Hid; [left|done]).
      rewrite bind_ret, (IH _ Hwf Hid'), fmap_cons, filter_cons.
      destruct (py_truthy (oi_of f)) eqn:Ht.
      * rewrite decide_True by done. by rewrite <- app_assoc.
      * by rewrite decide_False by done.
    + apply not_true_is_false in Hon. rewrite Hon, bind_ret. by apply IH.
Qed.

(** X4. What the lookup returns on a well-formed collection: the
    identifiers of the features that have an address entry on the street,
    in the order of the collection, the features without a (true)
    identifier left out. *)
Theorem lookup_lists_identifiers_in_order (data : json) (street_name : string) :
  let n := Str.lower (Str.strip street_name) in
  wf_data data = true →
  (∀ f, f ∈ features_of data → on_street n f = true →
        returned (report_id f []) = true) →
  get_building_ids_for_street (Ret data) street_name =
  Ret (filter (λ oi, py_truthy oi = true)
         (oi_of <$> filter (λ f, on_street n f = true) (features_of data))).
Proof.
  intros n. subst n. unfold wf_data, get_building_ids_for_street, features_of.
  destruct (py_getitem data "features") as [v|e]; [|discriminate]; simpl.
  destruct (py_iter v) as [fs|e]; [|discriminate]; simpl. intros Hwf Hid.
  by rewrite (for_each_select_ids _ fs [] Hwf Hid).
Qed.

Lemma lookup_lists_identifiers_in_order_sample :
  get_building_ids_for_street (Ret sample_collection) "  am berg" =
  Ret (filter (λ oi, py_truthy oi = true)
         (oi_of <$> filter (λ f, on_street (Str.lower (Str.strip "  am berg")) f = true)
                      (features_of sample_collection))).
Proof.
  apply (lookup_lists_identifiers_in_order sample_collection "  am berg").
  - reflexivity.
  - intros f Hf _. apply list_elem_of_In in Hf. vm_compute in Hf.
    destruct Hf as [<-|[<-|[<-|[]]]]; reflexivity.
Defined.

(** X5. The lookup matches exactly: an identifier is in the result if and
    only if it is the (true) identifier of a feature with an address entry
    whose street value, trimmed and in lower case, equals the query,
    trimmed and in lower case.  There is no partial match. *)
Theorem lookup_selects_exact_matches (data : json) (street_name : string)
    (ids : list json) (oi : json) :
  wf_data data = true →
  get_building_ids_for_street (Ret data) street_name = Ret ids →
  oi ∈ ids ↔
  ∃ f adr s, f ∈ features_of data ∧ adr ∈ adressen_of f ∧ street_of adr = Some s ∧
             Str.lower (Str.strip s) = Str.lower (Str.strip street_name) ∧
             oi = oi_of f ∧ py_truthy oi = true.
Proof.
  intros Hwf Hids.
  assert (Hon : ∀ f, on_street (Str.lower (Str.strip street_name)) f = true ↔
            ∃ adr s, adr ∈ adressen_of f ∧ street_of adr = Some s ∧
                     Str.lower (Str.strip s) = Str.lower (Str.strip street_name)).
  { intros f. unfold on_street. rewrite existsb_exists. split.
    - intros (adr & Hadr & H). unfold adr_on_street in H.
      destruct (street_of adr) as [s|] eqn:Hs; [|done].
      apply bool_decide_eq_true_1 in H. exists adr, s. by rewrite list_elem_of_In.
    - intros (adr & s & Hadr & Hs & H). exists adr. rewrite <- list_elem_of_In.
      split; [done|]. unfold adr_on_street. rewrite Hs. by apply bool_decide_eq_true_2. }
  revert Hwf Hids. unfold wf_data, get_building_ids_for_street.
  unfold features_of in *.
  destruct (py_getitem data "features") as [v|e]; [|discriminate]; simpl.
  destruct (py_iter v) as [fs|e]; [|discriminate]; simpl. intros Hwf Hids.
  clear v. revert ids Hids.
  assert (Hgen : ∀ fs acc ids, forallb wf_feature fs = true →
    for_each (select_feature {[ Str.lower (Str.strip street_name) ]}) fs acc = Ret ids →
    oi ∈ ids ↔ oi ∈ acc ∨
      ∃ f, f ∈ fs ∧ on_street (Str.lower (Str.strip street_name)) f = true ∧
           oi = oi_of f ∧ py_truthy oi = true).
  { clear fs Hwf. induction fs as [|f fs IH]; intros acc ids Hwf.
    - cbn. intros [= <-]. split; [by left|]. intros [?|(f & Hf & _)]; [done|].
      by apply elem_of_nil in Hf.
    - apply andb_true_iff in Hwf as [Hf Hwf]. cbn [for_each].
      rewrite (select_feature_wf _ _ _ Hf).
      destruct (on_street _ f) eqn:Hf_on.
      + destruct (report_id f acc) as [acc'|e] eqn:Hrep; [|discriminate].
        rewrite bind_ret. intros Hids. rewrite (IH _ _ Hwf Hids).
        assert (Hacc' : acc' = if py_truthy (oi_of f) then acc ++ [oi_of f] else acc).
        { revert Hrep. unfold report_id, oi_of.
          destruct (py_get f "gebaeude" (JObj [])) as [g|e]; [|discriminate]; simpl.
          destruct (py_get g "oi" JNull) as [oi'|e]; [|discriminate]; simpl.
          by intros [= <-]. }
        rewrite Hacc'. split.
        * intros [Hin|(f' & Hf' & Hrest)].
          -- destruct (py_truthy (oi_of f)) eqn:Ht; [|by left].
             apply elem_of_app in Hin as [?|Hin]; [by left|].
             apply list_elem_of_singleton in Hin as ->. right. exists f.
             split; [left|done].
          -- right. exists f'. split; [by right|done].
        * intros [Hin|(f' & Hf' & Hon' & -> & Ht)].
          -- left. destruct (py_truthy (oi_of f)); [|done]. apply elem_of_app. by left.
          -- apply elem_of_cons in Hf' as [->|Hf'].
             ++ left. rewrite Ht. apply elem_of_app. right. by left.
             ++ right. by exists f'.
      + rewrite bind_ret. intros Hids. rewrite (IH _ _ Hwf Hids). split.
        * intros [?|(f' & Hf' & Hrest)]; [by left|]. right. exists f'.
          split; [by right|done].
        * intros [?|(f' & Hf' & Hon' & Hrest)]; [by left|].
          apply elem_of_cons in Hf' as [->|Hf']; [congruence|]. right. by exists f'. }
  intros ids Hids. rewrite (Hgen fs [] ids Hwf Hids). split.
  - intros [Hnil|(f & Hf & Hf_on & -> & Ht)]; [by apply elem_of_nil in Hnil|].
    apply Hon in Hf_on as (adr & s & ? & ? & ?). by exists f, adr, s.
  - intros (f & adr & s & Hf & Hadr & Hs & Heq & -> & Ht). right. exists f.
    split; [done|]. split; [|done]. apply Hon. by exists adr, s.
Qed.

Lemma lookup_selects_exact_matches_sample :
  JStr "B2" ∈ [JStr "B2"; JStr "B3"] ↔
  ∃ f adr s, f ∈ features_of sample_collection ∧ adr ∈ adressen_of f ∧
             street_of adr = Some s ∧
             Str.lower (Str.strip s) = Str.lower (Str.strip "AM BERG ") ∧
             JStr "B2" = oi_of f ∧ py_truthy (JStr "B2") = true.
Proof.
  apply (lookup_selects_exact_matches sample_collection "AM BERG "); vm_compute; reflexivity.
Defined.

(** ** The street filter of the analyses *)

Lemma filter_row_acc q b acc :
  filter_row q b acc =
  match filter_row q b [] with Ret r => Ret (acc ++ r) | Raise e => Raise e end.
Proof.
  unfold filter_row.
  destruct (parsed ← adressen b; adrs ← py_iter parsed; street_matches q adrs)
    as [[]|e]; cbn [app]; rewrite ?app_nil_r; try reflexivity.
  by destruct (decide _); rewrite ?app_nil_r.
Qed.

Lemma for_each_filter_row_acc q l acc :
  for_each (filter_row q) l acc =
  match for_each (filter_row q) l [] with Ret r => Ret (acc ++ r) | Raise e => Raise e end.
Proof.
  revert acc. induction l as [|b l IH]; intros acc.
  - cbn. by rewrite app_nil_r.
  - cbn [for_each]. rewrite filter_row_acc.
    destruct (filter_row q b []) as [r|e]; [|reflexivity].
    rewrite !bind_ret, (IH (acc ++ r)), (IH r).
    destruct (for_each (filter_row q) l []) as [r'|e]; [|reflexivity].
    by rewrite app_assoc.
Qed.

Lemma filter_row_wf q b acc :
  wf_row b = true →
  filter_row q b acc = Ret (if row_on_street q b then acc ++ [b] else acc).
Proof.
  unfold wf_row, row_on_street, row_entries, filter_row.
  destruct (adressen b) as [parsed|e]; [|discriminate]. rewrite !bind_ret.
  destruct (py_iter parsed) as [adrs|e]; [|discriminate]. rewrite bind_ret.
  intros Hwf. rewrite (filter_matches_lower_case _ _ Hwf).
  by destruct (existsb _ adrs).
Qed.

Lemma filter_row_skips q b e acc :
  (parsed ← adressen b; adrs ← py_iter parsed; street_matches q adrs) = Raise e →
  exn_class e = JSONDecodeError ∨ exn_class e = KeyError →
  filter_row q b acc = Ret acc.
Proof. intros He Hclass. unfold filter_row. rewrite He. by rewrite decide_True. Qed.

Lemma filter_row_raises q b e acc :
  (parsed ← adressen b; adrs ← py_iter parsed; street_matches q adrs) = Raise e →
  exn_class e ≠ JSONDecodeError → exn_class e ≠ KeyError →
  filter_row q b acc = Raise e.
Proof.
  intros He H1 H2. unfold filter_row. rewrite He. rewrite decide_False; [done|].
  by intros [|].
Qed.

Lemma filter_street_buildings_raises q l1 b l2 e sb :
  filter_street_buildings l1 q = Ret sb →
  (parsed ← adressen b; adrs ← py_iter parsed; street_matches q adrs) = Raise e →
  exn_class e ≠ JSONDecodeError → exn_class e ≠ KeyError →
  filter_street_buildings (l1 ++ b :: l2) q = Raise e.
Proof.
  unfold filter_street_buildings. intros Hl1 He H1 H2.
  rewrite for_each_app, Hl1, bind_ret. cbn [for_each].
  by rewrite (filter_row_raises _ _ _ _ He H1 H2).
Qed.

(** X6. On a frame whose [adressen] cells all parse to well-formed address
    entries, the filter of the analyses returns the rows that have an entry
    on the street (compared in lower case, not trimmed), each once, in the
    order of the frame. *)
Theorem filter_selects_rows_on_street (buildings : frame) (street_name : string) :
  forallb wf_row buildings = true →
  filter_street_buildings buildings street_name =
  Ret (filter (λ b, row_on_street street_name b = true) buildings).
Proof.
  enough (H : ∀ acc, forallb wf_row buildings = true →
            for_each (filter_row street_name) buildings acc =
            Ret (acc ++ filter (λ b, row_on_street street_name b = true) buildings))
    by exact (H []).
  induction buildings as [|b l IH]; intros acc Hwf.
  - cbn. by rewrite app_nil_r.
  - apply andb_true_iff in Hwf as [Hb Hwf]. cbn [for_each].
    rewrite (filter_row_wf _ _ _ Hb), bind_ret, (IH _ Hwf), filter_cons.
    destruct (row_on_street street_name b).
    + rewrite decide_True by done. by rewrite <- app_assoc.
    + by rewrite decide_False by done.
Qed.

Lemma filter_selects_rows_on_street_sample :
  filter_street_buildings bahnhof_frame "BAHNHOFSTRASSE" =
  Ret (filter (λ b, row_on_street "BAHNHOFSTRASSE" b = true) bahnhof_frame).
Proof. apply filter_selects_rows_on_street. reflexivity. Defined.

(** X7. Whatever the cells hold, what the filter returns is a selection of
    the rows of the frame in their order: no row twice, none invented. *)
Theorem filter_returns_rows_in_order (buildings : frame) (street_name : string)
    (street_buildings : list building) :
  filter_street_buildings buildings street_name = Ret street_buildings →
  street_buildings `sublist_of` buildings.
Proof.
  unfold filter_street_buildings. revert street_buildings.
  induction buildings as [|b l IH]; intros sb.
  - cbn. by intros [= <-].
  - cbn [for_each]. destruct (filter_row street_name b []) as [r|e] eqn:Hb; [|done].
    rewrite bind_ret, for_each_filter_row_acc.
    destruct (for_each (filter_row street_name) l []) as [r'|e]; [|done].
    intros [= <-]. specialize (IH r' eq_refl).
    revert Hb. unfold filter_row.
    destruct (parsed ← adressen b; adrs ← py_iter parsed; street_matches street_name adrs)
      as [[]|e].
    + intros [= <-]. by apply sublist_skip.
    + intros [= <-]. by apply sublist_cons.
    + destruct (decide _); [|done]. intros [= <-]. by apply sublist_cons.
Qed.

Lemma filter_returns_rows_in_order_sample :
  [sample_row 0 "B1" "Hauptstrasse" nan] `sublist_of`
  [unparsable_row; sample_row 0 "B1" "Hauptstrasse" nan; sample_row 1 "B2" "Am Berg" nan].
Proof.
  apply (filter_returns_rows_in_order _ "hauptstrasse"). vm_compute. reflexivity.
Defined.

(** X8. A row whose cell fails to parse with [JSONDecodeError], or whose
    reading fails with [KeyError], is passed over: the filter returns what it
    returns on the frame without that row. *)
Theorem filter_skips_unparsable_rows (l1 l2 : list building) (b : building)
    (street_name : string) (e : exn) :
  (parsed ← adressen b; adrs ← py_iter parsed; street_matches street_name adrs) = Raise e →
  exn_class e = JSONDecodeError ∨ exn_class e = KeyError →
  filter_street_buildings (l1 ++ b :: l2) street_name =
  filter_street_buildings (l1 ++ l2) street_name.
Proof.
  intros He Hclass. unfold filter_street_buildings. rewrite !for_each_app.
  destruct (for_each (filter_row street_name) l1 []) as [acc|x]; [|reflexivity].
  rewrite !bind_ret. cbn [for_each]. by rewrite (filter_row_skips _ _ _ _ He Hclass).
Qed.

Lemma filter_skips_unparsable_rows_sample :
  filter_street_buildings ([padded_row] ++ unparsable_row :: bahnhof_frame) "Bahnhofstrasse" =
  filter_street_buildings ([padded_row] ++ bahnhof_frame) "Bahnhofstrasse".
Proof.
  apply (filter_skips_unparsable_rows _ _ _ _
           (Exn JSONDecodeError "Expecting value: line 1 column 1 (char 0)"));
    [reflexivity | by left].
Defined.

(** X9. Any other exception of a cell, a [TypeError] of a cell that is not
    text for one, is not passed over: it ends the loop, and each analysis
    returns its error text made of that exception, whatever the other rows
    hold. *)
Theorem cell_error_ends_the_analysis (series_mean : list float → float)
    (py_repr : json → string) (whp : hp_world) (wdh : dh_world)
    (l1 l2 : list building) (b : building) (selected : list building)
    (street_name scenario : string) (e : exn) :
  filter_street_buildings l1 street_name = Ret selected →
  (parsed ← adressen b; adrs ← py_iter parsed; street_matches street_name adrs) = Raise e →
  exn_class e ≠ JSONDecodeError →
  exn_class e ≠ KeyError →
  (import_street_final_modules (hp_imports whp) = Ret true →
   hp_mkdir whp = Ret () →
   load_buildings whp buildings_geojson = Ret (l1 ++ b :: l2) →
   run_comprehensive_hp_analysis series_mean whp street_name scenario =
   Ret ("Error in comprehensive HP analysis: " +:+ exn_str e)) ∧
  (import_street_final_modules (dh_imports wdh) = Ret true →
   dh_mkdir wdh = Ret () →
   read_file wdh buildings_geojson = Ret (l1 ++ b :: l2) →
   run_comprehensive_dh_analysis py_repr wdh street_name =
   Ret ("Error in comprehensive DH analysis: " +:+ exn_str e)).
Proof.
  intros Hl1 He H1 H2.
  pose proof (filter_street_buildings_raises _ _ _ l2 _ _ Hl1 He H1 H2) as Hraise.
  split; intros Himp Hmk Hload.
  - unfold run_comprehensive_hp_analysis, hp_analysis_body.
    rewrite Himp, bind_ret. cbn [negb]. by rewrite Hmk, bind_ret, Hload, bind_ret, Hraise.
  - unfold run_comprehensive_dh_analysis, dh_analysis_body.
    rewrite Himp, bind_ret. cbn [negb]. by rewrite Hmk, bind_ret, Hload, bind_ret, Hraise.
Qed.

Lemma cell_error_ends_the_analysis_sample :
  run_comprehensive_hp_analysis (λ _, 0%float) untyped_cell_world "Hauptstrasse"
    "winter_werktag_abendspitze" =
  Ret ("Error in comprehensive HP analysis: " +:+
       "the JSON object must be str, bytes or bytearray, not float") ∧
  run_comprehensive_dh_analysis (λ _, "") untyped_cell_dh_world "Hauptstrasse" =
  Ret ("Error in comprehensive DH analysis: " +:+
       "the JSON object must be str, bytes or bytearray, not float").
Proof.
  destruct (cell_error_ends_the_analysis (λ _, 0%float) (λ _, "")
              untyped_cell_world untyped_cell_dh_world
              [sample_row 0 "B1" "Hauptstrasse" nan] [] untyped_row
              [sample_row 0 "B1" "Hauptstrasse" nan] "Hauptstrasse"
              "winter_werktag_abendspitze"
              (Exn TypeError "the JSON object must be str, bytes or bytearray, not float"))
    as [Hhp Hdh]; [reflexivity | reflexivity | discriminate | discriminate |].
  split; [apply Hhp | apply Hdh]; reflexivity.
Defined.

(** ** The merge loop and the statistics *)

Lemma SFcompare_antisym a b :
  SFcompare a b = option_map CompOpp (SFcompare b a).
Proof.
  destruct a as [[]|[]| |[] ma ea], b as [[]|[]| |[] mb eb]; try reflexivity;
    cbn [SFcompare option_map]; f_equal;
    rewrite (Z.compare_antisym ea eb); destruct (Z.compare_spec ea eb); cbn [CompOpp];
    try reflexivity;
    change (Pos.compare_cont Eq mb ma) with (Pos.compare mb ma);
    change (Pos.compare_cont Eq ma mb) with (Pos.compare ma mb);
    rewrite (Pos.compare_antisym ma mb); by destruct (Pos.compare ma mb).
Qed.

Lemma SFcompare_lt_trans a b c :
  SFcompare a b = Some Lt → SFcompare b c = Some Lt → SFcompare a c = Some Lt.
Proof.
  destruct a as [[]|[]| |[] ma ea], b as [[]|[]| |[] mb eb], c as [[]|[]| |[] mc ec];
    cbn [SFcompare]; try discriminate; try reflexivity;
    change (Pos.compare_cont Eq ma mb) with (Pos.compare ma mb);
    change (Pos.compare_cont Eq mb mc) with (Pos.compare mb mc);
    change (Pos.compare_cont Eq ma mc) with (Pos.compare ma mc);
    destruct (Z.compare_spec ea eb), (Z.compare_spec eb ec), (Z.compare_spec ea ec);
    try discriminate; try reflexivity; try lia;
    destruct (Pos.compare_spec ma mb), (Pos.compare_spec mb mc), (Pos.compare_spec ma mc);
    cbn [CompOpp]; try discriminate; try reflexivity; lia.
Qed.

Lemma ltb_irrefl x : PrimFloat.ltb x x = false.
Proof.
  rewrite FloatAxioms.ltb_spec. unfold SFltb.
  pose proof (SFcompare_antisym (Prim2SF x) (Prim2SF x)) as H.
  destruct (SFcompare (Prim2SF x) (Prim2SF x)) as [[]|]; try reflexivity. discriminate.
Qed.

Lemma ltb_trans x y z :
  PrimFloat.ltb x y = true → PrimFloat.ltb y z = true → PrimFloat.ltb x z = true.
Proof.
  rewrite !FloatAxioms.ltb_spec. unfold SFltb. intros Hxy Hyz.
  rewrite (SFcompare_lt_trans (Prim2SF x) (Prim2SF y) (Prim2SF z)); [done| |].
  - by destruct (SFcompare (Prim2SF x) (Prim2SF y)) as [[]|].
  - by destruct (SFcompare (Prim2SF y) (Prim2SF z)) as [[]|].
Qed.

Lemma not_ltb_leb x y :
  PrimFloat.is_nan x = false → PrimFloat.is_nan y = false →
  PrimFloat.ltb y x = false → PrimFloat.leb x y = true.
Proof.
  unfold PrimFloat.is_nan. rewrite !FloatAxioms.eqb_spec, FloatAxioms.ltb_spec, FloatAxioms.leb_spec.
  unfold SFeqb, SFltb, SFleb. rewrite (SFcompare_antisym (Prim2SF y) (Prim2SF x)).
  destruct (Prim2SF x) as [[]|[]| |[] mx ex], (Prim2SF y) as [[]|[]| |[] my ey];
    cbn [SFcompare option_map CompOpp negb]; try discriminate; try reflexivity;
    intros _ _; destruct (ex ?= ey)%Z; cbn [CompOpp]; try discriminate; try reflexivity;
    by destruct (Pos.compare_cont Eq mx my).
Qed.

Lemma foldl_max_bound (l : list float) (x : float) :
  let r := foldl (λ m y, if PrimFloat.ltb m y then y else m) x l in
  ∀ z, z ∈ x :: l → PrimFloat.ltb r z = false.
Proof.
  induction l as [|y l IH] using rev_ind; intros r z Hz; subst r.
  - apply list_elem_of_singleton in Hz as ->. apply ltb_irrefl.
  - rewrite foldl_snoc. cbn zeta in IH.
    set (r := foldl (λ m y, if PrimFloat.ltb m y then y else m) x l) in *.
    rewrite app_comm_cons in Hz. apply elem_of_app in Hz as [Hz|Hz].
    + destruct (PrimFloat.ltb r y) eqn:Hry; [|by apply IH].
      destruct (PrimFloat.ltb y z) eqn:Hyz; [|reflexivity].
      pose proof (ltb_trans _ _ _ Hry Hyz) as Ht. by rewrite (IH z Hz) in Ht.
    + apply list_elem_of_singleton in Hz as ->.
      destruct (PrimFloat.ltb r y) eqn:Hry; [apply ltb_irrefl | done].
Qed.

Lemma foldl_min_bound (l : list float) (x : float) :
  let r := foldl (λ m y, if PrimFloat.ltb y m then y else m) x l in
  ∀ z, z ∈ x :: l → PrimFloat.ltb z r = false.
Proof.
  induction l as [|y l IH] using rev_ind; intros r z Hz; subst r.
  - apply list_elem_of_singleton in Hz as ->. apply ltb_irrefl.
  - rewrite foldl_snoc. cbn zeta in IH.
    set (r := foldl (λ m y, if PrimFloat.ltb y m then y else m) x l) in *.
    rewrite app_comm_cons in Hz. apply elem_of_app in Hz as [Hz|Hz].
    + destruct (PrimFloat.ltb y r) eqn:Hry; [|by apply IH].
      destruct (PrimFloat.ltb z y) eqn:Hyz; [|reflexivity].
      pose proof (ltb_trans _ _ _ Hyz Hry) as Ht. by rewrite (IH z Hz) in Ht.
    + apply list_elem_of_singleton in Hz as ->.
      destruct (PrimFloat.ltb y r) eqn:Hry; [apply ltb_irrefl | done].
Qed.

Lemma isna_all_known column x :
  x ∈ column → PrimFloat.is_nan x = false → isna_all column = false.
Proof.
  intros Hx Hnan. unfold isna_all. apply not_true_is_false. intros Hall.
  rewrite forallb_forall in Hall. rewrite (Hall x) in Hnan; [done|].
  by apply list_elem_of_In.
Qed.

Lemma col_max_bound column x :
  x ∈ column → PrimFloat.is_nan x = false → PrimFloat.leb x (col_max column) = true.
Proof.
  intros Hx Hnan.
  assert (Hk : x ∈ known column) by (apply list_elem_of_filter; done).
  pose proof (col_max_known column (isna_all_known _ _ Hx Hnan)) as Hm.
  apply not_ltb_leb; [done | by eapply known_not_nan |].
  unfold col_max in *. destruct (known column) as [|y l]; [by apply elem_of_nil in Hk|].
  by apply foldl_max_bound.
Qed.

Lemma col_min_bound column x :
  x ∈ column → PrimFloat.is_nan x = false → PrimFloat.leb (col_min column) x = true.
Proof.
  intros Hx Hnan.
  assert (Hk : x ∈ known column) by (apply list_elem_of_filter; done).
  pose proof (col_min_known column (isna_all_known _ _ Hx Hnan)) as Hm.
  apply not_ltb_leb; [by eapply known_not_nan | done |].
  unfold col_min in *. destruct (known column) as [|y l]; [by apply elem_of_nil in Hk|].
  by apply foldl_min_bound.
Qed.

Lemma foldl_merge_row_Forall2 pm (R : building → building → Prop) l fr0 fr :
  (∀ b r x, R b r → R b (set_by pm x r)) →
  Forall2 R fr0 fr → Forall2 R fr0 (foldl (merge_row pm) fr l).
Proof.
  intros HR. revert fr. induction l as [|b l IH]; intros fr Hfr; [done|].
  cbn [foldl]. apply IH. rewrite merge_row_loc_set. unfold loc_set.
  apply Forall2_fmap_r. eapply Forall2_impl; [exact Hfr|].
  intros b0 r Hb0. change (R b0 (if decide (idx r = idx b) then set_by pm b r else r)).
  destruct (decide (idx r = idx b)); [by apply HR | done].
Qed.

(** X11. The merge loop leaves the frame as long as it was and every row
    with its label, its address cell, its identifiers and its distances:
    only the two metric columns are written, whatever the labels and the
    metrics are. *)
Theorem merge_writes_only_metric_columns (power_metrics : gmap string metrics)
    (street_buildings : frame) :
  Forall2 (λ b r, idx r = idx b ∧ adressen r = adressen b ∧ gebaeude r = gebaeude b ∧
                  id_col r = id_col b ∧ dist_to_line r = dist_to_line b ∧
                  dist_to_substation r = dist_to_substation b ∧
                  dist_to_transformer r = dist_to_transformer b)
    street_buildings (add_power_metrics power_metrics street_buildings).
Proof.
  unfold add_power_metrics. apply foldl_merge_row_Forall2.
  - intros b r x Hsame. unfold set_by.
    destruct (power_metrics !! building_id x); exact Hsame.
  - apply Forall2_same_length_lookup_2; [done|].
    intros i b r Hb Hr. rewrite Hb in Hr. injection Hr as <-. by repeat split.
Qed.

(** X12. In a frame with distinct index labels, a row whose identifier has
    an entry in the metrics mapping gets the loading and the voltage of that
    entry; the identifier is the [gebaeude] value, else the [id] value, else
    the text of the label. *)
Theorem merge_gives_row_its_entry (power_metrics : gmap string metrics)
    (street_buildings : frame) (i : nat) (b : building) (m : metrics) :
  NoDup (idx <$> street_buildings) →
  street_buildings !! i = Some b →
  power_metrics !! from_option id (from_option id (str_int (idx b)) (id_col b)) (gebaeude b)
    = Some m →
  add_power_metrics power_metrics street_buildings !! i =
  Some (set_power (max_loading m) (min_voltage m) b).
Proof.
  intros Hnd Hb Hm. rewrite (add_power_metrics_rows _ _ Hnd), list_lookup_fmap, Hb.
  cbn. unfold merged_row, building_id. by rewrite Hm.
Qed.

Lemma merge_gives_row_its_entry_sample :
  add_power_metrics bahnhof_metrics bahnhof_frame !! 1%nat =
  Some (set_power (max_loading (Metrics 95 0.95)) (min_voltage (Metrics 95 0.95))
          (sample_row 1 "B2" "Bahnhofstrasse" nan)).
Proof.
  apply merge_gives_row_its_entry.
  - apply (bool_decide_unpack (NoDup (idx <$> bahnhof_frame))). vm_compute. exact I.
  - reflexivity.
  - vm_compute. reflexivity.
Defined.

Lemma set_by_set_by pm b b' r : set_by pm b (set_by pm b' r) = set_by pm b r.
Proof.
  unfold set_by. by destruct (pm !! building_id b), (pm !! building_id b').
Qed.

Lemma foldl_merge_row_last pm l fr :
  foldl (merge_row pm) fr l =
  (λ r, match last_labelled l (idx r) with
        | Some b => set_by pm b r
        | None => r
        end) <$> fr.
Proof.
  induction l as [|b l IH] using rev_ind.
  - cbn [foldl]. unfold last_labelled. cbn. by rewrite list_fmap_id.
  - rewrite foldl_snoc, IH, merge_row_loc_set. unfold loc_set.
    rewrite <- list_fmap_compose. apply list_fmap_ext. intros _ r _. cbn [compose].
    unfold last_labelled. rewrite filter_app, filter_cons, filter_nil.
    assert (Hidx : idx (match last (filter (λ b0, idx b0 = idx r) l) with
                        | Some b0 => set_by pm b0 r | None => r end) = idx r).
    { destruct (last _); [apply idx_set_by | done]. }
    rewrite Hidx. destruct (decide (idx r = idx b)) as [Heq|Hne].
    + rewrite decide_True by done. rewrite last_snoc.
      destruct (last _); [apply set_by_set_by | done].
    + rewrite decide_False by done. by rewrite app_nil_r.
Qed.

(** X13. When rows share an index label, the write by label reaches all of
    them: after the merge loop every row carries the metrics that belong to
    the identifier of the last row with its label, not to its own. *)
Theorem shared_label_takes_last_row_metrics (power_metrics : gmap string metrics)
    (street_buildings : frame) (i : nat) (r : building) :
  street_buildings !! i = Some r →
  ∃ b r', last_labelled street_buildings (idx r) = Some b ∧
          add_power_metrics power_metrics street_buildings !! i = Some r' ∧
          max_trafo_loading r' = max_trafo_loading (merged_row power_metrics b) ∧
          min_voltage_pu r' = min_voltage_pu (merged_row power_metrics b).
Proof.
  intros Hr. unfold add_power_metrics. rewrite foldl_merge_row_last, list_lookup_fmap, Hr.
  cbn [fmap option_fmap option_map].
  destruct (last_labelled street_buildings (idx r)) as [b|] eqn:Hlast.
  - exists b, (set_by power_metrics b r). split; [done|]. split; [done|].
    unfold set_by, merged_row. by destruct (power_metrics !! building_id b).
  - exfalso. unfold last_labelled in Hlast. apply last_None in Hlast.
    assert (Hin : r ∈ filter (λ b, idx b = idx r) street_buildings).
    { apply list_elem_of_filter. split; [done|]. by eapply list_elem_of_lookup_2. }
    rewrite Hlast in Hin. by apply elem_of_nil in Hin.
Qed.

Lemma shared_label_takes_last_row_metrics_sample :
  ∃ b r', last_labelled shared_label_frame 0 = Some b ∧
          add_power_metrics bahnhof_metrics shared_label_frame !! 0%nat = Some r' ∧
          max_trafo_loading r' = max_trafo_loading (merged_row bahnhof_metrics b) ∧
          min_voltage_pu r' = min_voltage_pu (merged_row bahnhof_metrics b).
Proof.
  apply (shared_label_takes_last_row_metrics bahnhof_metrics shared_label_frame 0
           (sample_row 0 "B1" "Bahnhofstrasse" nan)).
  reflexivity.
Defined.

(** X14. The statistics bound the known values: the maximum transformer
    loading of the summary is at least every known loading of the frame,
    the minimum voltage at most every known voltage. *)
Theorem stats_bound_known_values (series_mean : list float → float)
    (street_buildings : frame) (b : building) :
  b ∈ street_buildings →
  (PrimFloat.is_nan (max_trafo_loading b) = false →
   PrimFloat.leb (max_trafo_loading b)
     (MaxTrafoLoading (hp_stats_of series_mean street_buildings)) = true) ∧
  (PrimFloat.is_nan (min_voltage_pu b) = false →
   PrimFloat.leb (MinVoltagePU (hp_stats_of series_mean street_buildings))
     (min_voltage_pu b) = true).
Proof.
  intros Hb. unfold hp_stats_of. cbn [MaxTrafoLoading MinVoltagePU]. split; intros Hnan.
  - assert (Hin : max_trafo_loading b ∈ max_trafo_loading <$> street_buildings)
      by (by apply list_elem_of_fmap_2).
    rewrite (isna_all_known _ _ Hin Hnan). cbn [negb]. by apply col_max_bound.
  - assert (Hin : min_voltage_pu b ∈ min_voltage_pu <$> street_buildings)
      by (by apply list_elem_of_fmap_2).
    rewrite (isna_all_known _ _ Hin Hnan). cbn [negb]. by apply col_min_bound.
Qed.

Lemma stats_bound_known_values_sample :
  PrimFloat.leb 80
    (MaxTrafoLoading (hp_stats_of (λ _, 0%float)
       (add_power_metrics bahnhof_metrics bahnhof_frame))) = true ∧
  PrimFloat.leb
    (MinVoltagePU (hp_stats_of (λ _, 0%float)
       (add_power_metrics bahnhof_metrics bahnhof_frame))) 0.97 = true.
Proof.
  destruct (stats_bound_known_values (λ _, 0%float)
              (add_power_metrics bahnhof_metrics bahnhof_frame)
              (set_power 80 0.97 (sample_row 0 "B1" "Bahnhofstrasse" nan)))
    as [Hmax Hmin].
  - apply list_elem_of_In. vm_compute. left. reflexivity.
  - split; [apply Hmax | apply Hmin]; reflexivity.
Defined.

(** ** The analysis tools, further *)

Lemma dh_dashboard_any_map py_repr street_name street_buildings network_stats
    simulation_results map_path map_path' now :
  same_outcome
    (dh_dashboard_html py_repr street_name street_buildings network_stats
       simulation_results map_path now)
    (dh_dashboard_html py_repr street_name street_buildings network_stats
       simulation_results map_path' now).
Proof.
  unfold dh_dashboard_html.
  repeat (apply same_outcome_bind; intros ? _).
  apply same_outcome_ret.
Qed.


(** X16. When the cells of the loaded frame are well formed and no row has
    an address entry on the street, each analysis returns the text
    [No buildings found for street:] followed by the street name as it was
    given, and this is not an error text. *)
Theorem no_row_on_street_no_buildings (series_mean : list float → float)
    (py_repr : json → string) (whp : hp_world) (wdh : dh_world)
    (buildings : frame) (street_name scenario : string) :
  forallb wf_row buildings = true →
  (∀ b, b ∈ buildings → row_on_street street_name b = false) →
  (import_street_final_modules (hp_imports whp) = Ret true →
   hp_mkdir whp = Ret () →
   load_buildings whp buildings_geojson = Ret buildings →
   run_comprehensive_hp_analysis series_mean whp street_name scenario =
   Ret ("No buildings found for street: " +:+ street_name)) ∧
  (import_street_final_modules (dh_imports wdh) = Ret true →
   dh_mkdir wdh = Ret () →
   read_file wdh buildings_geojson = Ret buildings →
   run_comprehensive_dh_analysis py_repr wdh street_name =
   Ret ("No buildings found for street: " +:+ street_name)) ∧
  String.prefix "Error" ("No buildings found for street: " +:+ street_name) = false.
Proof.
  intros Hwf Hnone.
  assert (Hfilter : filter_street_buildings buildings street_name = Ret []).
  { unfold filter_street_buildings. induction buildings as [|b l IH]; [done|].
    apply andb_true_iff in Hwf as [Hb Hwf]. cbn [for_each].
    rewrite (filter_row_wf _ _ _ Hb), Hnone by left. rewrite bind_ret.
    apply IH; [done|]. intros b' ?. apply Hnone. by right. }
  split; [|split; [|reflexivity]]; intros Himp Hmk Hload.
  - unfold run_comprehensive_hp_analysis, hp_analysis_body.
    rewrite Himp, bind_ret. cbn [negb]. by rewrite Hmk, bind_ret, Hload, bind_ret, Hfilter.
  - unfold run_comprehensive_dh_analysis, dh_analysis_body.
    rewrite Himp, bind_ret. cbn [negb]. by rewrite Hmk, bind_ret, Hload, bind_ret, Hfilter.
Qed.

Lemma no_row_on_street_no_buildings_sample :
  run_comprehensive_hp_analysis (λ _, 0%float) one_building_world "Am Berg"
    "winter_werktag_abendspitze" = Ret ("No buildings found for street: " +:+ "Am Berg") ∧
  run_comprehensive_dh_analysis (λ _, "") no_network_world "Am Berg" =
    Ret ("No buildings found for street: " +:+ "Am Berg").
Proof.
  destruct (no_row_on_street_no_buildings (λ _, 0%float) (λ _, "")
              one_building_world no_network_world one_building_frame "Am Berg"
              "winter_werktag_abendspitze") as (Hhp & Hdh & _).
  - reflexivity.
  - intros b Hb. apply list_elem_of_singleton in Hb as ->. reflexivity.
  - split; [apply Hhp | apply Hdh]; reflexivity.
Defined.





(** X19. The dashboard and the summary of the district-heating analysis
    read the same fields in the same order: they are rendered or they fail
    together, and when they fail it is with the same exception.  A
    dashboard is never written for an analysis whose summary cannot be
    rendered. *)
Theorem dh_summary_renders_with_dashboard (py_repr : json → string)
    (street_name : string) (street_buildings : frame)
    (network_stats simulation_results : json) (map_path : option string)
    (now dashboard_path output_dir cwd : string) :
  same_outcome
    (dh_dashboard_html py_repr street_name street_buildings network_stats
       simulation_results map_path now)
    (dh_summary py_repr street_name street_buildings network_stats
       simulation_results dashboard_path output_dir cwd).
Proof.
  unfold dh_dashboard_html, dh_summary.
  apply same_outcome_bind; intros h1 H1.
  apply same_outcome_bind; intros h2 H2.
  apply same_outcome_bind; intros h3 H3.
  apply same_outcome_bind; intros h4 H4.
  apply same_outcome_bind; intros h5 H5.
  apply same_outcome_bind; intros h6 H6.
  apply same_outcome_bind; intros h7 H7.
  apply same_outcome_bind; intros h8 H8.
  apply same_outcome_bind; intros h9 H9.
  apply same_outcome_bind; intros h10 H10.
  apply same_outcome_bind; intros h11 H11.
  apply same_outcome_bind; intros h12 H12.
  apply same_outcome_bind; intros h13 H13.
  rewrite H4, bind_ret, H12, bind_ret. apply same_outcome_ret.
Qed.

(** ** KPI report analysis *)

Lemma concat_empty_cons x l : String.concat "" (x :: l) = x +:+ String.concat "" l.
Proof. destruct l; cbn [String.concat]; [by rewrite StrFacts.append_nil_r | reflexivity]. Qed.

Lemma foldl_column_lines columns analysis :
  foldl (λ analysis c,
           if numeric_dtype c
           then analysis +:+ "• " +:+ column_label c +:+ ": " +:+
                from_option id "N/A" (first_value c) +:+ "
"
           else analysis) analysis columns =
  analysis +:+
  String.concat "" (kpi_column_line <$> filter (λ c, numeric_dtype c = true) columns).
Proof.
  revert analysis. induction columns as [|c l IH]; intros analysis.
  - cbn. by rewrite StrFacts.append_nil_r.
  - cbn [foldl]. rewrite IH, filter_cons. destruct (numeric_dtype c).
    + rewrite decide_True by done. rewrite fmap_cons, concat_empty_cons.
      by rewrite <- (StrFacts.append_assoc analysis (kpi_column_line c)).
    + by rewrite decide_False by done.
Qed.

Lemma foldl_item_lines py_repr o analysis :
  foldl (λ analysis kv,
           analysis +:+ "• " +:+ kv.1 +:+ ": " +:+ py_str py_repr kv.2 +:+ "
") analysis o =
  analysis +:+ String.concat "" (kpi_item_line py_repr <$> o).
Proof.
  revert analysis. induction o as [|kv o IH]; intros analysis.
  - cbn. by rewrite StrFacts.append_nil_r.
  - cbn [foldl]. rewrite IH, fmap_cons, concat_empty_cons.
    by rewrite <- (StrFacts.append_assoc analysis (kpi_item_line py_repr kv)).
Qed.

(** X20. What the KPI analysis writes between its heading and its closing
    part, for a report file that exists: for a [.csv] file one line for each
    numeric column, in the order of the columns, with the first value of the
    column ([N/A] for an empty table), the other columns left out; for a
    [.json] file one line for each item of the loaded object in its order,
    and no line when the loaded value is not an object. *)
Theorem kpi_report_lines (py_repr : json → string) (w : kpi_world)
    (kpi_report_path : string) :
  kpi_exists w kpi_report_path = true →
  (∀ columns,
     Str.endswith kpi_report_path ".csv" = true →
     read_csv w kpi_report_path = Ret columns →
     analyze_kpi_report py_repr w kpi_report_path =
     Ret (kpi_analysis_head kpi_report_path +:+
          String.concat ""
            (kpi_column_line <$> filter (λ c, numeric_dtype c = true) columns) +:+
          kpi_analysis_foot)) ∧
  (∀ v,
     Str.endswith kpi_report_path ".csv" = false →
     Str.endswith kpi_report_path ".json" = true →
     kpi_load_json w kpi_report_path = Ret v →
     analyze_kpi_report py_repr w kpi_report_path =
     Ret (kpi_analysis_head kpi_report_path +:+
          String.concat "" (kpi_item_line py_repr <$> kpi_items v) +:+
          kpi_analysis_foot)).
Proof.
  intros Hex. split.
  - intros columns Hcsv Hread. unfold analyze_kpi_report, kpi_body.
    rewrite Hex, Hcsv, Hread. cbn [negb]. rewrite !bind_ret.
    unfold kpi_metric_lines. rewrite foldl_column_lines. reflexivity.
  - intros v Hcsv Hjson Hload. unfold analyze_kpi_report, kpi_body.
    rewrite Hex, Hcsv, Hjson, Hload. cbn [negb]. rewrite !bind_ret.
    unfold kpi_metric_lines.
    destruct v; try reflexivity. rewrite foldl_item_lines. reflexivity.
Qed.

Lemma kpi_report_lines_sample :
  analyze_kpi_report (λ _, "") sample_kpi_world "results/kpi.csv" =
  Ret (kpi_analysis_head "results/kpi.csv" +:+
       String.concat ""
         [ kpi_column_line (KpiColumn "lcoh_eur_per_mwh" true (Some "85.3"));
           kpi_column_line (KpiColumn "co2_t_per_a" true (Some "12")) ] +:+
       kpi_analysis_foot) ∧
  analyze_kpi_report (λ _, "") sample_kpi_world "results/kpi.json" =
  Ret (kpi_analysis_head "results/kpi.json" +:+
       String.concat ""
         [ kpi_item_line (λ _, "") ("lcoh", JInt 85);
           kpi_item_line (λ _, "") ("street", JStr "Hauptstrasse") ] +:+
       kpi_analysis_foot).
Proof.
  split.
  - destruct (kpi_report_lines (λ _, "") sample_kpi_world "results/kpi.csv" eq_refl)
      as [Hcsv _].
    apply (Hcsv _ eq_refl eq_refl).
  - destruct (kpi_report_lines (λ _, "") sample_kpi_world "results/kpi.json" eq_refl)
      as [_ Hjson].
    apply (Hjson _ eq_refl eq_refl eq_refl).
Defined.

(** ** Results lister, further *)

Lemma list_file_eq e results :
  list_file e results =
  match file_size e with
  | Ret size => Ret (results ++ [file_line e size])
  | Raise x => Raise x
  end.
Proof. unfold list_file. by destruct (file_size e). Qed.

Lemma for_each_list_file_extends files results r :
  for_each list_file files results = Ret r → ∃ r', r = results ++ r'.
Proof.
  revert results. induction files as [|e files IH]; intros results.
  - cbn. intros [= <-]. exists []. by rewrite app_nil_r.
  - cbn [for_each]. rewrite list_file_eq.
    destruct (file_size e) as [size|x]; [|done]. rewrite bind_ret.
    intros (r' & ->)%IH. eexists. by rewrite <- app_assoc.
Qed.

Lemma list_output_dir_extends walk output_dir results r :
  list_output_dir walk output_dir results = Ret r →
  ∃ r', r = results ++ r' ∧
        match walk output_dir with
        | Some _ => ∃ r'', r' = dir_heading output_dir :: r''
        | None => r' = []
        end.
Proof.
  unfold list_output_dir. destruct (walk output_dir) as [files|].
  - intros (r' & ->)%for_each_list_file_extends. exists (dir_heading output_dir :: r').
    split; [by rewrite <- app_assoc | by eexists].
  - intros [= <-]. exists []. by rewrite app_nil_r.
Qed.

(** X21. The lister answers [No results found] exactly when none of its
    three directories exists: with a directory that exists, even an empty
    one, it answers with a listing (or with an error text). *)
Theorem no_results_iff_no_directory (walk : string → option (list file_entry)) :
  list_available_results walk = Ret no_results_found ↔
  walk "results_test" = None ∧ walk "results" = None ∧ walk "simulation_outputs" = None.
Proof.
  split.
  - unfold list_available_results, list_results_body. cbn [for_each].
    destruct (list_output_dir walk "results_test" []) as [r1|x] eqn:H1;
      [|intros [= H]; discriminate H].
    rewrite bind_ret.
    destruct (list_output_dir walk "results" r1) as [r2|x] eqn:H2;
      [|intros [= H]; discriminate H].
    rewrite bind_ret.
    destruct (list_output_dir walk "simulation_outputs" r2) as [r3|x] eqn:H3;
      [|intros [= H]; discriminate H].
    rewrite !bind_ret.
    apply list_output_dir_extends in H1 as (r1' & -> & H1).
    apply list_output_dir_extends in H2 as (r2' & -> & H2).
    apply list_output_dir_extends in H3 as (r3' & -> & H3).
    cbn [app] in *.
    destruct (walk "results_test").
    { destruct H1 as (? & ->). cbn [app try_except]. rewrite concat_empty_cons.
      by intros [=]. }
    subst r1'. cbn [app] in *. destruct (walk "results").
    { destruct H2 as (? & ->). cbn [app try_except]. rewrite concat_empty_cons.
      by intros [=]. }
    subst r2'. cbn [app] in *. destruct (walk "simulation_outputs").
    { destruct H3 as (? & ->). cbn [app try_except]. rewrite concat_empty_cons.
      by intros [=]. }
    done.
  - intros (H1 & H2 & H3). unfold list_available_results, list_results_body.
    cbn [for_each]. unfold list_output_dir. rewrite H1, bind_ret, H2, bind_ret, H3.
    reflexivity.
Qed.

Lemma list_output_dir_eq walk output_dir results :
  list_output_dir walk output_dir results =
  match walk output_dir with
  | Some files => for_each list_file files (results ++ [dir_heading output_dir])
  | None => Ret results
  end.
Proof. reflexivity. Qed.

Lemma for_each_list_file_readable files results :
  (∀ e, e ∈ files → returned (file_size e) = true) →
  for_each list_file files results =
  Ret (results ++ ((λ e, file_line e (size_of e)) <$> files)).
Proof.
  revert results. induction files as [|f files IH]; intros results Hread.
  - cbn. by rewrite app_nil_r.
  - cbn [for_each]. rewrite list_file_eq, fmap_cons.
    pose proof (Hread f ltac:(left)) as Hf.
    assert (Hsize : file_size f = Ret (size_of f)).
    { unfold size_of. by destruct (file_size f). }
    rewrite Hsize, bind_ret, IH by (intros e ?; apply Hread; by right).
    by rewrite <- app_assoc.
Qed.

Lemma for_each_list_output_dir_readable walk dirs results :
  (∀ d files e, d ∈ dirs → walk d = Some files → e ∈ files →
                returned (file_size e) = true) →
  for_each (list_output_dir walk) dirs results =
  Ret (results ++ (dirs ≫= dir_lines walk)).
Proof.
  revert results. induction dirs as [|d dirs IH]; intros results Hread.
  - cbn. by rewrite app_nil_r.
  - cbn [for_each]. rewrite list_output_dir_eq.
    change ((d :: dirs) ≫= dir_lines walk)
      with (dir_lines walk d ++ (dirs ≫= dir_lines walk)).
    unfold dir_lines at 1.
    assert (Hrest : ∀ d' files e, d' ∈ dirs → walk d' = Some files → e ∈ files →
                                  returned (file_size e) = true).
    { intros d' files e ?. apply Hread. by right. }
    destruct (walk d) as [files|] eqn:Hwalk.
    + rewrite for_each_list_file_readable
        by (intros e; apply (Hread d files e); [left | done]).
      rewrite bind_ret, (IH _ Hrest). f_equal. rewrite <- !app_assoc. reflexivity.
    + rewrite bind_ret. by apply IH.
Qed.

(** X22. One file whose size cannot be read loses the whole listing: at
    the first such file, in the order of the directories and of the walk,
    the lister stops and returns its error text with the message of that
    file, and none of the entries it had collected, whatever comes after. *)
Theorem unreadable_file_loses_listing (walk : string → option (list file_entry))
    (dirs_before dirs_after : list string) (output_dir : string)
    (files_before files_after : list file_entry) (e : file_entry) (x : exn) :
  output_dirs = dirs_before ++ output_dir :: dirs_after →
  (∀ d files e', d ∈ dirs_before → walk d = Some files → e' ∈ files →
                 returned (file_size e') = true) →
  walk output_dir = Some (files_before ++ e :: files_after) →
  (∀ e', e' ∈ files_before → returned (file_size e') = true) →
  file_size e = Raise x →
  list_available_results walk = Ret ("Error listing results: " +:+ exn_str x).
Proof.
  intros Hdirs Hbefore Hwalk Hfiles Hx.
  unfold list_available_results, list_results_body.
  change ["results_test"; "results"; "simulation_outputs"] with output_dirs.
  rewrite Hdirs, for_each_app, (for_each_list_output_dir_readable _ _ _ Hbefore), bind_ret.
  cbn [for_each]. rewrite list_output_dir_eq, Hwalk, for_each_app.
  rewrite (for_each_list_file_readable _ _ Hfiles), bind_ret.
  cbn [for_each]. by rewrite list_file_eq, Hx.
Qed.

Lemma unreadable_file_loses_listing_sample :
  list_available_results broken_link_walk =
  Ret ("Error listing results: " +:+
       "[Errno 2] No such file or directory: 'results/sub/b.html'").
Proof.
  apply (unreadable_file_loses_listing broken_link_walk ["results_test"]
           ["simulation_outputs"] "results" [FileEntry "a.csv" "a.csv" (Ret 10)]
           [FileEntry "c.json" "sub/c.json"
              (Raise (Exn OSError "[Errno 13] Permission denied: 'results/sub/c.json'"))]
           (FileEntry "b.html" "sub/b.html"
              (Raise (Exn OSError "[Errno 2] No such file or directory: 'results/sub/b.html'")))
           (Exn OSError "[Errno 2] No such file or directory: 'results/sub/b.html'")).
  - reflexivity.
  - intros d files e' Hd. apply list_elem_of_singleton in Hd as ->. discriminate.
  - reflexivity.
  - intros e' He'. apply list_elem_of_singleton in He' as ->. reflexivity.
  - reflexivity.
Defined.

(** X23. When every file under the directories that exist can be measured,
    the listing is the concatenation, with nothing between the pieces, of
    the lines of the three directories in their fixed order: for each one
    that exists its heading, which begins with a line break, and one entry
    per file in walk order. *)
Theorem listing_concatenates_entries (walk : string → option (list file_entry)) :
  (∀ d files e, d ∈ output_dirs → walk d = Some files → e ∈ files →
                returned (file_size e) = true) →
  (∃ d files, d ∈ output_dirs ∧ walk d = Some files) →
  list_available_results walk = Ret (String.concat "" (output_dirs ≫= dir_lines walk)).
Proof.
  intros Hread (d & files & Hd & Hwalk).
  unfold list_available_results, list_results_body.
  change ["results_test"; "results"; "simulation_outputs"] with output_dirs.
  rewrite (for_each_list_output_dir_readable _ _ _ Hread), bind_ret. cbn [app].
  assert (Hin : dir_heading d ∈ output_dirs ≫= dir_lines walk).
  { apply list_elem_of_bind. exists d. split; [|done].
    unfold dir_lines. rewrite Hwalk. left. }
  by destruct (output_dirs ≫= dir_lines walk); [apply elem_of_nil in Hin|].
Qed.

Lemma listing_concatenates_entries_sample :
  list_available_results sample_walk =
  Ret (String.concat "" (output_dirs ≫= dir_lines sample_walk)).
Proof.
  apply listing_concatenates_entries.
  - intros d files e Hd. apply list_elem_of_In in Hd. vm_compute in Hd.
    destruct Hd as [<-|[<-|[<-|[]]]]; intros [= <-] He;
      apply list_elem_of_In in He; vm_compute in He.
    + destruct He as [<-|[<-|[]]]; reflexivity.
    + destruct He.
  - exists "simulation_outputs", []. split; [|reflexivity].
    apply (bool_decide_unpack (("simulation_outputs" : string) ∈ output_dirs)).
    vm_compute. exact I.
Defined.

(** ** The map helpers *)

(** X24. The two map helpers never return a path.  Each reads a name,
    [visualize] or [ImprovedDualPipeDHNetwork], that the module binds only
    inside [import_street_final_modules]; reading it raises, the handler
    prints and returns [None], whatever the collaborator would do. *)
Theorem map_helpers_return_none (makedirs visualize network : res unit)
    (street_name buildings_file output_dir : string) :
  create_real_hp_feasibility_map makedirs visualize output_dir = None ∧
  create_real_dh_network_map makedirs network street_name buildings_file output_dir = None.
Proof.
  unfold create_real_hp_feasibility_map, create_real_dh_network_map.
  assert (Hv : bound "visualize" = false) by (vm_compute; reflexivity).
  assert (Hn : bound "ImprovedDualPipeDHNetwork" = false) by (vm_compute; reflexivity).
  rewrite Hv, Hn. by destruct (returned makedirs).
Qed.
